(** * BiSPy spectral estimates: a shallow embedding of [bispy/spectral.py]

    The classes [Periodogram] and [Multitaper] of [bispy/spectral.py] are
    embedded as Rocq records and their methods as functions in a small
    state-and-exception monad.

    Modelling conventions.
    - A [float64] is a real number of [R]: rounding, overflow, [inf] and
      [nan] are not represented.  Where numpy would produce [nan] or [inf]
      (a zero time step, the mean of an empty axis) the embedding computes a
      real number that no statement below reads.
    - A one-dimensional numpy array is a [list]; a two-dimensional one is the
      list of its rows.
    - A method that assigns attributes of [self] takes the instance and
      returns the updated instance.  Instances live in a store, at an
      address; the operators take addresses and return the address of the
      instance they build.
    - Calls to the collaborators ([qfft.Qfft], [utils.StokesNorm],
      [utils.sympSplit], [spectrum.dpss], [np.fft.fftfreq], [print]) are
      recorded in a log, most recent first, so that "before" and "after" can
      be stated.
    - [__add__], [__mul__] and [__rmul__] are given on the values of their
      operands (modules [Periodogram] and [Multitaper]) and on objects in the
      store (modules [PeriodogramObject] and [MultitaperObject]), where the
      operands are addresses and which object is built, assigned and
      answered is what the body says.
    - [normalize] assigns attributes in two steps, so it runs over the
      instance as its state: what it assigned before an error stays
      assigned.  [utils.normalizeStokes] is a parameter, a function of its
      arguments.
    - [plot] and [_plotResultSpectral] drive matplotlib and are not
      embedded; [_orthogonal_proj] is, on Python numbers. *)

From Stdlib Require Import Reals Lra Lia ZArith String List.
From stdpp Require Import base option list gmap.

Local Open Scope R_scope.

(** ** Complex numbers and quaternions *)

Record complex : Type := cplx { real : R; imag : R }.

Definition cadd (a b : complex) : complex :=
  cplx (real a + real b) (imag a + imag b).

Definition cmul (a b : complex) : complex :=
  cplx (real a * real b - imag a * imag b) (real a * imag b + imag a * real b).

(** The [quaternion] dtype of the numpy-quaternion package: components
    [w + x i + y j + z k]. *)
Record quaternion : Type := quat { qw : R; qx : R; qy : R; qz : R }.

(** [quaternion.y], the unit [j]. *)
Definition quaternion_y : quaternion := quat 0 0 1 0.

Definition quaternion_zero : quaternion := quat 0 0 0 0.

Definition qadd (p q : quaternion) : quaternion :=
  quat (qw p + qw q) (qx p + qx q) (qy p + qy q) (qz p + qz q).

(** Hamilton product, [p * q] on two quaternions. *)
Definition qmul (p q : quaternion) : quaternion :=
  quat (qw p * qw q - qx p * qx q - qy p * qy q - qz p * qz q)
       (qw p * qx q + qx p * qw q + qy p * qz q - qz p * qy q)
       (qw p * qy q - qx p * qz q + qy p * qw q + qz p * qx q)
       (qw p * qz q + qx p * qy q - qy p * qx q + qz p * qw q).

(** [r * q] for a float [r]. *)
Definition rmul (r : R) (q : quaternion) : quaternion :=
  quat (r * qw q) (r * qx q) (r * qy q) (r * qz q).

(** [q * r] for a float [r]. *)
Definition qmulr (q : quaternion) (r : R) : quaternion :=
  quat (qw q * r) (qx q * r) (qy q * r) (qz q * r).

(** [r + q] for a float [r]: the float is added to the scalar part. *)
Definition radd (r : R) (q : quaternion) : quaternion :=
  quat (r + qw q) (qx q) (qy q) (qz q).

(** [np.norm] on a quaternion: the Cayley norm, the sum of the squares of
    the four components (numpy-quaternion registers it as a ufunc). *)
Definition norm (q : quaternion) : R :=
  qw q * qw q + qx q * qx q + qy q * qy q + qz q * qz q.

Definition np_norm (Q : list quaternion) : list R := map norm Q.

(** ** Python values and numpy arrays *)

(** The booleans the source tests with [is True]: Python's own [True] and
    [False], and numpy's [np.bool_] scalars, which are other objects. *)
Inductive pyvalue : Type :=
  | PyBool (b : bool)
  | NpBool (b : bool).

(** [v is True]: identity with Python's [True]. *)
Definition is_True (v : pyvalue) : bool :=
  match v with
  | PyBool true => true
  | _ => false
  end.

(** The input array [x] with its dtype. *)
Inductive ndarray : Type :=
  | FloatArray (a : list R)
  | ComplexArray (a : list complex)
  | QuaternionArray (a : list quaternion).

Inductive dtype : Type := float64 | complex128 | quaternion_dtype.

Definition dtype_of (x : ndarray) : dtype :=
  match x with
  | FloatArray _ => float64
  | ComplexArray _ => complex128
  | QuaternionArray _ => quaternion_dtype
  end.

(** The right operand of [*]: a float or a one-dimensional float array. *)
Inductive operand : Type :=
  | Scalar (r : R)
  | Array (v : list R).

(** [np.size(scalar)]. *)
Definition np_size (s : operand) : nat :=
  match s with
  | Scalar _ => 1%nat
  | Array v => length v
  end.

(** ** Exceptions, the log and the monad *)

Inductive exn : Type :=
  | ValueError (msg : string)
  | IndexError
  | ZeroDivisionError
  | NameError.

(** The names the specification gives to the [ValueError]s of the source. *)
Definition InvalidInputType : exn :=
  ValueError "signal array should be of quaternion type.".

Definition MismatchedAxisError : exn :=
  ValueError "Cannot sum Periodograms with differents time                 arrays".

Definition UnsupportedOperandError : exn :=
  ValueError "Only scalar multiplication is supported".

(** numpy's own [ValueError]s. *)
Definition NegativeDimensions : exn :=
  ValueError "negative dimensions are not allowed".

Definition BroadcastError : exn :=
  ValueError "operands could not be broadcast together".

Inductive event : Type :=
  | ev_fftfreq (N : nat)
  | ev_Qfft (x : list quaternion)
  | ev_StokesNorm (Q : list quaternion)
  | ev_sympSplit (q : list quaternion)
  | ev_dpss (N : nat) (bw : R) (Nmt : nat)
  | ev_print (Nmt : nat).

(** A computation over a state [S] that returns a value or raises; the state
    reached when it raises is kept. *)
Definition ST (S A : Type) : Type := S -> (exn + A) * S.

#[export] Instance ST_ret {S} : MRet (ST S) := fun A a s => (inr a, s).

#[export] Instance ST_bind {S} : MBind (ST S) := fun A B k m s =>
  match m s with
  | (inr a, s') => k a s'
  | (inl e, s') => (inl e, s')
  end.

Definition raise {S A} (e : exn) : ST S A := fun s => (inl e, s).

(** A pure partial operation, run inside a computation. *)
Definition liftE {S A} (r : exn + A) : ST S A := fun s => (r, s).

(** Reading and assigning the whole state. *)
Definition get {S} : ST S S := fun s => (inr s, s).

Definition put {S} (s : S) : ST S unit := fun _ => (inr tt, s).

(** Methods of the two classes run over the log alone. *)
Abbreviation T := (ST (list event)).

Definition emit (e : event) : T unit := fun l => (inr tt, e :: l).

(** ** numpy operations *)

(** [t[1] - t[0]]; indexing past the end raises [IndexError]. *)
Definition time_step {S} (t : list R) : ST S R :=
  match t with
  | t0 :: t1 :: _ => mret (t1 - t0)
  | _ => raise IndexError
  end.

(** [np.fft.fftfreq(N)] with the default spacing [d = 1.0]:
    [val = 1.0 / (n * d)] raises [ZeroDivisionError] for [n = 0]; entry [k] is
    [k * val] for [k < (n - 1) // 2 + 1] and [(k - n) * val] after. *)
Definition fftfreq_index (N k : nat) : Z :=
  if (k <? (N - 1) / 2 + 1)%nat then Z.of_nat k else (Z.of_nat k - Z.of_nat N)%Z.

Definition fftfreq_values (N : nat) : list R :=
  map (fun k => IZR (fftfreq_index N k) * (1 / (INR N * 1))) (seq 0 N).

Definition np_fft_fftfreq (N : nat) : T (list R) :=
  emit (ev_fftfreq N);;
  match N with
  | O => raise ZeroDivisionError
  | _ => mret (fftfreq_values N)
  end.

(** [np.zeros(N, dtype='quaternion')] and [np.zeros_like] on a float array. *)
Definition np_zeros (N : nat) : list quaternion := repeat quaternion_zero N.

Definition np_zeros_like (a : list R) : list R := repeat 0 (length a).

(** [np.zeros((N, Nmt), ...)]: a negative dimension raises [ValueError]. *)
Definition np_zeros2 {S A} (zero : A) (N : nat) (Nmt : Z) : ST S (list (list A)) :=
  if (Nmt <? 0)%Z then raise NegativeDimensions
  else mret (repeat (repeat zero (Z.to_nat Nmt)) N).

(** [np.size(a, 0)] and [np.size(a, 1)] of a two-dimensional array held as the
    list of its rows.  (An array with no row has lost its second dimension
    here; the constructors build none, [np.fft.fftfreq(0)] raises before.) *)
Definition size0 {A} (a : list (list A)) : nat := length a.

Definition size1 {A} (a : list (list A)) : nat :=
  match a with
  | [] => O
  | row :: _ => length row
  end.

(** Element-wise binary operation on one-dimensional arrays with numpy's
    broadcasting: equal lengths, or one operand of length one. *)
Definition broadcast2 {A B C} (op : A -> B -> C) (a : list A) (b : list B)
  : exn + list C :=
  if (length a =? length b)%nat then inr (zip_with op a b)
  else match a, b with
       | [a0], _ => inr (map (op a0) b)
       | _, [b0] => inr (map (fun ai => op ai b0) a)
       | _, _ => inl BroadcastError
       end.

(** [a + b] on quaternion arrays. *)
Definition np_add (a b : list quaternion) : exn + list quaternion :=
  broadcast2 qadd a b.

(** [scalar * density]. *)
Definition np_multiply (scalar : operand) (d : list quaternion)
  : exn + list quaternion :=
  match scalar with
  | Scalar r => inr (map (rmul r) d)
  | Array v => broadcast2 rmul v d
  end.

(** [a != b] on float arrays: element-wise, with broadcasting.  For shapes
    that do not broadcast, the numpy the code was written for answers the
    Python scalar [True] (with a deprecation warning). *)
Inductive comparison_result : Type :=
  | ElementWise (bs : list bool)
  | PyScalar (b : bool).

Definition Rneb (a b : R) : bool := if Req_dec_T a b then false else true.

Definition np_not_equal (a b : list R) : comparison_result :=
  match broadcast2 Rneb a b with
  | inr bs => ElementWise bs
  | inl _ => PyScalar true
  end.

(** [np.any]: always a [np.bool_], whatever it is given. *)
Definition np_any (c : comparison_result) : pyvalue :=
  match c with
  | ElementWise bs => NpBool (existsb (fun b => b) bs)
  | PyScalar b => NpBool b
  end.

(** [a[:, n]] and [a[:, n] = col] on a two-dimensional array. *)
Definition get_column {A} (n : nat) (a : list (list A)) : exn + list A :=
  match mapM (fun row : list A => row !! n) a with
  | Some col => inr col
  | None => inl IndexError
  end.

Definition set_column {A} (n : nat) (col : list A) (a : list (list A))
  : exn + list (list A) :=
  if (size1 a <=? n)%nat then inl IndexError
  else if (length col =? length a)%nat
       then inr (zip_with (fun row v => <[n := v]> row) a col)
       else match col with
            | [v] => inr (map (fun row => <[n := v]> row) a)
            | _ => inl BroadcastError
            end.

(** [np.mean(..., axis=1)] on the float view of a quaternion array:
    component by component along each row. *)
Definition Rsum (l : list R) : R := fold_right Rplus 0 l.

Definition mean (l : list R) : R := Rsum l / INR (length l).

Definition quaternion_mean (row : list quaternion) : quaternion :=
  quat (mean (map qw row)) (mean (map qx row))
       (mean (map qy row)) (mean (map qz row)).

Definition mean_axis1 (a : list (list quaternion)) : list quaternion :=
  map quaternion_mean a.

(** [a**2], [a + b] and [np.sqrt(a)] on float arrays. *)
Definition np_square (a : list R) : list R := map (fun v => v ^ 2) a.

Definition np_add_float (a b : list R) : exn + list R := broadcast2 Rplus a b.

Definition np_sqrt (a : list R) : list R := map sqrt a.

(** [np.fft.fft]: the discrete Fourier transform,
    [A_k = sum_m a_m exp(-2 pi i m k / n)]. *)
Definition cis (theta : R) : complex := cplx (cos theta) (sin theta).

Definition csum (l : list complex) : complex := fold_right cadd (cplx 0 0) l.

Definition np_fft_fft (a : list complex) : list complex :=
  let n := length a in
  map (fun k =>
         csum (imap (fun m am =>
                       cmul am (cis (- (2 * PI * INR m * INR k / INR n)))) a))
      (seq 0 n).

(** ** Collaborators of [spectral.py] *)

(** The helpers [spectral.py] imports whose source is not at hand and whose
    values the specification leaves open, taken as parameters:
    - [StokesNorm_entry], what [utils.StokesNorm] makes of one entry of the
      quaternion array it is given;
    - [dpss_tapers N bw Nmt], what [dpss(N, bw, Nmt)] of the package
      [spectrum] does: it raises, or returns [Nmt] tapers of length [N]
      (entry [k] of taper [n] is [tapers k n]) and their eigenvalues, the
      shape the specification gives to the taper bank (section 6). *)
Class Collaborators : Type := {
  StokesNorm_entry : quaternion -> quaternion;
  dpss_tapers : nat -> R -> nat -> exn + ((nat -> nat -> R) * list R)
}.

(** [utils.normalizeStokes(S0, S1, S2, S3, tol=tol)], whose source is not
    at hand either and whose guard the specification leaves open (section
    4.6), taken as a parameter: a function of the arrays and the tolerance
    it is given, which raises or returns three arrays. *)
Class Normalizer : Type := {
  normalizeStokes :
    list R -> list R -> list R -> list R -> R -> exn + (list R * list R * list R)
}.

(** Modelled from the spec: [utils.sympSplit] (section 4.1), which is not
    among the sources.  A quaternion [a + i b + j c + k d] gives
    [g1 = a + i b] and [g2 = d + i c]. *)
Definition sympSplit (q : list quaternion) : list complex * list complex :=
  (map (fun v => cplx (qw v) (qx v)) q, map (fun v => cplx (qz v) (qy v)) q).

(** Modelled from the spec: the inverse of the symplectic split, used by the
    transform of section 4.2 to recombine its two halves. *)
Definition sympSynth (g1 g2 : list complex) : list quaternion :=
  zip_with (fun a b => quat (real a) (imag a) (imag b) (real b)) g1 g2.

(** Modelled from the spec: [qfft.Qfft] (section 4.2), which is not among the
    sources: split, transform each half with [np.fft.fft], recombine. *)
Definition Qfft (x : list quaternion) : list quaternion :=
  let '(x1, x2) := sympSplit x in
  sympSynth (np_fft_fft x1) (np_fft_fft x2).

(** The calls as the methods make them, each leaving its mark in the log. *)
Definition qfft_Qfft (x : list quaternion) : T (list quaternion) :=
  emit (ev_Qfft x);; mret (Qfft x).

Definition utils_sympSplit (q : list quaternion)
  : T (list complex * list complex) :=
  emit (ev_sympSplit q);; mret (sympSplit q).

(** Modelled from the spec: [utils.StokesNorm], which is not among the
    sources, acts on each entry of the array it is given (section 4.3 writes
    [StokesNorm(Q[k])]); what it makes of an entry is the parameter
    [StokesNorm_entry]. *)
Definition utils_StokesNorm `{Collaborators} (Q : list quaternion)
  : T (list quaternion) :=
  emit (ev_StokesNorm Q);; mret (map StokesNorm_entry Q).

Definition spectrum_dpss `{Collaborators} (N : nat) (bw : R) (Nmt : nat)
  : T (list (list R) * list R) :=
  emit (ev_dpss N bw Nmt);;
  '(tapers, eigens) ← liftE (dpss_tapers N bw Nmt);
  mret (map (fun k => map (fun n => tapers k n) (seq 0 Nmt)) (seq 0 N), eigens).

Definition print (Nmt : nat) : T unit := emit (ev_print Nmt).

(** [for x in xs: body], threading what the body assigns. *)
Fixpoint for_each {S A B} (xs : list A) (body : A -> B -> ST S B) (acc : B)
  : ST S B :=
  match xs with
  | [] => mret acc
  | x :: xs' => acc' ← body x acc; for_each xs' body acc'
  end.

(** The spectral term both estimators scale:
    [np.norm(QFTx) + utils.StokesNorm(QFTx) * quaternion.y]. *)
Definition spectral_term (QFTx SN : list quaternion) : list quaternion :=
  zip_with radd (np_norm QFTx) (map (fun s => qmul s quaternion_y) SN).

(** ** class Periodogram *)

Module Periodogram.

Record instance : Type := Build {
  t : list R;
  signal : list quaternion;
  f : list R;
  density : list quaternion;
  S0 : list R; S1 : list R; S2 : list R; S3 : list R;
  S1n : list R; S2n : list R; S3n : list R;
  Phi : list R
}.

(** Attribute assignments.  An attribute not assigned yet is held as the
    empty array; no method reads one before it is assigned. *)
Definition fresh_instance (t0 : list R) (x : list quaternion) : instance :=
  Build t0 x [] [] [] [] [] [] [] [] [] [].

Definition set_f (v : list R) (self : instance) : instance :=
  Build (t self) (signal self) v (density self)
        (S0 self) (S1 self) (S2 self) (S3 self)
        (S1n self) (S2n self) (S3n self) (Phi self).

Definition set_density (v : list quaternion) (self : instance) : instance :=
  Build (t self) (signal self) (f self) v
        (S0 self) (S1 self) (S2 self) (S3 self)
        (S1n self) (S2n self) (S3n self) (Phi self).

Definition set_Stokes (s0 s1 s2 s3 : list R) (self : instance) : instance :=
  Build (t self) (signal self) (f self) (density self)
        s0 s1 s2 s3
        (S1n self) (S2n self) (S3n self) (Phi self).

Definition set_normalized (s1n s2n s3n phi : list R) (self : instance)
  : instance :=
  Build (t self) (signal self) (f self) (density self)
        (S0 self) (S1 self) (S2 self) (S3 self)
        s1n s2n s3n phi.

Section Methods.
Context `{Collaborators}.

(** [compute(self)] *)
Definition compute (self : instance) : T instance :=
  dt ← time_step (t self);
  let N := length (signal self) in
  QFTx ← qfft_Qfft (signal self);
  SN ← utils_StokesNorm QFTx;
  mret (set_density (map (rmul (dt / INR N)) (spectral_term QFTx SN)) self).

(** [_getStokes(self)] *)
Definition _getStokes (self : instance)
  : T (list R * list R * list R * list R) :=
  '(g1, g2) ← utils_sympSplit (density self);
  let s0 := map real g1 in
  let s1 := map imag g1 in
  let s3 := map real g2 in
  let s2 := map imag g2 in
  mret (s0, s1, s2, s3).

(** [__init__(self, t, x, computeFlag=True)] *)
Definition __init__ (t0 : list R) (x : ndarray) (computeFlag : pyvalue)
  : T instance :=
  match x with
  | QuaternionArray xs =>
      let self := fresh_instance t0 xs in
      let N := length xs in
      dt ← time_step t0;
      freqs ← np_fft_fftfreq N;
      let self := set_f (map (fun v => v / dt) freqs) self in
      let self := set_density (np_zeros N) self in
      self ← (if is_True computeFlag then compute self else mret self);
      '(s0, s1, s2, s3) ← _getStokes self;
      let self := set_Stokes s0 s1 s2 s3 self in
      let self := set_normalized (np_zeros_like s0) (np_zeros_like s0)
                                 (np_zeros_like s0) (np_zeros_like s0) self in
      mret self
  | _ => raise InvalidInputType
  end.

(** [__add__(self, other)] *)
Definition __add__ (self other : instance) : T instance :=
  if is_True (np_any (np_not_equal (t self) (t other)))
  then raise MismatchedAxisError
  else
    new ← __init__ (t self) (QuaternionArray (signal self)) (PyBool false);
    d ← liftE (np_add (density self) (density other));
    let new := set_density d new in
    '(s0, s1, s2, s3) ← _getStokes new;
    mret (set_Stokes s0 s1 s2 s3 new).

(** [__mul__(self, scalar)] *)
Definition __mul__ (self : instance) (scalar : operand) : T instance :=
  if (1 <? np_size scalar)%nat
  then raise UnsupportedOperandError
  else
    new ← __init__ (t self) (QuaternionArray (signal self)) (PyBool false);
    d ← liftE (np_multiply scalar (density self));
    let new := set_density d new in
    '(s0, s1, s2, s3) ← _getStokes new;
    mret (set_Stokes s0 s1 s2 s3 new).

(** [__rmul__(self, scalar)] *)
Definition __rmul__ (self : instance) (scalar : operand) : T instance :=
  __mul__ self scalar.

(** [normalize(self, tol=0.0)].  The method assigns attributes of [self] one
    after the other, so it runs over the instance: what was assigned before
    an error stays assigned. *)
Definition default_tol : R := 0.

Definition normalize `{Normalizer} (tol : R) : ST instance unit :=
  self ← get;
  '(s1n, s2n, s3n) ← liftE (normalizeStokes (S0 self) (S1 self) (S2 self)
                                            (S3 self) tol);
  put (set_normalized s1n s2n s3n (Phi self) self);;
  self ← get;
  sq ← liftE (np_add_float (np_square (S1n self)) (np_square (S2n self)));
  sq ← liftE (np_add_float sq (np_square (S3n self)));
  put (set_normalized (S1n self) (S2n self) (S3n self) (np_sqrt sq) self).

End Methods.
End Periodogram.

(** ** class Multitaper *)

Module Multitaper.

Record instance : Type := Build {
  t : list R;
  signal : list quaternion;
  f : list R;
  densities : list (list quaternion);
  dpss : list (list R);
  density : list quaternion;
  S0 : list R; S1 : list R; S2 : list R; S3 : list R;
  S1n : list R; S2n : list R; S3n : list R;
  Phi : list R
}.

Definition fresh_instance (t0 : list R) (x : list quaternion) : instance :=
  Build t0 x [] [] [] [] [] [] [] [] [] [] [] [].

Definition set_f (v : list R) (self : instance) : instance :=
  Build (t self) (signal self) v (densities self) (dpss self) (density self)
        (S0 self) (S1 self) (S2 self) (S3 self)
        (S1n self) (S2n self) (S3n self) (Phi self).

Definition set_densities (v : list (list quaternion)) (self : instance)
  : instance :=
  Build (t self) (signal self) (f self) v (dpss self) (density self)
        (S0 self) (S1 self) (S2 self) (S3 self)
        (S1n self) (S2n self) (S3n self) (Phi self).

Definition set_dpss (v : list (list R)) (self : instance) : instance :=
  Build (t self) (signal self) (f self) (densities self) v (density self)
        (S0 self) (S1 self) (S2 self) (S3 self)
        (S1n self) (S2n self) (S3n self) (Phi self).

Definition set_density (v : list quaternion) (self : instance) : instance :=
  Build (t self) (signal self) (f self) (densities self) (dpss self) v
        (S0 self) (S1 self) (S2 self) (S3 self)
        (S1n self) (S2n self) (S3n self) (Phi self).

Definition set_Stokes (s0 s1 s2 s3 : list R) (self : instance) : instance :=
  Build (t self) (signal self) (f self) (densities self) (dpss self)
        (density self) s0 s1 s2 s3
        (S1n self) (S2n self) (S3n self) (Phi self).

Definition set_normalized (s1n s2n s3n phi : list R) (self : instance)
  : instance :=
  Build (t self) (signal self) (f self) (densities self) (dpss self)
        (density self) (S0 self) (S1 self) (S2 self) (S3 self)
        s1n s2n s3n phi.

(** The default value of the keyword [bw]. *)
Definition default_bw : R := 5 / 2.

Section Methods.
Context `{Collaborators}.

(** The body of [for n in range(Nmt)] in [compute]. *)
Definition tapered_periodogram (dt : R) (n : nat) (self : instance)
  : T instance :=
  taper ← liftE (get_column n (dpss self));
  xn ← liftE (broadcast2 qmulr (signal self) taper);
  QFTx ← qfft_Qfft xn;
  SN ← utils_StokesNorm QFTx;
  ds ← liftE (set_column n (map (rmul dt) (spectral_term QFTx SN))
                         (densities self));
  mret (set_densities ds self).

(** [compute(self, bw=2.5)] *)
Definition compute (self : instance) (bw : R) : T instance :=
  let N := size0 (dpss self) in
  let Nmt := size1 (dpss self) in
  dt ← time_step (t self);
  print Nmt;;
  '(tapers, eigens) ← spectrum_dpss N bw Nmt;
  let self := set_dpss tapers self in
  for_each (seq 0 Nmt) (tapered_periodogram dt) self.

(** [_getStokes(self)] *)
Definition _getStokes (self : instance)
  : T (list R * list R * list R * list R) :=
  '(g1, g2) ← utils_sympSplit (density self);
  let s0 := map real g1 in
  let s1 := map imag g1 in
  let s3 := map real g2 in
  let s2 := map imag g2 in
  mret (s0, s1, s2, s3).

(** [__init__(self, t, x, bw=2.5, computeFlag=True)] *)
Definition __init__ (t0 : list R) (x : ndarray) (bw : R)
    (computeFlag : pyvalue) : T instance :=
  match x with
  | QuaternionArray xs =>
      let self := fresh_instance t0 xs in
      let N := length xs in
      dt ← time_step t0;
      freqs ← np_fft_fftfreq N;
      let self := set_f (map (fun v => v / dt) freqs) self in
      let Nmt := (Zfloor (2 * bw) - 1)%Z in
      ds ← np_zeros2 quaternion_zero N Nmt;
      let self := set_densities ds self in
      tp ← np_zeros2 0 N Nmt;
      let self := set_dpss tp self in
      self ← (if is_True computeFlag then compute self bw else mret self);
      let self := set_density (mean_axis1 (densities self)) self in
      '(s0, s1, s2, s3) ← _getStokes self;
      let self := set_Stokes s0 s1 s2 s3 self in
      let self := set_normalized (np_zeros_like s0) (np_zeros_like s0)
                                 (np_zeros_like s0) (np_zeros_like s0) self in
      mret self
  | _ => raise InvalidInputType
  end.

(** [__add__(self, other)] *)
Definition __add__ (self other : instance) : T instance :=
  if is_True (np_any (np_not_equal (t self) (t other)))
  then raise MismatchedAxisError
  else
    new ← __init__ (t self) (QuaternionArray (signal self)) default_bw
                   (PyBool false);
    d ← liftE (np_add (density self) (density other));
    let new := set_density d new in
    '(s0, s1, s2, s3) ← _getStokes new;
    mret (set_Stokes s0 s1 s2 s3 new).

(** [__mul__(self, scalar)] *)
Definition __mul__ (self : instance) (scalar : operand) : T instance :=
  if (1 <? np_size scalar)%nat
  then raise UnsupportedOperandError
  else
    new ← __init__ (t self) (QuaternionArray (signal self)) default_bw
                   (PyBool false);
    d ← liftE (np_multiply scalar (density self));
    let new := set_density d new in
    '(s0, s1, s2, s3) ← _getStokes new;
    mret (set_Stokes s0 s1 s2 s3 new).

(** [__rmul__(self, scalar)] *)
Definition __rmul__ (self : instance) (scalar : operand) : T instance :=
  __mul__ self scalar.

(** [normalize(self, tol=0.0)].  The method assigns attributes of [self] one
    after the other, so it runs over the instance: what was assigned before
    an error stays assigned. *)
Definition default_tol : R := 0.

Definition normalize `{Normalizer} (tol : R) : ST instance unit :=
  self ← get;
  '(s1n, s2n, s3n) ← liftE (normalizeStokes (S0 self) (S1 self) (S2 self)
                                            (S3 self) tol);
  put (set_normalized s1n s2n s3n (Phi self) self);;
  self ← get;
  sq ← liftE (np_add_float (np_square (S1n self)) (np_square (S2n self)));
  sq ← liftE (np_add_float sq (np_square (S3n self)));
  put (set_normalized (S1n self) (S2n self) (S3n self) (np_sqrt sq) self).

End Methods.
End Multitaper.

(** ** The store of instances and the public operations *)

(** An address of the store. *)
Abbreviation loc := positive.

Record world : Type := World {
  periodograms : gmap loc Periodogram.instance;
  multitapers : gmap loc Multitaper.instance;
  log : list event
}.

Definition empty_world : world := World ∅ ∅ [].

Abbreviation W := (ST world).

(** A method run in the world: it sees and extends the log only. *)
Definition run {A} (m : T A) : W A := fun w =>
  let '(r, l) := m (log w) in
  (r, World (periodograms w) (multitapers w) l).

(** Reading a name: the instance it is bound to. *)
Definition load_P (a : loc) : W Periodogram.instance := fun w =>
  match periodograms w !! a with
  | Some p => (inr p, w)
  | None => (inl NameError, w)
  end.

Definition load_M (a : loc) : W Multitaper.instance := fun w =>
  match multitapers w !! a with
  | Some m => (inr m, w)
  | None => (inl NameError, w)
  end.

(** A new instance is stored at an address not in use. *)
Definition alloc_P (p : Periodogram.instance) : W loc := fun w =>
  let a := fresh (dom (periodograms w)) in
  (inr a, World (<[a := p]> (periodograms w)) (multitapers w) (log w)).

Definition alloc_M (m : Multitaper.instance) : W loc := fun w =>
  let a := fresh (dom (multitapers w)) in
  (inr a, World (periodograms w) (<[a := m]> (multitapers w)) (log w)).

(** A method that assigns attributes of [self] updates the stored instance. *)
Definition store_P (a : loc) (p : Periodogram.instance) : W unit := fun w =>
  (inr tt, World (<[a := p]> (periodograms w)) (multitapers w) (log w)).

Definition store_M (a : loc) (m : Multitaper.instance) : W unit := fun w =>
  (inr tt, World (periodograms w) (<[a := m]> (multitapers w)) (log w)).

(** A method that assigns attributes of [self] as it goes: the stored
    instance is what the method left, whether it returned or raised. *)
Definition on_P (a : loc) (m : ST Periodogram.instance unit) : W unit :=
  self ← load_P a;
  let '(r, self') := m self in
  store_P a self';; liftE r.

Definition on_M (a : loc) (m : ST Multitaper.instance unit) : W unit :=
  self ← load_M a;
  let '(r, self') := m self in
  store_M a self';; liftE r.

Section PublicOperations.
Context `{Collaborators}.

(** [Periodogram(t, x, computeFlag)] *)
Definition new_Periodogram (t : list R) (x : ndarray) (computeFlag : pyvalue)
  : W loc :=
  p ← run (Periodogram.__init__ t x computeFlag);
  alloc_P p.

(** [a + b], [a * s], [a.__rmul__(s)] (what [s * a] calls for a Python
    number [s]) and [a.compute()] on periodograms. *)
Definition add_Periodogram (a b : loc) : W loc :=
  self ← load_P a;
  other ← load_P b;
  new ← run (Periodogram.__add__ self other);
  alloc_P new.

Definition mul_Periodogram (a : loc) (s : operand) : W loc :=
  self ← load_P a;
  new ← run (Periodogram.__mul__ self s);
  alloc_P new.

Definition rmul_Periodogram (s : operand) (a : loc) : W loc :=
  self ← load_P a;
  new ← run (Periodogram.__rmul__ self s);
  alloc_P new.

Definition compute_Periodogram (a : loc) : W unit :=
  self ← load_P a;
  self' ← run (Periodogram.compute self);
  store_P a self'.

(** [Multitaper(t, x, bw, computeFlag)] *)
Definition new_Multitaper (t : list R) (x : ndarray) (bw : R)
    (computeFlag : pyvalue) : W loc :=
  m ← run (Multitaper.__init__ t x bw computeFlag);
  alloc_M m.

(** [a + b], [a * s], [a.__rmul__(s)] and [a.compute(bw)] on multitaper
    estimates. *)
Definition add_Multitaper (a b : loc) : W loc :=
  self ← load_M a;
  other ← load_M b;
  new ← run (Multitaper.__add__ self other);
  alloc_M new.

Definition mul_Multitaper (a : loc) (s : operand) : W loc :=
  self ← load_M a;
  new ← run (Multitaper.__mul__ self s);
  alloc_M new.

Definition rmul_Multitaper (s : operand) (a : loc) : W loc :=
  self ← load_M a;
  new ← run (Multitaper.__rmul__ self s);
  alloc_M new.

Definition compute_Multitaper (a : loc) (bw : R) : W unit :=
  self ← load_M a;
  self' ← run (Multitaper.compute self bw);
  store_M a self'.

(** [a.normalize(tol)] on either class. *)
Definition normalize_Periodogram `{Normalizer} (a : loc) (tol : R) : W unit :=
  on_P a (Periodogram.normalize tol).

Definition normalize_Multitaper `{Normalizer} (a : loc) (tol : R) : W unit :=
  on_M a (Multitaper.normalize tol).

End PublicOperations.

(** ** The operators on objects *)

(** [+] and [*] receive their operands by reference, build an object and
    assign attributes of it.  Here [__add__], [__mul__] and [__rmul__] are
    written over the store of objects: [self] and [other] are addresses, an
    attribute is read from the instance at its address, the call of the
    class stores a new instance at an address not in use, an assignment to
    an attribute updates the instance at its address, and the method answers
    an address.  Which object is built, assigned and answered is what the
    body says. *)
Definition getattr_P {A} (a : loc) (field : Periodogram.instance -> A)
  : W A :=
  p ← load_P a; mret (field p).

Definition setattr_P (a : loc)
    (assign : Periodogram.instance -> Periodogram.instance) : W unit :=
  p ← load_P a; store_P a (assign p).

Definition getattr_M {A} (a : loc) (field : Multitaper.instance -> A)
  : W A :=
  m ← load_M a; mret (field m).

Definition setattr_M (a : loc)
    (assign : Multitaper.instance -> Multitaper.instance) : W unit :=
  m ← load_M a; store_M a (assign m).

Module PeriodogramObject.
Section Methods.
Context `{Collaborators}.

(** [new._getStokes()] *)
Definition _getStokes (self : loc)
  : W (list R * list R * list R * list R) :=
  p ← load_P self; run (Periodogram._getStokes p).

(** [__add__(self, other)] *)
Definition __add__ (self other : loc) : W loc :=
  t1 ← getattr_P self Periodogram.t;
  t2 ← getattr_P other Periodogram.t;
  if is_True (np_any (np_not_equal t1 t2))
  then raise MismatchedAxisError
  else
    t ← getattr_P self Periodogram.t;
    x ← getattr_P self Periodogram.signal;
    new ← new_Periodogram t (QuaternionArray x) (PyBool false);
    d1 ← getattr_P self Periodogram.density;
    d2 ← getattr_P other Periodogram.density;
    d ← liftE (np_add d1 d2);
    setattr_P new (Periodogram.set_density d);;
    '(s0, s1, s2, s3) ← _getStokes new;
    setattr_P new (Periodogram.set_Stokes s0 s1 s2 s3);;
    mret new.

(** [__mul__(self, scalar)] *)
Definition __mul__ (self : loc) (scalar : operand) : W loc :=
  if (1 <? np_size scalar)%nat
  then raise UnsupportedOperandError
  else
    t ← getattr_P self Periodogram.t;
    x ← getattr_P self Periodogram.signal;
    new ← new_Periodogram t (QuaternionArray x) (PyBool false);
    d1 ← getattr_P self Periodogram.density;
    d ← liftE (np_multiply scalar d1);
    setattr_P new (Periodogram.set_density d);;
    '(s0, s1, s2, s3) ← _getStokes new;
    setattr_P new (Periodogram.set_Stokes s0 s1 s2 s3);;
    mret new.

(** [__rmul__(self, scalar)] *)
Definition __rmul__ (self : loc) (scalar : operand) : W loc :=
  __mul__ self scalar.

End Methods.
End PeriodogramObject.

Module MultitaperObject.
Section Methods.
Context `{Collaborators}.

(** [new._getStokes()] *)
Definition _getStokes (self : loc)
  : W (list R * list R * list R * list R) :=
  m ← load_M self; run (Multitaper._getStokes m).

(** [__add__(self, other)] *)
Definition __add__ (self other : loc) : W loc :=
  t1 ← getattr_M self Multitaper.t;
  t2 ← getattr_M other Multitaper.t;
  if is_True (np_any (np_not_equal t1 t2))
  then raise MismatchedAxisError
  else
    t ← getattr_M self Multitaper.t;
    x ← getattr_M self Multitaper.signal;
    new ← new_Multitaper t (QuaternionArray x) Multitaper.default_bw
                         (PyBool false);
    d1 ← getattr_M self Multitaper.density;
    d2 ← getattr_M other Multitaper.density;
    d ← liftE (np_add d1 d2);
    setattr_M new (Multitaper.set_density d);;
    '(s0, s1, s2, s3) ← _getStokes new;
    setattr_M new (Multitaper.set_Stokes s0 s1 s2 s3);;
    mret new.

(** [__mul__(self, scalar)] *)
Definition __mul__ (self : loc) (scalar : operand) : W loc :=
  if (1 <? np_size scalar)%nat
  then raise UnsupportedOperandError
  else
    t ← getattr_M self Multitaper.t;
    x ← getattr_M self Multitaper.signal;
    new ← new_Multitaper t (QuaternionArray x) Multitaper.default_bw
                         (PyBool false);
    d1 ← getattr_M self Multitaper.density;
    d ← liftE (np_multiply scalar d1);
    setattr_M new (Multitaper.set_density d);;
    '(s0, s1, s2, s3) ← _getStokes new;
    setattr_M new (Multitaper.set_Stokes s0 s1 s2 s3);;
    mret new.

(** [__rmul__(self, scalar)] *)
Definition __rmul__ (self : loc) (scalar : operand) : W loc :=
  __mul__ self scalar.

End Methods.
End MultitaperObject.

(** ** Module-level functions *)

(** Python's [/] on numbers: a zero divisor raises. *)
Definition py_div (a b : R) : exn + R :=
  if Req_dec_T b 0 then inl ZeroDivisionError else inr (a / b).

(** [_orthogonal_proj(zfront, zback)], on Python numbers, as matplotlib
    calls it; the result is the array of its four rows. *)
Definition _orthogonal_proj (zfront zback : R) : exn + list (list R) :=
  match py_div (zfront + zback) (zfront - zback) with
  | inl e => inl e
  | inr a =>
      match py_div (-2 * (zfront * zback)) (zfront - zback) with
      | inl e => inl e
      | inr b =>
          inr [[1; 0; 0; 0];
               [0; 1; 0; 0];
               [0; 0; a; b];
               [0; 0; -0.0001; zback]]
      end
  end.

(** ** What the constructors and the operators build *)

(** [np.fft.fftfreq(N) / dt] *)
Definition frequency_axis (N : nat) (dt : R) : list R :=
  map (fun v => v / dt) (fftfreq_values N).

(** The periodogram density of [compute]: entry by entry,
    [dt / N * (norm(Q) + StokesNorm(Q) * j)] on [Q = Qfft(x)]. *)
Definition periodogram_entry `{Collaborators} (dt : R) (N : nat)
    (q : quaternion) : quaternion :=
  rmul (dt / INR N) (radd (norm q) (qmul (StokesNorm_entry q) quaternion_y)).

(** The tapered density of [Multitaper.compute]: entry by entry,
    [dt * (norm(Q) + StokesNorm(Q) * j)] on [Q = Qfft(x * taper)]. *)
Definition tapered_entry `{Collaborators} (dt : R) (q : quaternion)
  : quaternion :=
  rmul dt (radd (norm q) (qmul (StokesNorm_entry q) quaternion_y)).

(** The periodogram on [(t, x)] with time step [dt] whose density is [d]:
    Stokes parameters read off [d], normalized fields zero. *)
Definition estimate_P (t : list R) (x : list quaternion) (dt : R)
    (d : list quaternion) : Periodogram.instance :=
  let z := repeat 0 (length x) in
  Periodogram.Build t x (frequency_axis (length x) dt) d
    (map qw d) (map qx d) (map qy d) (map qz d) z z z z.

(** What [Periodogram.__init__] leaves in [density], and in the log before
    it reads the Stokes parameters: [compute] runs only when [computeFlag]
    is Python's [True]. *)
Definition P_built_density `{Collaborators} (flag : pyvalue) (dt : R)
    (x : list quaternion) : list quaternion :=
  if is_True flag then map (periodogram_entry dt (length x)) (Qfft x)
  else np_zeros (length x).

Definition P_built_log (flag : pyvalue) (x : list quaternion)
    (l : list event) : list event :=
  if is_True flag
  then ev_StokesNorm (Qfft x) :: ev_Qfft x :: ev_fftfreq (length x) :: l
  else ev_fftfreq (length x) :: l.

(** What [__add__] and [__mul__] do once past their guard: build a deferred
    estimate on the data of [self], give it the density [d], read the Stokes
    parameters off [d]. *)
Definition P_combine (self : Periodogram.instance)
    (d : exn + list quaternion) (l : list event)
  : (exn + Periodogram.instance) * list event :=
  match Periodogram.t self, Periodogram.signal self with
  | t0 :: t1 :: _, _ :: _ =>
      let N := length (Periodogram.signal self) in
      match d with
      | inr d =>
          (inr (estimate_P (Periodogram.t self) (Periodogram.signal self)
                           (t1 - t0) d),
           ev_sympSplit d :: ev_sympSplit (np_zeros N) :: ev_fftfreq N :: l)
      | inl e => (inl e, ev_sympSplit (np_zeros N) :: ev_fftfreq N :: l)
      end
  | _ :: _ :: _, [] => (inl ZeroDivisionError, ev_fftfreq 0 :: l)
  | _, _ => (inl IndexError, l)
  end.

(** A two-dimensional array of shape [(n, m)]. *)
Definition is_matrix {A} (n m : nat) (a : list (list A)) : Prop :=
  length a = n /\ Forall (fun row => length row = m) a.

(** The taper bank as [spectrum_dpss] lays it out, and its column [n]. *)
Definition taper_bank (tapers : nat -> nat -> R) (N Nmt : nat)
  : list (list R) :=
  map (fun k => map (fun n => tapers k n) (seq 0 Nmt)) (seq 0 N).

Definition taper_column (tapers : nat -> nat -> R) (N n : nat) : list R :=
  map (fun k => tapers k n) (seq 0 N).

(** Column [n] of [densities] after [Multitaper.compute]. *)
Definition tapered_density `{Collaborators} (dt : R) (x : list quaternion)
    (taper : list R) : list quaternion :=
  map (tapered_entry dt) (Qfft (zip_with qmulr x taper)).

(** The multitaper instance as [__init__] has it when it reaches
    [if computeFlag is True]. *)
Definition M_blank (t : list R) (x : list quaternion) (dt : R) (Nmt : Z)
  : Multitaper.instance :=
  let N := length x in
  Multitaper.Build t x (frequency_axis N dt)
    (repeat (repeat quaternion_zero (Z.to_nat Nmt)) N)
    (repeat (repeat 0 (Z.to_nat Nmt)) N) [] [] [] [] [] [] [] [] [].

(** The last lines of [Multitaper.__init__]: average the tapered
    periodograms, read the Stokes parameters, zero the normalized fields. *)
Definition M_finish (self : Multitaper.instance) : Multitaper.instance :=
  let d := mean_axis1 (Multitaper.densities self) in
  let z := repeat 0 (length d) in
  Multitaper.Build (Multitaper.t self) (Multitaper.signal self)
    (Multitaper.f self) (Multitaper.densities self) (Multitaper.dpss self) d
    (map qw d) (map qx d) (map qy d) (map qz d) z z z z.

Definition M_finish_run (r : (exn + Multitaper.instance) * list event)
  : (exn + Multitaper.instance) * list event :=
  match r with
  | (inr self, l) =>
      (inr (M_finish self),
       ev_sympSplit (mean_axis1 (Multitaper.densities self)) :: l)
  | (inl e, l) => (inl e, l)
  end.

(** The multitaper estimate on [(t, x)] with time step [dt], per-taper
    densities [ds], tapers [tp] and density [d]. *)
Definition estimate_M (t : list R) (x : list quaternion) (dt : R)
    (ds : list (list quaternion)) (tp : list (list R)) (d : list quaternion)
  : Multitaper.instance :=
  let z := repeat 0 (length x) in
  Multitaper.Build t x (frequency_axis (length x) dt) ds tp d
    (map qw d) (map qx d) (map qy d) (map qz d) z z z z.

Definition M_combine (self : Multitaper.instance)
    (d : exn + list quaternion) (l : list event)
  : (exn + Multitaper.instance) * list event :=
  match Multitaper.t self, Multitaper.signal self with
  | t0 :: t1 :: _, _ :: _ =>
      let N := length (Multitaper.signal self) in
      match d with
      | inr d =>
          (inr (estimate_M (Multitaper.t self) (Multitaper.signal self)
                  (t1 - t0) (repeat (repeat quaternion_zero 4) N)
                  (repeat (repeat 0 4) N) d),
           ev_sympSplit d :: ev_sympSplit (np_zeros N) :: ev_fftfreq N :: l)
      | inl e => (inl e, ev_sympSplit (np_zeros N) :: ev_fftfreq N :: l)
      end
  | _ :: _ :: _, [] => (inl ZeroDivisionError, ev_fftfreq 0 :: l)
  | _, _ => (inl IndexError, l)
  end.

(** The world with another log, and the world after a constructor or an
    operator has run: its result stored at a fresh address. *)
Definition with_log (w : world) (l : list event) : world :=
  World (periodograms w) (multitapers w) l.

Definition stored_P (w : world)
    (r : (exn + Periodogram.instance) * list event) : (exn + loc) * world :=
  match r with
  | (inr p, l) =>
      let a := fresh (dom (periodograms w)) in
      (inr a, World (<[a := p]> (periodograms w)) (multitapers w) l)
  | (inl e, l) => (inl e, with_log w l)
  end.

Definition stored_M (w : world)
    (r : (exn + Multitaper.instance) * list event) : (exn + loc) * world :=
  match r with
  | (inr m, l) =>
      let a := fresh (dom (multitapers w)) in
      (inr a, World (periodograms w) (<[a := m]> (multitapers w)) l)
  | (inl e, l) => (inl e, with_log w l)
  end.

(** ** Programs over the public operations *)

Inductive command : Type :=
  | NewPeriodogram (t : list R) (x : ndarray) (computeFlag : pyvalue)
  | AddPeriodogram (a b : loc)
  | MulPeriodogram (a : loc) (s : operand)
  | RmulPeriodogram (s : operand) (a : loc)
  | NewMultitaper (t : list R) (x : ndarray) (bw : R) (computeFlag : pyvalue)
  | AddMultitaper (a b : loc)
  | MulMultitaper (a : loc) (s : operand)
  | RmulMultitaper (s : operand) (a : loc).

Definition exec `{Collaborators} (c : command) : W loc :=
  match c with
  | NewPeriodogram t x flag => new_Periodogram t x flag
  | AddPeriodogram a b => add_Periodogram a b
  | MulPeriodogram a s => mul_Periodogram a s
  | RmulPeriodogram s a => rmul_Periodogram s a
  | NewMultitaper t x bw flag => new_Multitaper t x bw flag
  | AddMultitaper a b => add_Multitaper a b
  | MulMultitaper a s => mul_Multitaper a s
  | RmulMultitaper s a => rmul_Multitaper s a
  end.

(** The worlds a program reaches from the empty one with commands that
    satisfy [ok]; a command that raises leaves the store as it was. *)
Inductive reachable `{Collaborators} (ok : command -> Prop) : world -> Prop :=
  | reach_empty : reachable ok empty_world
  | reach_step w c r w' :
      reachable ok w -> ok c -> exec c w = (r, w') -> reachable ok w'.

(** Commands on a time axis that does not start backwards, with at least one
    taper, and with multiplicands that are not negative. *)
Definition forward_axis (t : list R) : Prop :=
  match t with
  | t0 :: t1 :: _ => t0 <= t1
  | _ => True
  end.

Definition nonnegative_operand (s : operand) : Prop :=
  match s with
  | Scalar r => 0 <= r
  | Array v => Forall (Rle 0) v
  end.

Definition admissible (c : command) : Prop :=
  match c with
  | NewPeriodogram t _ _ => forward_axis t
  | NewMultitaper t _ bw _ => forward_axis t /\ (1 <= Zfloor (2 * bw) - 1)%Z
  | MulPeriodogram _ s | RmulPeriodogram s _ => nonnegative_operand s
  | MulMultitaper _ s | RmulMultitaper s _ => nonnegative_operand s
  | AddPeriodogram _ _ | AddMultitaper _ _ => True
  end.


(** ** A collaborator instance for the closed examples *)

Definition conjugate (q : quaternion) : quaternion :=
  quat (qw q) (- qx q) (- qy q) (- qz q).

(** The [j]-involution norm [q * (-j * conj(q) * j)], for which
    [StokesNorm(q) * j] is [q * j * conj(q)], a quaternion with no scalar
    part; and a bank of constant tapers.  The examples below use of them
    only that the scalar part of [StokesNorm(q) * j] is zero, that the bank
    is returned, and that its tapers are not zero. *)
Definition involution_norm (q : quaternion) : quaternion :=
  qmul q (qmul (qmul (rmul (-1) quaternion_y) (conjugate q)) quaternion_y).

Definition example_collaborators : Collaborators :=
  {| StokesNorm_entry := involution_norm;
     dpss_tapers := fun N bw Nmt => inr (fun _ _ => 1, repeat 1 Nmt) |}.

(** A unit sample followed by silence, and the real quaternion [r]. *)
Definition real_quaternion (r : R) : quaternion := quat r 0 0 0.

Definition impulse : list quaternion :=
  [real_quaternion 1; real_quaternion 0].

(** The store after an operator on objects that answered [r], where the
    method on the values of the operands answers [v]: the other class is
    untouched; every instance that was stored, the operands among them, is
    still there as it was; an address answered was not in use and now holds
    the estimate [v]; an error is the error [v]. *)
Definition builds_P (w : world) (v : exn + Periodogram.instance)
    (r : exn + loc) (w' : world) : Prop :=
  multitapers w' = multitapers w /\
  (forall l p, periodograms w !! l = Some p -> periodograms w' !! l = Some p) /\
  match r with
  | inr c => periodograms w !! c = None /\
             exists new, v = inr new /\ periodograms w' !! c = Some new
  | inl e => v = inl e
  end.

Definition builds_M (w : world) (v : exn + Multitaper.instance)
    (r : exn + loc) (w' : world) : Prop :=
  periodograms w' = periodograms w /\
  (forall l m, multitapers w !! l = Some m -> multitapers w' !! l = Some m) /\
  match r with
  | inr c => multitapers w !! c = None /\
             exists new, v = inr new /\ multitapers w' !! c = Some new
  | inl e => v = inl e
  end.

(** What [__add__] and [__mul__] on objects do once past their guard, for a
    left operand that holds [self] and a density [d] to assign: the deferred
    estimate is stored at an address not in use, and is assigned [d] and its
    Stokes parameters; when [d] is an error the deferred estimate stays
    where it was stored, referenced by nothing. *)
Definition built_P (w : world) (self : Periodogram.instance)
    (d : exn + list quaternion) : (exn + loc) * world :=
  match Periodogram.t self, Periodogram.signal self with
  | t0 :: t1 :: _, _ :: _ =>
      let N := length (Periodogram.signal self) in
      let c := fresh (dom (periodograms w)) in
      let l := ev_sympSplit (np_zeros N) :: ev_fftfreq N :: log w in
      match d with
      | inr d =>
          (inr c,
           World (<[c := estimate_P (Periodogram.t self)
                           (Periodogram.signal self) (t1 - t0) d]>
                    (periodograms w))
                 (multitapers w) (ev_sympSplit d :: l))
      | inl e =>
          (inl e,
           World (<[c := estimate_P (Periodogram.t self)
                           (Periodogram.signal self) (t1 - t0) (np_zeros N)]>
                    (periodograms w))
                 (multitapers w) l)
      end
  | _ :: _ :: _, [] => (inl ZeroDivisionError, with_log w (ev_fftfreq 0 :: log w))
  | _, _ => (inl IndexError, w)
  end.

Definition built_M (w : world) (self : Multitaper.instance)
    (d : exn + list quaternion) : (exn + loc) * world :=
  match Multitaper.t self, Multitaper.signal self with
  | t0 :: t1 :: _, _ :: _ =>
      let N := length (Multitaper.signal self) in
      let c := fresh (dom (multitapers w)) in
      let l := ev_sympSplit (np_zeros N) :: ev_fftfreq N :: log w in
      let blank := estimate_M (Multitaper.t self) (Multitaper.signal self)
                     (t1 - t0) (repeat (repeat quaternion_zero 4) N)
                     (repeat (repeat 0 4) N) in
      match d with
      | inr d =>
          (inr c,
           World (periodograms w) (<[c := blank d]> (multitapers w))
                 (ev_sympSplit d :: l))
      | inl e =>
          (inl e,
           World (periodograms w) (<[c := blank (np_zeros N)]> (multitapers w))
                 l)
      end
  | _ :: _ :: _, [] => (inl ZeroDivisionError, with_log w (ev_fftfreq 0 :: log w))
  | _, _ => (inl IndexError, w)
  end.

(** The sum of two deferred periodograms whose time axes differ in their
    second entry. *)
Definition mismatched_sum `{Collaborators} : W loc :=
  a ← new_Periodogram [0; 1] (QuaternionArray impulse) (PyBool false);
  b ← new_Periodogram [0; 2] (QuaternionArray impulse) (PyBool false);
  add_Periodogram a b.

(** ** The invariant behind S0 *)

(** Every entry of a density has a scalar part that is not negative. *)
Definition nonneg_scalar_part (d : list quaternion) : Prop :=
  Forall (fun q => 0 <= qw q) d.

(** [S0] is the scalar part of the density, and it is not negative. *)
Definition good_P (p : Periodogram.instance) : Prop :=
  Periodogram.S0 p = map qw (Periodogram.density p) /\
  nonneg_scalar_part (Periodogram.density p).

Definition good_M (m : Multitaper.instance) : Prop :=
  Multitaper.S0 m = map qw (Multitaper.density m) /\
  nonneg_scalar_part (Multitaper.density m).

Definition good_world (w : world) : Prop :=
  (forall a p, periodograms w !! a = Some p -> good_P p) /\
  (forall a m, multitapers w !! a = Some m -> good_M m).

(** The scalar part of [StokesNorm(q) * j] is zero: the term adds to the
    vector part of the density only, and [S0] is [dt / N * norm(Q)]. *)
Definition pure_StokesNorm_term `{Collaborators} : Prop :=
  forall q, qw (qmul (StokesNorm_entry q) quaternion_y) = 0.

(** The sum of the samples. *)
Definition qsum (x : list quaternion) : quaternion :=
  fold_right qadd quaternion_zero x.

(** A periodogram of the impulse, then its product by [-1]. *)
Definition negated_periodogram `{Collaborators} : W loc :=
  a ← new_Periodogram [0; 1] (QuaternionArray impulse) (PyBool true);
  rmul_Periodogram (Scalar (-1)) a.

(** The instances the constructors build on the impulse with
    [computeFlag=False] and the default bandwidth, stored at address 1. *)
Definition example_periodogram : Periodogram.instance :=
  estimate_P [0; 1] impulse (1 - 0) (np_zeros 2).

Definition example_multitaper : Multitaper.instance :=
  estimate_M [0; 1] impulse (1 - 0) (repeat (repeat quaternion_zero 4) 2)
             (repeat (repeat 0 4) 2) (np_zeros 2).

Definition example_world : world :=
  World {[1%positive := example_periodogram]}
        {[1%positive := example_multitaper]} [].

(** Six instants and six samples, long enough for the default bandwidth. *)
Definition six_instants : list R := [0; 1; 2; 3; 4; 5].

Definition six_samples : list quaternion :=
  real_quaternion 1 :: repeat (real_quaternion 0) 5.
(** ** Further vocabulary *)

(** The events the deferred construction leaves: the frequency axis and the
    Stokes extraction, neither a transform nor a taper bank. *)
Definition requests_no_transform (e : event) : Prop :=
  match e with
  | ev_fftfreq _ | ev_sympSplit _ => True
  | _ => False
  end.

(** The normalized fields of an estimate are the arrays [z]. *)
Definition P_normalized_are (z : list R) (p : Periodogram.instance) : Prop :=
  Periodogram.S1n p = z /\ Periodogram.S2n p = z /\
  Periodogram.S3n p = z /\ Periodogram.Phi p = z.

Definition M_normalized_are (z : list R) (m : Multitaper.instance) : Prop :=
  Multitaper.S1n m = z /\ Multitaper.S2n m = z /\
  Multitaper.S3n m = z /\ Multitaper.Phi m = z.

(** Every one-dimensional array attribute of an estimate has length [n]. *)
Definition P_arrays_have_length (n : nat) (p : Periodogram.instance) : Prop :=
  length (Periodogram.f p) = n /\ length (Periodogram.density p) = n /\
  length (Periodogram.S0 p) = n /\ length (Periodogram.S1 p) = n /\
  length (Periodogram.S2 p) = n /\ length (Periodogram.S3 p) = n /\
  length (Periodogram.S1n p) = n /\ length (Periodogram.S2n p) = n /\
  length (Periodogram.S3n p) = n /\ length (Periodogram.Phi p) = n.

Definition M_arrays_have_length (n : nat) (m : Multitaper.instance) : Prop :=
  length (Multitaper.f m) = n /\ length (Multitaper.density m) = n /\
  length (Multitaper.S0 m) = n /\ length (Multitaper.S1 m) = n /\
  length (Multitaper.S2 m) = n /\ length (Multitaper.S3 m) = n /\
  length (Multitaper.S1n m) = n /\ length (Multitaper.S2n m) = n /\
  length (Multitaper.S3n m) = n /\ length (Multitaper.Phi m) = n.

(** An estimate moved to another time axis, every other field kept, and a
    result of a method with its instance so moved. *)
Definition P_on_axis (t : list R) (p : Periodogram.instance)
  : Periodogram.instance :=
  Periodogram.Build t (Periodogram.signal p) (Periodogram.f p)
    (Periodogram.density p)
    (Periodogram.S0 p) (Periodogram.S1 p) (Periodogram.S2 p)
    (Periodogram.S3 p)
    (Periodogram.S1n p) (Periodogram.S2n p) (Periodogram.S3n p)
    (Periodogram.Phi p).

Definition M_on_axis (t : list R) (m : Multitaper.instance)
  : Multitaper.instance :=
  Multitaper.Build t (Multitaper.signal m) (Multitaper.f m)
    (Multitaper.densities m) (Multitaper.dpss m) (Multitaper.density m)
    (Multitaper.S0 m) (Multitaper.S1 m) (Multitaper.S2 m) (Multitaper.S3 m)
    (Multitaper.S1n m) (Multitaper.S2n m) (Multitaper.S3n m)
    (Multitaper.Phi m).

Definition on_result {S A B} (g : A -> B) (r : (exn + A) * S)
  : (exn + B) * S :=
  match r with
  | (inr a, s) => (inr (g a), s)
  | (inl e, s) => (inl e, s)
  end.

(** A frequency axis of [N] entries in the order of [np.fft.fftfreq]: zero
    first, then the positive frequencies, then the negative ones. *)
Definition zero_positive_negative (N : nat) (f : list R) : Prop :=
  length f = N /\
  forall k v, f !! k = Some v ->
    (k = 0%nat -> v = 0) /\
    ((0 < k <= (N - 1) / 2)%nat -> 0 < v) /\
    (((N - 1) / 2 < k)%nat -> v < 0).

(** [np.sqrt(S1n**2 + S2n**2 + S3n**2)], as [normalize] evaluates it. *)
Definition degree_of_polarization (s1n s2n s3n : list R) : exn + list R :=
  match np_add_float (np_square s1n) (np_square s2n) with
  | inl e => inl e
  | inr sq =>
      match np_add_float sq (np_square s3n) with
      | inl e => inl e
      | inr sq => inr (np_sqrt sq)
      end
  end.

(** Two estimates with the same data, density and Stokes parameters: they
    differ in their normalized fields at most. *)
Definition P_same_estimate (p p' : Periodogram.instance) : Prop :=
  Periodogram.t p' = Periodogram.t p /\
  Periodogram.signal p' = Periodogram.signal p /\
  Periodogram.f p' = Periodogram.f p /\
  Periodogram.density p' = Periodogram.density p /\
  Periodogram.S0 p' = Periodogram.S0 p /\
  Periodogram.S1 p' = Periodogram.S1 p /\
  Periodogram.S2 p' = Periodogram.S2 p /\
  Periodogram.S3 p' = Periodogram.S3 p.

Definition M_same_estimate (m m' : Multitaper.instance) : Prop :=
  Multitaper.t m' = Multitaper.t m /\
  Multitaper.signal m' = Multitaper.signal m /\
  Multitaper.f m' = Multitaper.f m /\
  Multitaper.densities m' = Multitaper.densities m /\
  Multitaper.dpss m' = Multitaper.dpss m /\
  Multitaper.density m' = Multitaper.density m /\
  Multitaper.S0 m' = Multitaper.S0 m /\
  Multitaper.S1 m' = Multitaper.S1 m /\
  Multitaper.S2 m' = Multitaper.S2 m /\
  Multitaper.S3 m' = Multitaper.S3 m.

(** What [normalize] leaves in the instance and answers, given what
    [normalizeStokes] answered. *)
Definition P_normalized (self : Periodogram.instance)
    (n : exn + (list R * list R * list R))
  : (exn + unit) * Periodogram.instance :=
  match n with
  | inl e => (inl e, self)
  | inr (s1n, s2n, s3n) =>
      match degree_of_polarization s1n s2n s3n with
      | inl e =>
          (inl e, Periodogram.set_normalized s1n s2n s3n
                    (Periodogram.Phi self) self)
      | inr phi => (inr tt, Periodogram.set_normalized s1n s2n s3n phi self)
      end
  end.

Definition M_normalized (self : Multitaper.instance)
    (n : exn + (list R * list R * list R))
  : (exn + unit) * Multitaper.instance :=
  match n with
  | inl e => (inl e, self)
  | inr (s1n, s2n, s3n) =>
      match degree_of_polarization s1n s2n s3n with
      | inl e =>
          (inl e, Multitaper.set_normalized s1n s2n s3n
                    (Multitaper.Phi self) self)
      | inr phi => (inr tt, Multitaper.set_normalized s1n s2n s3n phi self)
      end
  end.

(** The three arrays have an entry at [k], and [phi] is the length of the
    vector they make there. *)
Definition is_vector_length (s1n s2n s3n : list R) (k : nat) (phi : R)
  : Prop :=
  exists u v z,
    s1n !! k = Some u /\ s2n !! k = Some v /\ s3n !! k = Some z /\
    0 <= phi /\ phi * phi = u ^ 2 + v ^ 2 + z ^ 2.

(** The product of an array of rows by a column. *)
Definition dot (u v : list R) : R := Rsum (zip_with Rmult u v).

Definition matvec (M : list (list R)) (v : list R) : list R :=
  map (fun row => dot row v) M.

(** The Stokes parameters an estimate holds are the ones [_getStokes]
    returns on it as it is: they are in step with its density.  And so for
    every estimate of a store. *)
Definition P_in_step (p : Periodogram.instance) : Prop :=
  forall l,
    (Periodogram._getStokes p l).1 =
    inr (Periodogram.S0 p, Periodogram.S1 p, Periodogram.S2 p,
         Periodogram.S3 p).

Definition M_in_step (m : Multitaper.instance) : Prop :=
  forall l,
    (Multitaper._getStokes m l).1 =
    inr (Multitaper.S0 m, Multitaper.S1 m, Multitaper.S2 m,
         Multitaper.S3 m).

Definition world_in_step (w : world) : Prop :=
  (forall a p, periodograms w !! a = Some p -> P_in_step p) /\
  (forall a m, multitapers w !! a = Some m -> M_in_step m).

(** ** Further instances for the closed examples *)

(** A normalizer that divides by [S0] where [S0] is above the tolerance and
    answers zero elsewhere; one that raises; and one that answers arrays of
    different lengths. *)
Definition guarded_ratio (tol s0 s : R) : R :=
  if Rlt_dec tol s0 then s / s0 else 0.

Definition example_normalizer : Normalizer :=
  {| normalizeStokes := fun s0 s1 s2 s3 tol =>
       inr (zip_with (guarded_ratio tol) s0 s1,
            zip_with (guarded_ratio tol) s0 s2,
            zip_with (guarded_ratio tol) s0 s3) |}.



(** Collaborators whose taper generator raises. *)
Definition raising_dpss_collaborators : Collaborators :=
  {| StokesNorm_entry := involution_norm;
     dpss_tapers := fun _ _ _ => inl (ValueError "dpss") |}.

(** A store with estimates of two, three and one samples at the addresses
    1, 2 and 3, all on the time axis [0, 1] and with a zero density. *)
Definition three_samples : list quaternion := repeat (real_quaternion 0) 3.

Definition one_sample : list quaternion := [real_quaternion 1].

Definition zero_periodogram (x : list quaternion) : Periodogram.instance :=
  estimate_P [0; 1] x (1 - 0) (np_zeros (length x)).

Definition zero_multitaper (x : list quaternion) : Multitaper.instance :=
  estimate_M [0; 1] x (1 - 0)
    (repeat (repeat quaternion_zero 4) (length x))
    (repeat (repeat 0 4) (length x)) (np_zeros (length x)).

Definition ragged_world : world :=
  World (<[3%positive := zero_periodogram one_sample]>
           (<[2%positive := zero_periodogram three_samples]>
              {[1%positive := zero_periodogram impulse]}))
        (<[3%positive := zero_multitaper one_sample]>
           (<[2%positive := zero_multitaper three_samples]>
              {[1%positive := zero_multitaper impulse]}))
        [].


(** * Properties *)

(** ** The monad *)

Lemma bind_unfold {S A B} (m : ST S A) (k : A -> ST S B) (s : S) :
  (m ≫= k) s = match m s with
               | (inr a, s') => k a s'
               | (inl e, s') => (inl e, s')
               end.
Proof. reflexivity. Qed.

Lemma bind_returns {S A B} (m : ST S A) (k : A -> ST S B) s a s' :
  m s = (inr a, s') -> (m ≫= k) s = k a s'.
Proof. intros E. rewrite bind_unfold, E. reflexivity. Qed.

Ltac st_unfold :=
  cbv [mbind ST_bind mret ST_ret emit raise liftE].

Ltac P_fields :=
  cbn [Periodogram.t Periodogram.signal Periodogram.f Periodogram.density
       Periodogram.S0 Periodogram.S1 Periodogram.S2 Periodogram.S3
       Periodogram.S1n Periodogram.S2n Periodogram.S3n Periodogram.Phi
       Periodogram.set_f Periodogram.set_density Periodogram.set_Stokes
       Periodogram.set_normalized Periodogram.fresh_instance].

Ltac M_fields :=
  cbn [Multitaper.t Multitaper.signal Multitaper.f Multitaper.densities
       Multitaper.dpss Multitaper.density
       Multitaper.S0 Multitaper.S1 Multitaper.S2 Multitaper.S3
       Multitaper.S1n Multitaper.S2n Multitaper.S3n Multitaper.Phi
       Multitaper.set_f Multitaper.set_densities Multitaper.set_dpss
       Multitaper.set_density Multitaper.set_Stokes
       Multitaper.set_normalized Multitaper.fresh_instance].

Lemma for_range_invariant {S B} (body : nat -> B -> ST S B)
    (Inv : nat -> B -> Prop) (n : nat) :
  (forall i acc s, (i < n)%nat -> Inv i acc ->
     exists acc' s', body i acc s = (inr acc', s') /\ Inv (Datatypes.S i) acc') ->
  forall acc s, Inv O acc ->
    exists acc' s', for_each (seq 0 n) body acc s = (inr acc', s') /\ Inv n acc'.
Proof.
  intros Hstep.
  assert (G : forall len start acc s, (start + len = n)%nat -> Inv start acc ->
            exists acc' s', for_each (seq start len) body acc s = (inr acc', s')
                            /\ Inv n acc').
  { induction len as [|len IH]; intros start acc s Hn Hi.
    - exists acc, s. split; [reflexivity|]. now replace n with start by lia.
    - destruct (Hstep start acc s ltac:(lia) Hi) as (acc1 & s1 & E1 & Hi1).
      destruct (IH (Datatypes.S start) acc1 s1 ltac:(lia) Hi1)
        as (acc' & s' & E & Hi').
      exists acc', s'. split; [|exact Hi'].
      cbn [seq for_each]. rewrite (bind_returns _ _ _ _ _ E1). exact E. }
  intros acc s Hi. now apply (G n O).
Qed.

Lemma for_each_preserves {S A B} (body : A -> B -> ST S B) (P : B -> Prop) xs :
  (forall x acc s acc' s', P acc -> body x acc s = (inr acc', s') -> P acc') ->
  forall acc s acc' s',
    P acc -> for_each xs body acc s = (inr acc', s') -> P acc'.
Proof.
  intros Hstep. induction xs as [|x xs IH]; intros acc s acc' s' Hp E.
  - cbn in E. inversion E; subst. exact Hp.
  - cbn [for_each] in E. rewrite bind_unfold in E.
    destruct (body x acc s) as [[e|acc1] s1] eqn:E1; [discriminate|].
    eapply IH; [|exact E]. eapply Hstep; eauto.
Qed.

(** ** Arrays *)

Lemma length_np_zeros N : length (np_zeros N) = N.
Proof. apply repeat_length. Qed.

Lemma map_repeat {A B} (g : A -> B) (a : A) n :
  map g (repeat a n) = repeat (g a) n.
Proof. induction n as [|n IH]; cbn; [reflexivity | now rewrite IH]. Qed.

Lemma zip_with_maps {A B C D} (g : B -> C -> D) (f1 : A -> B) (f2 : A -> C) l :
  zip_with g (map f1 l) (map f2 l) = map (fun a => g (f1 a) (f2 a)) l.
Proof. induction l as [|a l IH]; cbn; [reflexivity | now rewrite IH]. Qed.

Lemma broadcast2_same_length {A B C} (op : A -> B -> C) a b :
  length a = length b -> broadcast2 op a b = inr (zip_with op a b).
Proof. intros E. unfold broadcast2. now rewrite E, Nat.eqb_refl. Qed.

Lemma broadcast2_Forall {A B C} (op : A -> B -> C)
    (P : A -> Prop) (Q : B -> Prop) (G : C -> Prop) a b c :
  (forall u v, P u -> Q v -> G (op u v)) ->
  Forall P a -> Forall Q b -> broadcast2 op a b = inr c -> Forall G c.
Proof.
  intros Hop Ha Hb. unfold broadcast2.
  destruct (length a =? length b)%nat.
  - intros [= <-]. clear -Hop Ha Hb. revert b Hb.
    induction Ha as [|u a Hu Ha IH]; intros [|v b] Hb; cbn; try constructor.
    + inversion Hb; subst. now apply Hop.
    + inversion Hb; subst. now apply IH.
  - destruct a as [|a0 [|a1 a]].
    + destruct b as [|b0 [|b1 b]]; intros [= <-]. constructor.
    + intros [= <-]. inversion Ha; subst.
      apply List.Forall_map. eapply Forall_impl; [exact Hb|].
      intros v Hv. now apply Hop.
    + destruct b as [|b0 [|b1 b]]; intros [= <-].
      inversion Hb; subst.
      change (Forall G (map (fun ai => op ai b0) (a0 :: a1 :: a))).
      apply List.Forall_map. eapply Forall_impl; [exact Ha|].
      intros u Hu. now apply Hop.
Qed.

Lemma is_matrix_zeros {A} (z : A) n m : is_matrix n m (repeat (repeat z m) n).
Proof.
  split; [apply repeat_length|].
  apply List.Forall_forall. intros row Hin%repeat_spec. subst.
  apply repeat_length.
Qed.

Lemma size1_matrix {A} n m (a : list (list A)) :
  is_matrix n m a -> (0 < n)%nat -> size1 a = m.
Proof.
  intros [Hl Hr] Hn. destruct a as [|row a]; cbn in *; [lia|].
  now inversion Hr.
Qed.

Lemma get_column_spec {A} k (a : list (list A)) col :
  get_column k a = inr col <-> Forall2 (fun row v => row !! k = Some v) a col.
Proof.
  unfold get_column. rewrite <- mapM_Some.
  destruct (mapM _ a); split; intros E; try discriminate; congruence.
Qed.

Lemma get_column_tabulate {A} (g : nat -> nat -> A) n m k :
  (k < m)%nat ->
  get_column k (map (fun i => map (fun j => g i j) (seq 0 m)) (seq 0 n)) =
  inr (map (fun i => g i k) (seq 0 n)).
Proof.
  intros Hk. apply get_column_spec.
  apply Forall2_fmap, Forall_Forall2_diag, Forall_forall. intros i _.
  rewrite list_lookup_fmap, lookup_seq_lt by lia. reflexivity.
Qed.

(** Assigning a column of the right length: the shape is kept, the column
    reads back, the other columns are as they were. *)
Lemma set_column_spec {A} n m k (col : list A) (a : list (list A)) :
  is_matrix n m a -> (0 < n)%nat -> (k < m)%nat -> length col = n ->
  exists a', set_column k col a = inr a' /\ is_matrix n m a' /\
    get_column k a' = inr col /\
    forall j, j <> k -> get_column j a' = get_column j a.
Proof.
  intros Ha Hn Hk Hc. unfold set_column.
  rewrite (size1_matrix n m a Ha Hn).
  destruct (Nat.leb_spec m k) as [?|_]; [lia|].
  destruct Ha as [Hl Hr]. rewrite Hc, Hl, Nat.eqb_refl.
  eexists; split; [reflexivity|].
  clear Hn. subst n. revert col Hc.
  induction a as [|row a IH]; intros [|v col] Hc; try discriminate.
  - split; [split; [reflexivity | constructor]
           | split; [reflexivity | intros; reflexivity]].
  - inversion Hr as [|? ? Hrow Hrest]; subst.
    destruct (IH Hrest col ltac:(cbn in Hc; lia)) as ((Hl' & Hr') & Hg & Ho).
    cbn [zip_with]. split; [split | split].
    + cbn. f_equal. exact Hl'.
    + constructor; [now rewrite length_insert | exact Hr'].
    + apply get_column_spec. constructor.
      * apply list_lookup_insert_eq. lia.
      * now apply get_column_spec.
    + intros j Hj. specialize (Ho j Hj).
      unfold get_column in *. cbn [mapM].
      rewrite list_lookup_insert_ne by congruence.
      cbv [mbind option_bind] in *. destruct (row !! j); [|reflexivity].
      cbn.
      destruct (mapM (fun row0 : list A => row0 !! j)
                     (zip_with (fun row0 v0 => <[k:=v0]> row0) a col)),
               (mapM (fun row0 : list A => row0 !! j) a);
        try discriminate; try reflexivity.
      inversion Ho; subst; reflexivity.
Qed.

(** Assigning a column whose entries satisfy [P] keeps [P] on every entry. *)
Lemma set_column_Forall {A} (P : A -> Prop) k col (a a' : list (list A)) :
  Forall (Forall P) a -> Forall P col ->
  set_column k col a = inr a' -> Forall (Forall P) a'.
Proof.
  intros Ha Hc. unfold set_column.
  destruct (size1 a <=? k)%nat; [discriminate|].
  assert (Hins : forall row v, Forall P row -> P v -> Forall P (<[k:=v]> row)).
  { intros row v Hrow Hv. apply Forall_insert; assumption. }
  destruct (length col =? length a)%nat.
  - intros [= <-]. clear -Ha Hc Hins. revert col Hc.
    induction Ha as [|row a Hrow Ha IH]; intros [|v col] Hc; cbn;
      try constructor.
    + inversion Hc; subst. now apply Hins.
    + inversion Hc; subst. now apply IH.
  - destruct col as [|v [|v' col]]; try discriminate.
    intros [= <-]. inversion Hc; subst.
    apply List.Forall_map. eapply Forall_impl; [exact Ha|].
    intros row Hrow. now apply Hins.
Qed.

Lemma Rsum_zeros n : Rsum (repeat 0 n) = 0.
Proof.
  unfold Rsum. induction n as [|n IH]; cbn; [reflexivity | rewrite IH; lra].
Qed.

Lemma Rsum_nonneg l : Forall (Rle 0) l -> 0 <= Rsum l.
Proof.
  unfold Rsum. induction 1 as [|v l Hv Hl IH]; cbn; [lra | lra].
Qed.

Lemma mean_nonneg l : Forall (Rle 0) l -> 0 <= mean l.
Proof.
  intros Hl. unfold mean, Rdiv.
  apply Rmult_le_pos; [now apply Rsum_nonneg|].
  destruct (length l) as [|n]; [cbn; rewrite Rinv_0; lra|].
  left. apply Rinv_0_lt_compat, lt_0_INR. lia.
Qed.

Lemma quaternion_mean_zeros n :
  quaternion_mean (repeat quaternion_zero n) = quaternion_zero.
Proof.
  unfold quaternion_mean, mean. rewrite !map_repeat.
  cbn [qw qx qy qz quaternion_zero].
  rewrite Rsum_zeros. unfold Rdiv. rewrite Rmult_0_l. reflexivity.
Qed.

Lemma mean_axis1_zeros N Nmt :
  mean_axis1 (repeat (repeat quaternion_zero Nmt) N) = np_zeros N.
Proof.
  unfold mean_axis1, np_zeros. rewrite map_repeat, quaternion_mean_zeros.
  reflexivity.
Qed.

Lemma default_taper_count : (Zfloor (2 * Multitaper.default_bw) - 1 = 4)%Z.
Proof.
  unfold Multitaper.default_bw.
  rewrite (Zfloor_eq 5); [reflexivity | lra].
Qed.

(** ** The transform *)

Lemma length_fft a : length (np_fft_fft a) = length a.
Proof. unfold np_fft_fft. now rewrite length_map, length_seq. Qed.

Lemma length_Qfft x : length (Qfft x) = length x.
Proof.
  unfold Qfft, sympSplit, sympSynth.
  rewrite length_zip_with, !length_fft, !length_map. lia.
Qed.

(** The test of [__add__] on the time axes: [np.any] answers a [np.bool_],
    which is never the object [True]. *)
Lemma axis_test_never_holds a b :
  is_True (np_any (np_not_equal a b)) = false.
Proof. destruct (np_not_equal a b); reflexivity. Qed.

(** ** The methods of Periodogram *)

Section PeriodogramFacts.
Context `{Collaborators}.

Lemma spectral_term_entries Q :
  spectral_term Q (map StokesNorm_entry Q) =
  map (fun q => radd (norm q) (qmul (StokesNorm_entry q) quaternion_y)) Q.
Proof.
  unfold spectral_term, np_norm. rewrite List.map_map.
  apply zip_with_maps.
Qed.

Lemma periodogram_density_entries dt N Q :
  map (rmul (dt / INR N)) (spectral_term Q (map StokesNorm_entry Q)) =
  map (periodogram_entry dt N) Q.
Proof. rewrite spectral_term_entries, List.map_map. reflexivity. Qed.

Lemma tapered_density_entries dt Q :
  map (rmul dt) (spectral_term Q (map StokesNorm_entry Q)) =
  map (tapered_entry dt) Q.
Proof. rewrite spectral_term_entries, List.map_map. reflexivity. Qed.

Lemma P_getStokes_eq self l :
  Periodogram._getStokes self l =
  (inr (map qw (Periodogram.density self), map qx (Periodogram.density self),
        map qy (Periodogram.density self), map qz (Periodogram.density self)),
   ev_sympSplit (Periodogram.density self) :: l).
Proof.
  unfold Periodogram._getStokes, utils_sympSplit, sympSplit.
  st_unfold. rewrite !List.map_map. reflexivity.
Qed.

Lemma P_compute_eq self t0 t1 ts l :
  Periodogram.t self = t0 :: t1 :: ts ->
  Periodogram.compute self l =
  (inr (Periodogram.set_density
          (map (periodogram_entry (t1 - t0) (length (Periodogram.signal self)))
               (Qfft (Periodogram.signal self))) self),
   ev_StokesNorm (Qfft (Periodogram.signal self))
     :: ev_Qfft (Periodogram.signal self) :: l).
Proof.
  intros Ht. unfold Periodogram.compute, qfft_Qfft, utils_StokesNorm.
  rewrite Ht. st_unfold. cbn [time_step]. st_unfold.
  rewrite periodogram_density_entries. reflexivity.
Qed.

Lemma P_init_eq t0 t1 ts x xs flag l :
  Periodogram.__init__ (t0 :: t1 :: ts) (QuaternionArray (x :: xs)) flag l =
  (inr (estimate_P (t0 :: t1 :: ts) (x :: xs) (t1 - t0)
          (P_built_density flag (t1 - t0) (x :: xs))),
   ev_sympSplit (P_built_density flag (t1 - t0) (x :: xs))
     :: P_built_log flag (x :: xs) l).
Proof.
  unfold Periodogram.__init__, np_fft_fftfreq, P_built_density, P_built_log.
  st_unfold. cbn [time_step length]. st_unfold.
  destruct (is_True flag).
  - erewrite P_compute_eq by reflexivity.
    rewrite P_getStokes_eq. P_fields.
    unfold estimate_P, np_zeros_like, frequency_axis.
    rewrite !length_map, length_Qfft. reflexivity.
  - rewrite P_getStokes_eq. P_fields.
    unfold estimate_P, np_zeros_like, frequency_axis.
    rewrite !length_map, length_np_zeros. reflexivity.
Qed.

(** Every outcome of the constructor. *)
Lemma P_init_cases t x flag l :
  Periodogram.__init__ t x flag l =
  match x with
  | QuaternionArray xs =>
      match t, xs with
      | t0 :: t1 :: _, _ :: _ =>
          (inr (estimate_P t xs (t1 - t0) (P_built_density flag (t1 - t0) xs)),
           ev_sympSplit (P_built_density flag (t1 - t0) xs)
             :: P_built_log flag xs l)
      | _ :: _ :: _, [] => (inl ZeroDivisionError, ev_fftfreq 0 :: l)
      | _, _ => (inl IndexError, l)
      end
  | _ => (inl InvalidInputType, l)
  end.
Proof.
  destruct x as [a|a|xs]; try reflexivity.
  destruct t as [|t0 [|t1 ts]]; try reflexivity.
  destruct xs as [|x xs]; [reflexivity | apply P_init_eq].
Qed.

Lemma P_combine_eq self d l :
  (new ← Periodogram.__init__ (Periodogram.t self)
           (QuaternionArray (Periodogram.signal self)) (PyBool false);
   d' ← liftE d;
   let new := Periodogram.set_density d' new in
   '(s0, s1, s2, s3) ← Periodogram._getStokes new;
   mret (Periodogram.set_Stokes s0 s1 s2 s3 new)) l = P_combine self d l.
Proof.
  rewrite bind_unfold, P_init_cases. unfold P_combine.
  destruct (Periodogram.t self) as [|t0 [|t1 ts]]; try reflexivity.
  destruct (Periodogram.signal self) as [|x xs]; [reflexivity|].
  cbn [P_built_density P_built_log is_True].
  destruct d as [e|d]; [reflexivity|].
  st_unfold. rewrite P_getStokes_eq. reflexivity.
Qed.

(** Every outcome of [__add__] and of [__mul__]. *)
Lemma P_add_cases self other l :
  Periodogram.__add__ self other l =
  P_combine self
    (np_add (Periodogram.density self) (Periodogram.density other)) l.
Proof.
  unfold Periodogram.__add__. rewrite axis_test_never_holds.
  apply P_combine_eq.
Qed.

Lemma P_mul_cases self s l :
  Periodogram.__mul__ self s l =
  if (1 <? np_size s)%nat then (inl UnsupportedOperandError, l)
  else P_combine self (np_multiply s (Periodogram.density self)) l.
Proof.
  unfold Periodogram.__mul__. destruct (1 <? np_size s)%nat; [reflexivity|].
  apply P_combine_eq.
Qed.

End PeriodogramFacts.

(** ** The methods of Multitaper *)

Section MultitaperFacts.
Context `{Collaborators}.

Lemma length_tapered_density dt x taper :
  length x = length taper -> length (tapered_density dt x taper) = length x.
Proof.
  intros E. unfold tapered_density.
  rewrite length_map, length_Qfft, length_zip_with. lia.
Qed.

Lemma M_getStokes_eq self l :
  Multitaper._getStokes self l =
  (inr (map qw (Multitaper.density self), map qx (Multitaper.density self),
        map qy (Multitaper.density self), map qz (Multitaper.density self)),
   ev_sympSplit (Multitaper.density self) :: l).
Proof.
  unfold Multitaper._getStokes, utils_sympSplit, sympSplit.
  st_unfold. rewrite !List.map_map. reflexivity.
Qed.

(** One turn of the loop of [compute] on an instance of shape [(N, Nmt)]
    that holds the taper bank: column [n] is assigned, the others stay. *)
Lemma tapered_periodogram_step dt n self l tapers N Nmt :
  Multitaper.dpss self = taper_bank tapers N Nmt ->
  length (Multitaper.signal self) = N ->
  is_matrix N Nmt (Multitaper.densities self) ->
  (0 < N)%nat -> (n < Nmt)%nat ->
  exists ds l',
    Multitaper.tapered_periodogram dt n self l =
      (inr (Multitaper.set_densities ds self), l') /\
    is_matrix N Nmt ds /\
    get_column n ds =
      inr (tapered_density dt (Multitaper.signal self)
                           (taper_column tapers N n)) /\
    forall j, j <> n ->
      get_column j ds = get_column j (Multitaper.densities self).
Proof.
  intros Hb Hx Hd HN Hn.
  assert (Hlen : length (Multitaper.signal self)
                 = length (taper_column tapers N n)).
  { unfold taper_column. now rewrite length_map, length_seq. }
  destruct (set_column_spec N Nmt n
              (tapered_density dt (Multitaper.signal self)
                               (taper_column tapers N n))
              (Multitaper.densities self) Hd HN Hn)
    as (ds & Es & Hm & Hg & Ho).
  { rewrite length_tapered_density; assumption. }
  exists ds. eexists. split; [|repeat split; try apply Hm; assumption].
  unfold Multitaper.tapered_periodogram, qfft_Qfft, utils_StokesNorm.
  rewrite Hb. unfold taper_bank. st_unfold.
  rewrite get_column_tabulate by assumption.
  fold (taper_column tapers N n).
  rewrite (broadcast2_same_length _ _ _ Hlen).
  rewrite tapered_density_entries.
  fold (tapered_density dt (Multitaper.signal self) (taper_column tapers N n)).
  M_fields. rewrite Es. reflexivity.
Qed.

(** [compute] on an instance of shape [(N, Nmt)], when the taper generator
    returns: the bank is stored and every column of [densities] is the
    tapered periodogram of its taper. *)
Lemma M_compute_spec self bw l t0 t1 ts tapers eigens N Nmt :
  Multitaper.t self = t0 :: t1 :: ts ->
  length (Multitaper.signal self) = N ->
  is_matrix N Nmt (Multitaper.dpss self) ->
  is_matrix N Nmt (Multitaper.densities self) ->
  (0 < N)%nat ->
  dpss_tapers N bw Nmt = inr (tapers, eigens) ->
  exists ds l',
    Multitaper.compute self bw l =
      (inr (Multitaper.set_densities ds
              (Multitaper.set_dpss (taper_bank tapers N Nmt) self)), l') /\
    is_matrix N Nmt ds /\
    forall n, (n < Nmt)%nat ->
      get_column n ds =
        inr (tapered_density (t1 - t0) (Multitaper.signal self)
                             (taper_column tapers N n)).
Proof.
  intros Ht Hx Hp Hd HN Hc.
  unfold Multitaper.compute, print, spectrum_dpss.
  rewrite Ht. unfold size0. rewrite (size1_matrix N Nmt _ Hp HN).
  destruct Hp as [Hp0 Hp1]. rewrite Hp0.
  st_unfold. cbn [time_step]. st_unfold. rewrite Hc.
  fold (taper_bank tapers N Nmt).
  set (self0 := Multitaper.set_dpss (taper_bank tapers N Nmt) self).
  set (l0 := ev_dpss N bw Nmt :: ev_print Nmt :: l).
  destruct (for_range_invariant (Multitaper.tapered_periodogram (t1 - t0))
    (fun i acc => exists ds, acc = Multitaper.set_densities ds self0 /\
        is_matrix N Nmt ds /\
        forall n, (n < i)%nat ->
          get_column n ds =
            inr (tapered_density (t1 - t0) (Multitaper.signal self)
                                 (taper_column tapers N n)))
    Nmt) with (acc := self0) (s := l0)
    as (acc' & l' & E & ds & -> & Hm & Hcols).
  - intros i acc s Hi (ds & -> & Hm & Hcols).
    destruct (tapered_periodogram_step (t1 - t0) i
                (Multitaper.set_densities ds self0) s tapers N Nmt)
      as (ds' & s' & E & Hm' & Hg & Ho); try assumption; try reflexivity.
    exists (Multitaper.set_densities ds' self0), s'. split; [exact E|].
    exists ds'. repeat split; try apply Hm'.
    intros n Hn. destruct (decide (n = i)) as [->|Hne]; [exact Hg|].
    rewrite Ho by assumption. apply Hcols. lia.
  - exists (Multitaper.densities self).
    split; [subst self0; destruct self; reflexivity|].
    split; [exact Hd | intros n Hn; lia].
  - exists ds, l'. repeat split; try apply Hm; assumption.
Qed.

(** Whatever [compute] does, it assigns [dpss] and [densities] only. *)
Lemma M_compute_assigns self bw l self' l' :
  Multitaper.compute self bw l = (inr self', l') ->
  exists ds tp,
    self' = Multitaper.set_densities ds (Multitaper.set_dpss tp self).
Proof.
  unfold Multitaper.compute, print, spectrum_dpss. st_unfold.
  destruct (time_step (Multitaper.t self) l) as [[e|dt] l1]; [discriminate|].
  destruct (dpss_tapers _ bw _) as [e|[tapers eigens]]; [discriminate|].
  intros E.
  eapply (for_each_preserves _
            (fun acc => exists ds tp,
               acc = Multitaper.set_densities ds
                       (Multitaper.set_dpss tp self))); [| |exact E].
  - intros n acc s acc' s' (ds & tp & ->).
    unfold Multitaper.tapered_periodogram, qfft_Qfft, utils_StokesNorm.
    st_unfold.
    destruct (get_column n _) as [e|taper]; [discriminate|].
    destruct (broadcast2 qmulr _ taper) as [e|xn]; [discriminate|].
    destruct (set_column n _ _) as [e|ds']; [discriminate|].
    intros [= <- _]. exists ds', tp. reflexivity.
  - exists (Multitaper.densities self),
      (taper_bank tapers (size0 (Multitaper.dpss self))
                  (size1 (Multitaper.dpss self))).
    destruct self; reflexivity.
Qed.

(** Every outcome of the constructor, up to what [compute] does. *)
Lemma M_init_cases t x bw flag l :
  Multitaper.__init__ t x bw flag l =
  match x with
  | QuaternionArray xs =>
      match t, xs with
      | t0 :: t1 :: _, _ :: _ =>
          let N := length xs in
          let Nmt := (Zfloor (2 * bw) - 1)%Z in
          if (Nmt <? 0)%Z then (inl NegativeDimensions, ev_fftfreq N :: l)
          else M_finish_run
                 (if is_True flag
                  then Multitaper.compute (M_blank t xs (t1 - t0) Nmt) bw
                                          (ev_fftfreq N :: l)
                  else (inr (M_blank t xs (t1 - t0) Nmt), ev_fftfreq N :: l))
      | _ :: _ :: _, [] => (inl ZeroDivisionError, ev_fftfreq 0 :: l)
      | _, _ => (inl IndexError, l)
      end
  | _ => (inl InvalidInputType, l)
  end.
Proof.
  destruct x as [a|a|xs]; try reflexivity.
  destruct t as [|t0 [|t1 ts]]; try reflexivity.
  destruct xs as [|x xs]; [reflexivity|].
  unfold Multitaper.__init__, np_fft_fftfreq, np_zeros2.
  st_unfold. cbn [time_step length]. st_unfold.
  cbv zeta. destruct (Zfloor (2 * bw) - 1 <? 0)%Z; [reflexivity|].
  M_fields. fold (frequency_axis (S (length xs)) (t1 - t0)).
  change (Multitaper.Build (t0 :: t1 :: ts) (x :: xs) _ _ _ _ _ _ _ _ _ _ _ _)
    with (M_blank (t0 :: t1 :: ts) (x :: xs) (t1 - t0) (Zfloor (2 * bw) - 1)).
  destruct (is_True flag).
  - destruct (Multitaper.compute _ bw _) as [[e|self] l']; [reflexivity|].
    rewrite M_getStokes_eq. unfold M_finish_run, M_finish, np_zeros_like.
    M_fields. rewrite !length_map. reflexivity.
  - rewrite M_getStokes_eq. unfold M_finish_run, M_finish, np_zeros_like.
    M_fields. rewrite !length_map. reflexivity.
Qed.

Lemma M_init_deferred t0 t1 ts x xs bw flag l :
  is_True flag = false -> (0 <= Zfloor (2 * bw) - 1)%Z ->
  Multitaper.__init__ (t0 :: t1 :: ts) (QuaternionArray (x :: xs)) bw flag l =
  (inr (estimate_M (t0 :: t1 :: ts) (x :: xs) (t1 - t0)
          (repeat (repeat quaternion_zero (Z.to_nat (Zfloor (2 * bw) - 1)))
                  (length (x :: xs)))
          (repeat (repeat 0 (Z.to_nat (Zfloor (2 * bw) - 1)))
                  (length (x :: xs)))
          (np_zeros (length (x :: xs)))),
   ev_sympSplit (np_zeros (length (x :: xs)))
     :: ev_fftfreq (length (x :: xs)) :: l).
Proof.
  intros Hf Hn. rewrite M_init_cases. cbv zeta.
  destruct (Z.ltb_spec (Zfloor (2 * bw) - 1) 0) as [?|_]; [lia|].
  rewrite Hf. unfold M_finish_run, M_finish, M_blank, estimate_M.
  M_fields. rewrite mean_axis1_zeros, length_np_zeros. reflexivity.
Qed.

Lemma M_combine_eq self d l :
  (new ← Multitaper.__init__ (Multitaper.t self)
           (QuaternionArray (Multitaper.signal self)) Multitaper.default_bw
           (PyBool false);
   d' ← liftE d;
   let new := Multitaper.set_density d' new in
   '(s0, s1, s2, s3) ← Multitaper._getStokes new;
   mret (Multitaper.set_Stokes s0 s1 s2 s3 new)) l = M_combine self d l.
Proof.
  rewrite bind_unfold. unfold M_combine.
  destruct (Multitaper.t self) as [|t0 [|t1 ts]]; try reflexivity.
  destruct (Multitaper.signal self) as [|x xs]; [reflexivity|].
  rewrite M_init_deferred, default_taper_count;
    [|reflexivity | rewrite default_taper_count; lia].
  destruct d as [e|d]; [reflexivity|].
  st_unfold. rewrite M_getStokes_eq. reflexivity.
Qed.

(** Every outcome of [__add__] and of [__mul__]. *)
Lemma M_add_cases self other l :
  Multitaper.__add__ self other l =
  M_combine self
    (np_add (Multitaper.density self) (Multitaper.density other)) l.
Proof.
  unfold Multitaper.__add__. rewrite axis_test_never_holds.
  apply M_combine_eq.
Qed.

Lemma M_mul_cases self s l :
  Multitaper.__mul__ self s l =
  if (1 <? np_size s)%nat then (inl UnsupportedOperandError, l)
  else M_combine self (np_multiply s (Multitaper.density self)) l.
Proof.
  unfold Multitaper.__mul__. destruct (1 <? np_size s)%nat; [reflexivity|].
  apply M_combine_eq.
Qed.

End MultitaperFacts.

(** ** The store *)

Lemma with_log_same w : with_log w (log w) = w.
Proof. destruct w; reflexivity. Qed.

Lemma run_alloc_P (m : T Periodogram.instance) w :
  (p ← run m; alloc_P p) w = stored_P w (m (log w)).
Proof.
  rewrite bind_unfold. unfold run, stored_P, alloc_P, with_log.
  destruct (m (log w)) as [[e|p] l]; reflexivity.
Qed.

Lemma run_alloc_M (m : T Multitaper.instance) w :
  (p ← run m; alloc_M p) w = stored_M w (m (log w)).
Proof.
  rewrite bind_unfold. unfold run, stored_M, alloc_M, with_log.
  destruct (m (log w)) as [[e|p] l]; reflexivity.
Qed.

Section StoreFacts.
Context `{Collaborators}.

Lemma new_Periodogram_eq t x flag w :
  new_Periodogram t x flag w =
  stored_P w (Periodogram.__init__ t x flag (log w)).
Proof. apply run_alloc_P. Qed.

Lemma new_Multitaper_eq t x bw flag w :
  new_Multitaper t x bw flag w =
  stored_M w (Multitaper.__init__ t x bw flag (log w)).
Proof. apply run_alloc_M. Qed.

Lemma add_Periodogram_eq a b w :
  add_Periodogram a b w =
  match periodograms w !! a, periodograms w !! b with
  | Some self, Some other => stored_P w (Periodogram.__add__ self other (log w))
  | _, _ => (inl NameError, w)
  end.
Proof.
  unfold add_Periodogram. rewrite bind_unfold. unfold load_P at 1.
  destruct (periodograms w !! a) as [self|]; [|reflexivity].
  rewrite bind_unfold. unfold load_P at 1.
  destruct (periodograms w !! b) as [other|]; [|reflexivity].
  apply run_alloc_P.
Qed.

Lemma mul_Periodogram_eq a s w :
  mul_Periodogram a s w =
  match periodograms w !! a with
  | Some self => stored_P w (Periodogram.__mul__ self s (log w))
  | None => (inl NameError, w)
  end.
Proof.
  unfold mul_Periodogram. rewrite bind_unfold. unfold load_P at 1.
  destruct (periodograms w !! a) as [self|]; [|reflexivity].
  apply run_alloc_P.
Qed.

Lemma rmul_Periodogram_eq a s w :
  rmul_Periodogram s a w = mul_Periodogram a s w.
Proof. reflexivity. Qed.

Lemma add_Multitaper_eq a b w :
  add_Multitaper a b w =
  match multitapers w !! a, multitapers w !! b with
  | Some self, Some other => stored_M w (Multitaper.__add__ self other (log w))
  | _, _ => (inl NameError, w)
  end.
Proof.
  unfold add_Multitaper. rewrite bind_unfold. unfold load_M at 1.
  destruct (multitapers w !! a) as [self|]; [|reflexivity].
  rewrite bind_unfold. unfold load_M at 1.
  destruct (multitapers w !! b) as [other|]; [|reflexivity].
  apply run_alloc_M.
Qed.

Lemma mul_Multitaper_eq a s w :
  mul_Multitaper a s w =
  match multitapers w !! a with
  | Some self => stored_M w (Multitaper.__mul__ self s (log w))
  | None => (inl NameError, w)
  end.
Proof.
  unfold mul_Multitaper. rewrite bind_unfold. unfold load_M at 1.
  destruct (multitapers w !! a) as [self|]; [|reflexivity].
  apply run_alloc_M.
Qed.

Lemma rmul_Multitaper_eq a s w :
  rmul_Multitaper s a w = mul_Multitaper a s w.
Proof. reflexivity. Qed.

Lemma compute_Periodogram_eq a w :
  compute_Periodogram a w =
  match periodograms w !! a with
  | Some self =>
      match Periodogram.compute self (log w) with
      | (inr self', l) =>
          (inr tt, World (<[a := self']> (periodograms w)) (multitapers w) l)
      | (inl e, l) => (inl e, with_log w l)
      end
  | None => (inl NameError, w)
  end.
Proof.
  unfold compute_Periodogram. rewrite bind_unfold. unfold load_P at 1.
  destruct (periodograms w !! a) as [self|]; [|reflexivity].
  rewrite bind_unfold. unfold run.
  destruct (Periodogram.compute self (log w)) as [[e|p] l]; reflexivity.
Qed.

Lemma compute_Multitaper_eq a bw w :
  compute_Multitaper a bw w =
  match multitapers w !! a with
  | Some self =>
      match Multitaper.compute self bw (log w) with
      | (inr self', l) =>
          (inr tt, World (periodograms w) (<[a := self']> (multitapers w)) l)
      | (inl e, l) => (inl e, with_log w l)
      end
  | None => (inl NameError, w)
  end.
Proof.
  unfold compute_Multitaper. rewrite bind_unfold. unfold load_M at 1.
  destruct (multitapers w !! a) as [self|]; [|reflexivity].
  rewrite bind_unfold. unfold run.
  destruct (Multitaper.compute self bw (log w)) as [[e|p] l]; reflexivity.
Qed.

End StoreFacts.

(** ** The zero-frequency bin *)

Lemma cis_zero : cis 0 = cplx 1 0.
Proof. unfold cis. now rewrite cos_0, sin_0. Qed.

Lemma cmul_one a : cmul a (cplx 1 0) = a.
Proof. destruct a as [u v]. unfold cmul. cbn [real imag]. f_equal; ring. Qed.

Lemma imap_fixes {A} (g : nat -> A -> A) (l : list A) :
  (forall i a, g i a = a) -> imap g l = l.
Proof.
  revert g. induction l as [|a l IH]; intros g Hg; cbn; [reflexivity|].
  rewrite Hg, IH; [reflexivity|]. intros i b. apply Hg.
Qed.

(** The first entry of [np.fft.fft] is the sum of the samples. *)
Lemma fft_zero_bin a0 a :
  np_fft_fft (a0 :: a) !! 0%nat = Some (csum (a0 :: a)).
Proof.
  unfold np_fft_fft. cbn [length seq map lookup list_lookup].
  f_equal. f_equal. apply imap_fixes. intros i c.
  replace (- (2 * PI * INR i * INR 0 / INR (S (length a)))) with 0
    by (cbn [INR]; unfold Rdiv; ring).
  rewrite cis_zero. apply cmul_one.
Qed.

Lemma csum_split (g h : quaternion -> R) x :
  csum (map (fun v => cplx (g v) (h v)) x) =
  cplx (fold_right Rplus 0 (map g x)) (fold_right Rplus 0 (map h x)).
Proof.
  unfold csum. induction x as [|q x IH]; cbn; [reflexivity|].
  rewrite IH. reflexivity.
Qed.

Lemma qsum_components x :
  qsum x = quat (fold_right Rplus 0 (map qw x)) (fold_right Rplus 0 (map qx x))
                (fold_right Rplus 0 (map qy x)) (fold_right Rplus 0 (map qz x)).
Proof.
  unfold qsum. induction x as [|q x IH]; cbn; [reflexivity|].
  rewrite IH. reflexivity.
Qed.

(** The first entry of the quaternion transform is the sum of the samples. *)
Lemma Qfft_zero_bin q x : Qfft (q :: x) !! 0%nat = Some (qsum (q :: x)).
Proof.
  unfold Qfft, sympSplit, sympSynth.
  pose proof (fft_zero_bin (cplx (qw q) (qx q))
                (map (fun v => cplx (qw v) (qx v)) x)) as H1.
  pose proof (fft_zero_bin (cplx (qz q) (qy q))
                (map (fun v => cplx (qz v) (qy v)) x)) as H2.
  cbn [map].
  destruct (np_fft_fft (_ :: map (fun v => cplx (qw v) (qx v)) x))
    as [|c1 r1]; [discriminate|].
  destruct (np_fft_fft (_ :: map (fun v => cplx (qz v) (qy v)) x))
    as [|c2 r2]; [discriminate|].
  cbn in H1, H2. injection H1 as ->. injection H2 as ->.
  cbn [zip_with lookup list_lookup]. f_equal.
  change (cadd {| real := qw q; imag := qx q |}
               (foldr cadd {| real := 0; imag := 0 |}
                      (map (fun v => cplx (qw v) (qx v)) x)))
    with (csum (map (fun v => cplx (qw v) (qx v)) (q :: x))).
  change (cadd {| real := qz q; imag := qy q |}
               (foldr cadd {| real := 0; imag := 0 |}
                      (map (fun v => cplx (qz v) (qy v)) x)))
    with (csum (map (fun v => cplx (qz v) (qy v)) (q :: x))).
  rewrite !csum_split, qsum_components. reflexivity.
Qed.

Lemma lookup_map {A B} (g : A -> B) (l : list A) (i : nat) :
  map g l !! i = g <$> (l !! i).
Proof.
  revert i. induction l as [|a l IH]; intros [|i]; cbn; try reflexivity.
  apply IH.
Qed.


(** ** The claims *)

(** C2.  Stokes extraction applies the symplectic split to the density and
    returns, in this order, [S0 = Re g1], [S1 = Im g1], [S2 = Im g2] and
    [S3 = Re g2]: [S2] and [S3] come from [g2] crossed.  Both classes. *)
Theorem getStokes_reads_symplectic_split :
  (forall (self : Periodogram.instance) (l : list event),
     Periodogram._getStokes self l =
     (inr (map real (sympSplit (Periodogram.density self)).1,
           map imag (sympSplit (Periodogram.density self)).1,
           map imag (sympSplit (Periodogram.density self)).2,
           map real (sympSplit (Periodogram.density self)).2),
      ev_sympSplit (Periodogram.density self) :: l)) /\
  (forall (self : Multitaper.instance) (l : list event),
     Multitaper._getStokes self l =
     (inr (map real (sympSplit (Multitaper.density self)).1,
           map imag (sympSplit (Multitaper.density self)).1,
           map imag (sympSplit (Multitaper.density self)).2,
           map real (sympSplit (Multitaper.density self)).2),
      ev_sympSplit (Multitaper.density self) :: l)).
Proof.
  split; intros self l.
  - unfold Periodogram._getStokes, utils_sympSplit. st_unfold.
    destruct (sympSplit (Periodogram.density self)) as [g1 g2]. reflexivity.
  - unfold Multitaper._getStokes, utils_sympSplit. st_unfold.
    destruct (sympSplit (Multitaper.density self)) as [g1 g2]. reflexivity.
Qed.

Section Claims.
Context `{Collaborators}.

(** C9.  A signal array that is not of quaternion dtype makes both
    constructors raise the invalid-input-type error at once: the world is
    as it was, so nothing was logged (no frequency axis, no transform, no
    Stokes extraction) and nothing was stored. *)
Theorem constructors_reject_other_dtypes t x bw flag w :
  dtype_of x <> quaternion_dtype ->
  new_Periodogram t x flag w = (inl InvalidInputType, w) /\
  new_Multitaper t x bw flag w = (inl InvalidInputType, w).
Proof.
  intros Hx. rewrite new_Periodogram_eq, new_Multitaper_eq.
  rewrite P_init_cases, M_init_cases.
  destruct x as [a|a|a]; cbn [dtype_of] in Hx; try contradiction;
    unfold stored_P, stored_M; rewrite with_log_same; split; reflexivity.
Qed.


Lemma fresh_after_insert {V} (m : gmap loc V) a v :
  a <> fresh (dom (<[a := v]> m)).
Proof.
  intros E. apply (is_fresh (dom (<[a := v]> m))).
  rewrite <- E. apply elem_of_dom. rewrite lookup_insert_eq. eauto.
Qed.

(** The sum never raises the axis-mismatch error, whatever the time axes. *)
Lemma add_never_raises_axis_mismatch :
  (forall (self other : Periodogram.instance) l,
     (Periodogram.__add__ self other l).1 <> inl MismatchedAxisError) /\
  (forall (self other : Multitaper.instance) l,
     (Multitaper.__add__ self other l).1 <> inl MismatchedAxisError).
Proof.
  assert (Hb : forall a b e, np_add a b = inl e -> e = BroadcastError).
  { intros a b e. unfold np_add, broadcast2.
    destruct (length a =? length b)%nat; [discriminate|].
    destruct a as [|? [|? ?]], b as [|? [|? ?]]; try discriminate;
      now intros [= <-]. }
  split; intros self other l.
  - rewrite P_add_cases. unfold P_combine.
    destruct (Periodogram.t self) as [|? [|? ?]]; try discriminate.
    destruct (Periodogram.signal self); try discriminate.
    destruct (np_add _ _) as [e|d] eqn:E; [|discriminate].
    rewrite (Hb _ _ _ E). discriminate.
  - rewrite M_add_cases. unfold M_combine.
    destruct (Multitaper.t self) as [|? [|? ?]]; try discriminate.
    destruct (Multitaper.signal self); try discriminate.
    destruct (np_add _ _) as [e|d] eqn:E; [|discriminate].
    rewrite (Hb _ _ _ E). discriminate.
Qed.

(** C3 (the code departs from it).  The guard of [__add__] never fires:
    two periodograms whose time axes are [0, 1] and [0, 2] are added without
    error, the sum being a new instance on the time axis of the left operand
    with the element-wise sum as density; whatever the operands, [__add__]
    of either class goes on to build the sum and never raises the
    axis-mismatch error. *)
Theorem add_on_different_axes_returns :
  (exists c w p,
     mismatched_sum empty_world = (inr c, w) /\
     periodograms w !! c = Some p /\
     Periodogram.t p = [0; 1] /\
     Periodogram.density p = zip_with qadd (np_zeros 2) (np_zeros 2)) /\
  (forall (self other : Periodogram.instance) l,
     (Periodogram.__add__ self other l =
        P_combine self
          (np_add (Periodogram.density self) (Periodogram.density other)) l) /\
     ((Periodogram.__add__ self other l).1 <> inl MismatchedAxisError)) /\
  (forall (self other : Multitaper.instance) l,
     (Multitaper.__add__ self other l =
        M_combine self
          (np_add (Multitaper.density self) (Multitaper.density other)) l) /\
     ((Multitaper.__add__ self other l).1 <> inl MismatchedAxisError)).
Proof.
  split; [|split; intros self other l;
           (split; [first [apply P_add_cases | apply M_add_cases]
                   | apply add_never_raises_axis_mismatch])].
  unfold mismatched_sum.
  set (a := fresh (dom (periodograms empty_world))).
  rewrite bind_unfold, new_Periodogram_eq, P_init_cases.
  cbn [impulse stored_P P_built_density P_built_log is_True length].
  fold a. rewrite bind_unfold, new_Periodogram_eq, P_init_cases.
  cbn [impulse stored_P P_built_density P_built_log is_True length
       periodograms multitapers log].
  set (pa := estimate_P [0; 1] _ _ _). set (pb := estimate_P [0; 2] _ _ _).
  set (b := fresh (dom (<[a:=pa]> (periodograms empty_world)))).
  assert (Hab : a <> b) by apply fresh_after_insert.
  rewrite add_Periodogram_eq. cbn [periodograms multitapers log].
  rewrite lookup_insert_ne, !lookup_insert_eq by congruence.
  rewrite P_add_cases. unfold P_combine.
  cbn [pa pb estimate_P Periodogram.t Periodogram.signal Periodogram.density
       length impulse].
  unfold np_add. rewrite broadcast2_same_length by reflexivity.
  unfold stored_P. do 3 eexists.
  split; [reflexivity|]. split; [apply lookup_insert_eq|].
  split; reflexivity.
Qed.

(** Reading and assigning an attribute of a stored object. *)
Lemma getattr_P_eq {A} a (field : Periodogram.instance -> A) w p :
  periodograms w !! a = Some p -> getattr_P a field w = (inr (field p), w).
Proof. intros E. unfold getattr_P, load_P. st_unfold. now rewrite E. Qed.

Lemma getattr_M_eq {A} a (field : Multitaper.instance -> A) w m :
  multitapers w !! a = Some m -> getattr_M a field w = (inr (field m), w).
Proof. intros E. unfold getattr_M, load_M. st_unfold. now rewrite E. Qed.

Lemma setattr_P_eq a assign w p :
  periodograms w !! a = Some p ->
  setattr_P a assign w =
  (inr tt, World (<[a := assign p]> (periodograms w)) (multitapers w) (log w)).
Proof. intros E. unfold setattr_P, load_P, store_P. st_unfold. now rewrite E. Qed.

Lemma setattr_M_eq a assign w m :
  multitapers w !! a = Some m ->
  setattr_M a assign w =
  (inr tt, World (periodograms w) (<[a := assign m]> (multitapers w)) (log w)).
Proof. intros E. unfold setattr_M, load_M, store_M. st_unfold. now rewrite E. Qed.

(** An address in use is not the one a new object gets. *)
Lemma bound_is_not_fresh {V} (m : gmap loc V) a v :
  m !! a = Some v -> a <> fresh (dom m).
Proof.
  intros E ->. apply (is_fresh (dom m)). apply elem_of_dom. eauto.
Qed.

Lemma fresh_is_unbound {V} (m : gmap loc V) : m !! fresh (dom m) = None.
Proof. apply not_elem_of_dom, is_fresh. Qed.

(** The last lines of [__add__] and [__mul__] on objects: the new object
    is assigned its density and then its Stokes parameters. *)
Lemma object_finish_P c w1 e0 d :
  periodograms w1 !! c = Some e0 ->
  (setattr_P c (Periodogram.set_density d);;
   '(s0, s1, s2, s3) ← PeriodogramObject._getStokes c;
   setattr_P c (Periodogram.set_Stokes s0 s1 s2 s3);;
   mret c) w1 =
  (inr c,
   World (<[c := Periodogram.set_Stokes (map qw d) (map qx d) (map qy d)
                   (map qz d) (Periodogram.set_density d e0)]>
            (periodograms w1))
         (multitapers w1) (ev_sympSplit d :: log w1)).
Proof.
  intros Hc1.
  rewrite bind_unfold, (setattr_P_eq c _ w1 e0 Hc1).
  unfold PeriodogramObject._getStokes.
  rewrite !bind_unfold. unfold load_P at 1. cbn [periodograms].
  rewrite lookup_insert_eq. unfold run. cbn [log periodograms multitapers].
  rewrite P_getStokes_eq, bind_unfold.
  match goal with
  | |- context [setattr_P c ?g ?w2] =>
      rewrite (setattr_P_eq c g w2 (Periodogram.set_density d e0))
        by (cbn [periodograms]; apply lookup_insert_eq)
  end.
  cbn [periodograms multitapers log]. st_unfold.
  rewrite !insert_insert_eq. reflexivity.
Qed.

Lemma object_finish_M c w1 e0 d :
  multitapers w1 !! c = Some e0 ->
  (setattr_M c (Multitaper.set_density d);;
   '(s0, s1, s2, s3) ← MultitaperObject._getStokes c;
   setattr_M c (Multitaper.set_Stokes s0 s1 s2 s3);;
   mret c) w1 =
  (inr c,
   World (periodograms w1)
         (<[c := Multitaper.set_Stokes (map qw d) (map qx d) (map qy d)
                   (map qz d) (Multitaper.set_density d e0)]>
            (multitapers w1))
         (ev_sympSplit d :: log w1)).
Proof.
  intros Hc1.
  rewrite bind_unfold, (setattr_M_eq c _ w1 e0 Hc1).
  unfold MultitaperObject._getStokes.
  rewrite !bind_unfold. unfold load_M at 1. cbn [multitapers].
  rewrite lookup_insert_eq. unfold run. cbn [log periodograms multitapers].
  rewrite M_getStokes_eq, bind_unfold.
  match goal with
  | |- context [setattr_M c ?g ?w2] =>
      rewrite (setattr_M_eq c g w2 (Multitaper.set_density d e0))
        by (cbn [multitapers]; apply lookup_insert_eq)
  end.
  cbn [periodograms multitapers log]. st_unfold.
  rewrite !insert_insert_eq. reflexivity.
Qed.

(** Every outcome of [__add__] and of [__mul__] on objects. *)
Lemma object_add_P a b w self other :
  periodograms w !! a = Some self -> periodograms w !! b = Some other ->
  PeriodogramObject.__add__ a b w =
  built_P w self
    (np_add (Periodogram.density self) (Periodogram.density other)).
Proof.
  intros Ha Hb. unfold PeriodogramObject.__add__.
  rewrite (bind_returns _ _ _ _ _ (getattr_P_eq a Periodogram.t w self Ha)).
  rewrite (bind_returns _ _ _ _ _ (getattr_P_eq b Periodogram.t w other Hb)).
  rewrite axis_test_never_holds.
  rewrite (bind_returns _ _ _ _ _ (getattr_P_eq a Periodogram.t w self Ha)).
  rewrite (bind_returns _ _ _ _ _ (getattr_P_eq a Periodogram.signal w self Ha)).
  rewrite bind_unfold, new_Periodogram_eq, P_init_cases. unfold built_P.
  destruct (Periodogram.t self) as [|t0 [|t1 ts]] eqn:Et;
    try (destruct (Periodogram.signal self); cbn [stored_P];
         rewrite ?with_log_same; reflexivity).
  destruct (Periodogram.signal self) as [|x0 xs] eqn:Ex; [reflexivity|].
  cbn [stored_P P_built_density P_built_log is_True]. cbv zeta.
  set (c := fresh (dom (periodograms w))).
  set (e0 := estimate_P _ _ _ _).
  set (w1 := World _ _ _).
  assert (Ha1 : periodograms w1 !! a = Some self).
  { subst w1. cbn [periodograms]. rewrite lookup_insert_ne; [exact Ha|].
    intros E. symmetry in E. revert E. eapply bound_is_not_fresh, Ha. }
  assert (Hb1 : periodograms w1 !! b = Some other).
  { subst w1. cbn [periodograms]. rewrite lookup_insert_ne; [exact Hb|].
    intros E. symmetry in E. revert E. eapply bound_is_not_fresh, Hb. }
  assert (Hc1 : periodograms w1 !! c = Some e0)
    by (subst w1; cbn [periodograms]; apply lookup_insert_eq).
  rewrite (bind_returns _ _ _ _ _
             (getattr_P_eq a Periodogram.density w1 self Ha1)).
  rewrite (bind_returns _ _ _ _ _
             (getattr_P_eq b Periodogram.density w1 other Hb1)).
  rewrite bind_unfold. unfold liftE at 1.
  destruct (np_add _ _) as [e|d]; [reflexivity|].
  rewrite (object_finish_P c w1 e0 d Hc1).
  subst w1. cbn [periodograms multitapers log].
  rewrite insert_insert_eq. reflexivity.
Qed.

Lemma object_mul_P a s w self :
  periodograms w !! a = Some self ->
  PeriodogramObject.__mul__ a s w =
  if (1 <? np_size s)%nat then (inl UnsupportedOperandError, w)
  else built_P w self (np_multiply s (Periodogram.density self)).
Proof.
  intros Ha. unfold PeriodogramObject.__mul__.
  destruct (1 <? np_size s)%nat; [reflexivity|].
  rewrite (bind_returns _ _ _ _ _ (getattr_P_eq a Periodogram.t w self Ha)).
  rewrite (bind_returns _ _ _ _ _ (getattr_P_eq a Periodogram.signal w self Ha)).
  rewrite bind_unfold, new_Periodogram_eq, P_init_cases. unfold built_P.
  destruct (Periodogram.t self) as [|t0 [|t1 ts]] eqn:Et;
    try (destruct (Periodogram.signal self); cbn [stored_P];
         rewrite ?with_log_same; reflexivity).
  destruct (Periodogram.signal self) as [|x0 xs] eqn:Ex; [reflexivity|].
  cbn [stored_P P_built_density P_built_log is_True]. cbv zeta.
  set (c := fresh (dom (periodograms w))).
  set (e0 := estimate_P _ _ _ _).
  set (w1 := World _ _ _).
  assert (Ha1 : periodograms w1 !! a = Some self).
  { subst w1. cbn [periodograms]. rewrite lookup_insert_ne; [exact Ha|].
    intros E. symmetry in E. revert E. eapply bound_is_not_fresh, Ha. }
  assert (Hc1 : periodograms w1 !! c = Some e0)
    by (subst w1; cbn [periodograms]; apply lookup_insert_eq).
  rewrite (bind_returns _ _ _ _ _
             (getattr_P_eq a Periodogram.density w1 self Ha1)).
  rewrite bind_unfold. unfold liftE at 1.
  destruct (np_multiply _ _) as [e|d]; [reflexivity|].
  rewrite (object_finish_P c w1 e0 d Hc1).
  subst w1. cbn [periodograms multitapers log].
  rewrite insert_insert_eq. reflexivity.
Qed.

(** The call [Multitaper(self.t, self.signal, computeFlag=False)] of the
    operators: every outcome. *)
Lemma new_default_Multitaper t x w :
  new_Multitaper t (QuaternionArray x) Multitaper.default_bw (PyBool false) w =
  match t, x with
  | t0 :: t1 :: _, _ :: _ =>
      let N := length x in
      (inr (fresh (dom (multitapers w))),
       World (periodograms w)
             (<[fresh (dom (multitapers w)) :=
                  estimate_M t x (t1 - t0) (repeat (repeat quaternion_zero 4) N)
                             (repeat (repeat 0 4) N) (np_zeros N)]>
                (multitapers w))
             (ev_sympSplit (np_zeros N) :: ev_fftfreq N :: log w))
  | _ :: _ :: _, [] => (inl ZeroDivisionError, with_log w (ev_fftfreq 0 :: log w))
  | _, _ => (inl IndexError, w)
  end.
Proof.
  rewrite new_Multitaper_eq.
  destruct t as [|t0 [|t1 ts]];
    try (rewrite M_init_cases; destruct x; cbn [stored_M];
         rewrite ?with_log_same; reflexivity).
  destruct x as [|x0 xs]; [rewrite M_init_cases; reflexivity|].
  rewrite M_init_deferred, default_taper_count;
    [|reflexivity | rewrite default_taper_count; lia].
  reflexivity.
Qed.

Lemma object_add_M a b w self other :
  multitapers w !! a = Some self -> multitapers w !! b = Some other ->
  MultitaperObject.__add__ a b w =
  built_M w self
    (np_add (Multitaper.density self) (Multitaper.density other)).
Proof.
  intros Ha Hb. unfold MultitaperObject.__add__.
  rewrite (bind_returns _ _ _ _ _ (getattr_M_eq a Multitaper.t w self Ha)).
  rewrite (bind_returns _ _ _ _ _ (getattr_M_eq b Multitaper.t w other Hb)).
  rewrite axis_test_never_holds.
  rewrite (bind_returns _ _ _ _ _ (getattr_M_eq a Multitaper.t w self Ha)).
  rewrite (bind_returns _ _ _ _ _ (getattr_M_eq a Multitaper.signal w self Ha)).
  rewrite bind_unfold, new_default_Multitaper. unfold built_M.
  destruct (Multitaper.t self) as [|t0 [|t1 ts]] eqn:Et;
    try (destruct (Multitaper.signal self); reflexivity).
  destruct (Multitaper.signal self) as [|x0 xs] eqn:Ex; [reflexivity|].
  cbv zeta.
  set (c := fresh (dom (multitapers w))).
  set (e0 := estimate_M _ _ _ _ _ (np_zeros _)).
  set (w1 := World _ _ _).
  assert (Ha1 : multitapers w1 !! a = Some self).
  { subst w1. cbn [multitapers]. rewrite lookup_insert_ne; [exact Ha|].
    intros E. symmetry in E. revert E. eapply bound_is_not_fresh, Ha. }
  assert (Hb1 : multitapers w1 !! b = Some other).
  { subst w1. cbn [multitapers]. rewrite lookup_insert_ne; [exact Hb|].
    intros E. symmetry in E. revert E. eapply bound_is_not_fresh, Hb. }
  assert (Hc1 : multitapers w1 !! c = Some e0)
    by (subst w1; cbn [multitapers]; apply lookup_insert_eq).
  rewrite (bind_returns _ _ _ _ _
             (getattr_M_eq a Multitaper.density w1 self Ha1)).
  rewrite (bind_returns _ _ _ _ _
             (getattr_M_eq b Multitaper.density w1 other Hb1)).
  rewrite bind_unfold. unfold liftE at 1.
  destruct (np_add _ _) as [e|d]; [reflexivity|].
  rewrite (object_finish_M c w1 e0 d Hc1).
  subst w1. cbn [periodograms multitapers log].
  rewrite insert_insert_eq. reflexivity.
Qed.

Lemma object_mul_M a s w self :
  multitapers w !! a = Some self ->
  MultitaperObject.__mul__ a s w =
  if (1 <? np_size s)%nat then (inl UnsupportedOperandError, w)
  else built_M w self (np_multiply s (Multitaper.density self)).
Proof.
  intros Ha. unfold MultitaperObject.__mul__.
  destruct (1 <? np_size s)%nat; [reflexivity|].
  rewrite (bind_returns _ _ _ _ _ (getattr_M_eq a Multitaper.t w self Ha)).
  rewrite (bind_returns _ _ _ _ _ (getattr_M_eq a Multitaper.signal w self Ha)).
  rewrite bind_unfold, new_default_Multitaper. unfold built_M.
  destruct (Multitaper.t self) as [|t0 [|t1 ts]] eqn:Et;
    try (destruct (Multitaper.signal self); reflexivity).
  destruct (Multitaper.signal self) as [|x0 xs] eqn:Ex; [reflexivity|].
  cbv zeta.
  set (c := fresh (dom (multitapers w))).
  set (e0 := estimate_M _ _ _ _ _ (np_zeros _)).
  set (w1 := World _ _ _).
  assert (Ha1 : multitapers w1 !! a = Some self).
  { subst w1. cbn [multitapers]. rewrite lookup_insert_ne; [exact Ha|].
    intros E. symmetry in E. revert E. eapply bound_is_not_fresh, Ha. }
  assert (Hc1 : multitapers w1 !! c = Some e0)
    by (subst w1; cbn [multitapers]; apply lookup_insert_eq).
  rewrite (bind_returns _ _ _ _ _
             (getattr_M_eq a Multitaper.density w1 self Ha1)).
  rewrite bind_unfold. unfold liftE at 1.
  destruct (np_multiply _ _) as [e|d]; [reflexivity|].
  rewrite (object_finish_M c w1 e0 d Hc1).
  subst w1. cbn [periodograms multitapers log].
  rewrite insert_insert_eq. reflexivity.
Qed.

(** The store [built_P] and [built_M] leave, against the method on the
    values of the operands. *)
Lemma built_P_builds w self d l :
  builds_P w (P_combine self d l).1 (built_P w self d).1 (built_P w self d).2.
Proof.
  unfold built_P, P_combine.
  destruct (Periodogram.t self) as [|t0 [|t1 ts]];
    destruct (Periodogram.signal self) as [|x0 xs];
    try (repeat split; auto; fail).
  cbv zeta.
  assert (Hframe : forall v l0 p,
            periodograms w !! l0 = Some p ->
            <[fresh (dom (periodograms w)) := v]> (periodograms w) !! l0
              = Some p).
  { intros v l0 p E. rewrite lookup_insert_ne; [exact E|].
    intros E'. symmetry in E'. revert E'. eapply bound_is_not_fresh, E. }
  destruct d as [e|d]; cbn [fst snd periodograms multitapers].
  - split; [reflexivity|]. split; [apply Hframe | reflexivity].
  - split; [reflexivity|]. split; [apply Hframe|].
    split; [apply fresh_is_unbound|].
    eexists. split; [reflexivity | apply lookup_insert_eq].
Qed.

Lemma built_M_builds w self d l :
  builds_M w (M_combine self d l).1 (built_M w self d).1 (built_M w self d).2.
Proof.
  unfold built_M, M_combine.
  destruct (Multitaper.t self) as [|t0 [|t1 ts]];
    destruct (Multitaper.signal self) as [|x0 xs];
    try (repeat split; auto; fail).
  cbv zeta.
  assert (Hframe : forall v l0 p,
            multitapers w !! l0 = Some p ->
            <[fresh (dom (multitapers w)) := v]> (multitapers w) !! l0
              = Some p).
  { intros v l0 p E. rewrite lookup_insert_ne; [exact E|].
    intros E'. symmetry in E'. revert E'. eapply bound_is_not_fresh, E. }
  destruct d as [e|d]; cbn [fst snd periodograms multitapers].
  - split; [reflexivity|]. split; [apply Hframe | reflexivity].
  - split; [reflexivity|]. split; [apply Hframe|].
    split; [apply fresh_is_unbound|].
    eexists. split; [reflexivity | apply lookup_insert_eq].
Qed.

(** The operations on stored values used elsewhere answer what the methods
    on objects answer: the same address and store when they return, the
    same error and log when they raise. *)
Lemma built_P_agrees w self d :
  match built_P w self d, stored_P w (P_combine self d (log w)) with
  | (inr c, w1), (inr c', w2) => c = c' /\ w1 = w2
  | (inl e, w1), (inl e', w2) => e = e' /\ log w1 = log w2
  | _, _ => False
  end.
Proof.
  unfold built_P, P_combine.
  destruct (Periodogram.t self) as [|t0 [|t1 ts]];
    destruct (Periodogram.signal self) as [|x0 xs];
    try destruct d as [e|d]; cbn [stored_P with_log log]; auto.
Qed.

Lemma built_M_agrees w self d :
  match built_M w self d, stored_M w (M_combine self d (log w)) with
  | (inr c, w1), (inr c', w2) => c = c' /\ w1 = w2
  | (inl e, w1), (inl e', w2) => e = e' /\ log w1 = log w2
  | _, _ => False
  end.
Proof.
  unfold built_M, M_combine.
  destruct (Multitaper.t self) as [|t0 [|t1 ts]];
    destruct (Multitaper.signal self) as [|x0 xs];
    try destruct d as [e|d]; cbn [stored_M with_log log]; auto.
Qed.

(** C7.  [+], [*] and the reflected [*] act on objects: their operands are
    references.  On operands that are stored estimates, each of them leaves
    every stored instance, both operands among them, with all its fields as
    they were, whether it returns or raises; when it returns, it answers an
    address that was not in use, where the estimate now stored is the one
    the method computes from the values of the operands; when it raises,
    the error is the one the method on values raises.  Both classes. *)
Theorem operators_leave_operands_untouched a b s w r w' :
  (forall self other,
     periodograms w !! a = Some self -> periodograms w !! b = Some other ->
     (PeriodogramObject.__add__ a b w = (r, w') ->
      builds_P w (Periodogram.__add__ self other (log w)).1 r w') /\
     (PeriodogramObject.__mul__ a s w = (r, w') ->
      builds_P w (Periodogram.__mul__ self s (log w)).1 r w') /\
     (PeriodogramObject.__rmul__ a s w = (r, w') ->
      builds_P w (Periodogram.__rmul__ self s (log w)).1 r w')) /\
  (forall self other,
     multitapers w !! a = Some self -> multitapers w !! b = Some other ->
     (MultitaperObject.__add__ a b w = (r, w') ->
      builds_M w (Multitaper.__add__ self other (log w)).1 r w') /\
     (MultitaperObject.__mul__ a s w = (r, w') ->
      builds_M w (Multitaper.__mul__ self s (log w)).1 r w') /\
     (MultitaperObject.__rmul__ a s w = (r, w') ->
      builds_M w (Multitaper.__rmul__ self s (log w)).1 r w')).
Proof.
  split; intros self other Ha Hb.
  - assert (Hmul : PeriodogramObject.__mul__ a s w = (r, w') ->
              builds_P w (Periodogram.__mul__ self s (log w)).1 r w').
    { rewrite (object_mul_P a s w self Ha), P_mul_cases.
      destruct (1 <? np_size s)%nat.
      - intros [= <- <-]. repeat split; auto.
      - intros E.
        pose proof (built_P_builds w self
                      (np_multiply s (Periodogram.density self)) (log w)) as Hs.
        rewrite E in Hs. exact Hs. }
    split; [|split; [exact Hmul | exact Hmul]].
    rewrite (object_add_P a b w self other Ha Hb), P_add_cases. intros E.
    pose proof (built_P_builds w self
                  (np_add (Periodogram.density self)
                          (Periodogram.density other)) (log w)) as Hs.
    rewrite E in Hs. exact Hs.
  - assert (Hmul : MultitaperObject.__mul__ a s w = (r, w') ->
              builds_M w (Multitaper.__mul__ self s (log w)).1 r w').
    { rewrite (object_mul_M a s w self Ha), M_mul_cases.
      destruct (1 <? np_size s)%nat.
      - intros [= <- <-]. repeat split; auto.
      - intros E.
        pose proof (built_M_builds w self
                      (np_multiply s (Multitaper.density self)) (log w)) as Hs.
        rewrite E in Hs. exact Hs. }
    split; [|split; [exact Hmul | exact Hmul]].
    rewrite (object_add_M a b w self other Ha Hb), M_add_cases. intros E.
    pose proof (built_M_builds w self
                  (np_add (Multitaper.density self)
                          (Multitaper.density other)) (log w)) as Hs.
    rewrite E in Hs. exact Hs.
Qed.


(** What a constructor that returned was given, and what it stored. *)
Lemma new_Periodogram_inv t x flag w a w1 :
  new_Periodogram t x flag w = (inr a, w1) ->
  exists t0 t1 ts x0 xs l,
    t = t0 :: t1 :: ts /\ x = QuaternionArray (x0 :: xs) /\
    a = fresh (dom (periodograms w)) /\
    w1 = World (<[a := estimate_P t (x0 :: xs) (t1 - t0)
                         (P_built_density flag (t1 - t0) (x0 :: xs))]>
                  (periodograms w)) (multitapers w) l.
Proof.
  rewrite new_Periodogram_eq, P_init_cases.
  destruct x as [?|?|xs]; try discriminate.
  destruct t as [|t0 [|t1 ts]]; try (destruct xs; discriminate).
  destruct xs as [|x0 xs]; [discriminate|].
  unfold stored_P. intros [= <- <-].
  exists t0, t1, ts, x0, xs. eexists. repeat split.
Qed.

Lemma M_init_inv t x bw flag l m l' :
  Multitaper.__init__ t x bw flag l = (inr m, l') ->
  exists t0 t1 ts x0 xs self,
    t = t0 :: t1 :: ts /\ x = QuaternionArray (x0 :: xs) /\
    (0 <= Zfloor (2 * bw) - 1)%Z /\ m = M_finish self /\
    ((is_True flag = false /\
      self = M_blank t (x0 :: xs) (t1 - t0) (Zfloor (2 * bw) - 1)) \/
     (is_True flag = true /\ exists l0 l1,
        Multitaper.compute
          (M_blank t (x0 :: xs) (t1 - t0) (Zfloor (2 * bw) - 1)) bw l0
        = (inr self, l1))).
Proof.
  rewrite M_init_cases.
  destruct x as [?|?|xs]; try discriminate.
  destruct t as [|t0 [|t1 ts]]; try (destruct xs; discriminate).
  destruct xs as [|x0 xs]; [discriminate|]. cbv zeta.
  destruct (Z.ltb_spec (Zfloor (2 * bw) - 1) 0) as [?|Hn]; [discriminate|].
  destruct (is_True flag).
  - destruct (Multitaper.compute _ bw _) as [[e|self] l1] eqn:E;
      [discriminate|].
    cbn [M_finish_run]. intros [= <- <-].
    exists t0, t1, ts, x0, xs, self. repeat split; try assumption.
    right. split; [reflexivity|]. eauto.
  - cbn [M_finish_run]. intros [= <- <-].
    exists t0, t1, ts, x0, xs. eexists. repeat split; try assumption.
    left. split; reflexivity.
Qed.

(** The instance a multitaper constructor returns keeps the time axis and
    the signal it was given. *)
Lemma M_init_data t x bw flag l m l' :
  Multitaper.__init__ t x bw flag l = (inr m, l') ->
  exists t0 t1 ts x0 xs,
    Multitaper.t m = t0 :: t1 :: ts /\ Multitaper.signal m = x0 :: xs.
Proof.
  intros E. apply M_init_inv in E.
  destruct E as (t0 & t1 & ts & x0 & xs & self & -> & -> & _ & -> & Hs).
  exists t0, t1, ts, x0, xs.
  destruct Hs as [[_ ->]|[_ (l0 & l1 & E)]]; [split; reflexivity|].
  apply M_compute_assigns in E. destruct E as (ds & tp & ->).
  split; reflexivity.
Qed.

Lemma qadd_twice q : qadd q q = rmul 2 q.
Proof.
  destruct q as [a b c d]. unfold qadd, rmul. cbn [qw qx qy qz].
  f_equal; ring.
Qed.

Lemma zip_with_qadd_self d : zip_with qadd d d = map (rmul 2) d.
Proof.
  induction d as [|q d IH]; cbn; [reflexivity|].
  now rewrite qadd_twice, IH.
Qed.

(** C5.  For an estimate built by its constructor, [E + E] and [2 * E] are
    two new instances with the same density, entry by entry.  (For the
    multitaper estimate the bandwidth gives at least one taper.) *)
Theorem sum_with_itself_is_twice :
  (forall t x flag w a w1,
     new_Periodogram t x flag w = (inr a, w1) ->
     exists b w2 c w3 pb pc,
       add_Periodogram a a w1 = (inr b, w2) /\
       rmul_Periodogram (Scalar 2) a w2 = (inr c, w3) /\
       b <> c /\
       periodograms w3 !! b = Some pb /\ periodograms w3 !! c = Some pc /\
       Periodogram.density pb = Periodogram.density pc) /\
  (forall t x bw flag w a w1,
     (1 <= Zfloor (2 * bw) - 1)%Z ->
     new_Multitaper t x bw flag w = (inr a, w1) ->
     exists b w2 c w3 mb mc,
       add_Multitaper a a w1 = (inr b, w2) /\
       rmul_Multitaper (Scalar 2) a w2 = (inr c, w3) /\
       b <> c /\
       multitapers w3 !! b = Some mb /\ multitapers w3 !! c = Some mc /\
       Multitaper.density mb = Multitaper.density mc).
Proof.
  split.
  - intros t x flag w a w1 E.
    apply new_Periodogram_inv in E.
    destruct E as (t0 & t1 & ts & x0 & xs & l & -> & -> & Ha & ->).
    set (p := estimate_P _ _ _ _) in *.
    rewrite add_Periodogram_eq. cbn [periodograms multitapers log].
    rewrite lookup_insert_eq, P_add_cases. unfold P_combine, np_add.
    rewrite broadcast2_same_length by reflexivity.
    cbn [p estimate_P Periodogram.t Periodogram.signal Periodogram.density
         stored_P periodograms multitapers log].
    fold p. set (pb := estimate_P _ _ _ (zip_with _ _ _)).
    set (b := fresh (dom (<[a:=p]> (periodograms w)))).
    assert (Hab : a <> b) by apply fresh_after_insert.
    set (c := fresh (dom (<[b:=pb]> (<[a:=p]> (periodograms w))))).
    assert (Hbc : b <> c) by apply fresh_after_insert.
    exists b. eexists. exists c. eexists. exists pb. eexists.
    split; [reflexivity|].
    rewrite rmul_Periodogram_eq, mul_Periodogram_eq.
    cbn [periodograms multitapers log].
    rewrite lookup_insert_ne, lookup_insert_eq by congruence.
    rewrite P_mul_cases. unfold P_combine.
    cbn [np_size Nat.ltb Nat.leb np_multiply p estimate_P Periodogram.t
         Periodogram.signal Periodogram.density stored_P periodograms
         multitapers log].
    fold p. fold c.
    split; [reflexivity|]. split; [exact Hbc|].
    cbn [periodograms].
    split; [rewrite lookup_insert_ne, lookup_insert_eq by congruence;
            reflexivity|].
    split; [apply lookup_insert_eq|].
    cbn [pb estimate_P Periodogram.density]. apply zip_with_qadd_self.
  - intros t x bw flag w a w1 _ E.
    rewrite new_Multitaper_eq in E.
    destruct (Multitaper.__init__ t x bw flag (log w)) as [[e|m] l] eqn:Ei;
      [discriminate|].
    destruct (M_init_data _ _ _ _ _ _ _ Ei)
      as (t0 & t1 & ts & x0 & xs & Ht & Hx).
    unfold stored_M in E. injection E as <- <-.
    set (a := fresh (dom (multitapers w))).
    rewrite add_Multitaper_eq. cbn [periodograms multitapers log].
    rewrite lookup_insert_eq, M_add_cases. unfold M_combine, np_add.
    rewrite broadcast2_same_length by reflexivity.
    rewrite Ht, Hx. cbn [stored_M periodograms multitapers log].
    set (mb := estimate_M _ _ _ _ _ (zip_with _ _ _)).
    set (b := fresh (dom (<[a:=m]> (multitapers w)))).
    assert (Hab : a <> b) by apply fresh_after_insert.
    set (c := fresh (dom (<[b:=mb]> (<[a:=m]> (multitapers w))))).
    assert (Hbc : b <> c) by apply fresh_after_insert.
    exists b. eexists. exists c. eexists. exists mb. eexists.
    split; [reflexivity|].
    rewrite rmul_Multitaper_eq, mul_Multitaper_eq.
    cbn [periodograms multitapers log].
    rewrite lookup_insert_ne, lookup_insert_eq by congruence.
    rewrite M_mul_cases. unfold M_combine.
    rewrite Ht, Hx.
    cbn [np_size Nat.ltb Nat.leb np_multiply stored_M periodograms
         multitapers log].
    fold c.
    split; [reflexivity|]. split; [exact Hbc|].
    cbn [multitapers].
    split; [rewrite lookup_insert_ne, lookup_insert_eq by congruence;
            reflexivity|].
    split; [apply lookup_insert_eq|].
    cbn [mb estimate_M Multitaper.density]. apply zip_with_qadd_self.
Qed.

(** C1.  [Periodogram.compute] sets the density, entry by entry, to
    [(dt / N) * (norm(Q) + StokesNorm(Q) * j)] on [Q = Qfft(x)];
    [Multitaper.compute], on an instance of shape [(N, Nmt)] and when the
    taper generator returns, sets column [n] of [densities] to
    [dt * (norm(Qn) + StokesNorm(Qn) * j)] on [Qn = Qfft(x * taper_n)], with
    no division by [N]; the two entries differ by the factor [1 / N]. *)
Theorem densities_follow_their_scalings :
  (forall (self : Periodogram.instance) l t0 t1 ts,
     Periodogram.t self = t0 :: t1 :: ts ->
     exists self' l',
       Periodogram.compute self l = (inr self', l') /\
       Periodogram.density self' =
         map (fun q =>
                rmul ((t1 - t0) / INR (length (Periodogram.signal self)))
                     (radd (norm q) (qmul (StokesNorm_entry q) quaternion_y)))
             (Qfft (Periodogram.signal self))) /\
  (forall (self : Multitaper.instance) bw l t0 t1 ts tapers eigens N Nmt,
     Multitaper.t self = t0 :: t1 :: ts ->
     length (Multitaper.signal self) = N ->
     is_matrix N Nmt (Multitaper.dpss self) ->
     is_matrix N Nmt (Multitaper.densities self) ->
     (0 < N)%nat ->
     dpss_tapers N bw Nmt = inr (tapers, eigens) ->
     exists self' l',
       Multitaper.compute self bw l = (inr self', l') /\
       forall n, (n < Nmt)%nat ->
         get_column n (Multitaper.dpss self') = inr (taper_column tapers N n) /\
         get_column n (Multitaper.densities self') =
           inr (map (fun q =>
                       rmul (t1 - t0)
                            (radd (norm q)
                                  (qmul (StokesNorm_entry q) quaternion_y)))
                    (Qfft (zip_with qmulr (Multitaper.signal self)
                                    (taper_column tapers N n))))) /\
  (forall dt N q, periodogram_entry dt N q = rmul (/ INR N) (tapered_entry dt q)).
Proof.
  split; [|split].
  - intros self l t0 t1 ts Ht.
    rewrite (P_compute_eq self t0 t1 ts l Ht).
    do 2 eexists. split; reflexivity.
  - intros self bw l t0 t1 ts tapers eigens N Nmt Ht Hx Hp Hd HN Hc.
    destruct (M_compute_spec self bw l t0 t1 ts tapers eigens N Nmt
                Ht Hx Hp Hd HN Hc) as (ds & l' & E & Hm & Hcols).
    rewrite E. do 2 eexists. split; [reflexivity|].
    intros n Hn. M_fields. split.
    + unfold taper_bank, taper_column. now apply get_column_tabulate.
    + rewrite (Hcols n Hn). reflexivity.
  - intros dt N q. unfold periodogram_entry, tapered_entry, rmul, radd.
    cbn [qw qx qy qz]. unfold Rdiv. f_equal; ring.
Qed.


(** C4, as the code has it.  There is no check of the bandwidth.  When
    [floor(2 * bw) - 1] is negative the constructor raises before any taper
    is requested: the store is as it was and the log holds at most the call
    of [np.fft.fftfreq]; on a quaternion signal with a sample and a time axis
    with two entries the error is numpy's, for the negative dimension of the
    array of tapered periodograms. *)
Theorem negative_taper_count_is_rejected t x bw flag w :
  (Zfloor (2 * bw) - 1 < 0)%Z ->
  exists e w',
    new_Multitaper t x bw flag w = (inl e, w') /\
    periodograms w' = periodograms w /\ multitapers w' = multitapers w /\
    (log w' = log w \/ exists N, log w' = ev_fftfreq N :: log w) /\
    (forall t0 t1 ts x0 xs,
       t = t0 :: t1 :: ts -> x = QuaternionArray (x0 :: xs) ->
       e = NegativeDimensions).
Proof.
  intros Hn. rewrite new_Multitaper_eq, M_init_cases.
  destruct x as [a|a|xs].
  - do 2 eexists. split; [reflexivity|]. cbn [with_log periodograms multitapers log].
    repeat split; auto. intros; discriminate.
  - do 2 eexists. split; [reflexivity|]. cbn [with_log periodograms multitapers log].
    repeat split; auto. intros; discriminate.
  - destruct t as [|t0 [|t1 ts]].
    + do 2 eexists. split; [reflexivity|].
      cbn [with_log periodograms multitapers log].
      repeat split; auto. intros; discriminate.
    + do 2 eexists. split; [reflexivity|].
      cbn [with_log periodograms multitapers log].
      repeat split; auto. intros; discriminate.
    + destruct xs as [|x0 xs].
      * do 2 eexists. split; [reflexivity|].
        cbn [with_log periodograms multitapers log].
        repeat split; eauto. intros; discriminate.
      * cbv zeta.
        destruct (Z.ltb_spec (Zfloor (2 * bw) - 1) 0) as [_|?]; [|lia].
        do 2 eexists. split; [reflexivity|].
        cbn [with_log periodograms multitapers log].
        repeat split; eauto.
Qed.

(** C10, as the code has it.  On an estimate built with [computeFlag=False],
    a later call of [compute] assigns [density] (for a periodogram) or
    [densities] and the taper bank [dpss] (for a multitaper estimate with at
    least one taper) and nothing else: [S0] to [S3] stay the zero arrays of
    the construction, and so does the averaged [density] of the multitaper
    estimate, even when [compute] has filled every column of [densities]. *)
Theorem deferred_compute_leaves_Stokes_zero :
  (forall t x w a w1,
     new_Periodogram t x (PyBool false) w = (inr a, w1) ->
     exists p p' t0 t1 ts xs w2,
       t = t0 :: t1 :: ts /\ x = QuaternionArray xs /\
       periodograms w1 !! a = Some p /\
       compute_Periodogram a w1 = (inr tt, w2) /\
       periodograms w2 !! a = Some p' /\
       p' = Periodogram.set_density
              (map (periodogram_entry (t1 - t0) (length xs)) (Qfft xs)) p /\
       Periodogram.S0 p' = repeat 0 (length xs) /\
       Periodogram.S1 p' = repeat 0 (length xs) /\
       Periodogram.S2 p' = repeat 0 (length xs) /\
       Periodogram.S3 p' = repeat 0 (length xs)) /\
  (forall t x bw bw' w a w1 r w2,
     (1 <= Zfloor (2 * bw) - 1)%Z ->
     new_Multitaper t x bw (PyBool false) w = (inr a, w1) ->
     compute_Multitaper a bw' w1 = (r, w2) ->
     exists m m' t0 t1 ts xs ds tp,
       t = t0 :: t1 :: ts /\ x = QuaternionArray xs /\
       multitapers w1 !! a = Some m /\
       multitapers w2 !! a = Some m' /\
       m' = Multitaper.set_densities ds (Multitaper.set_dpss tp m) /\
       Multitaper.S0 m' = repeat 0 (length xs) /\
       Multitaper.S1 m' = repeat 0 (length xs) /\
       Multitaper.S2 m' = repeat 0 (length xs) /\
       Multitaper.S3 m' = repeat 0 (length xs) /\
       Multitaper.density m' = np_zeros (length xs) /\
       (forall tapers eigens,
          dpss_tapers (length xs) bw' (Z.to_nat (Zfloor (2 * bw) - 1))
            = inr (tapers, eigens) ->
          r = inr tt /\
          forall n, (n < Z.to_nat (Zfloor (2 * bw) - 1))%nat ->
            get_column n tp = inr (taper_column tapers (length xs) n) /\
            get_column n ds =
              inr (tapered_density (t1 - t0) xs
                     (taper_column tapers (length xs) n)))).
Proof.
  split.
  - intros t x w a w1 E. apply new_Periodogram_inv in E.
    destruct E as (t0 & t1 & ts & x0 & xs & l & -> & -> & Ha & ->).
    cbn [P_built_density is_True].
    set (p := estimate_P _ _ _ _).
    exists p. eexists. exists t0, t1, ts, (x0 :: xs). eexists.
    split; [reflexivity|]. split; [reflexivity|].
    cbn [periodograms]. split; [apply lookup_insert_eq|].
    rewrite compute_Periodogram_eq. cbn [periodograms multitapers log].
    rewrite lookup_insert_eq.
    rewrite (P_compute_eq p t0 t1 ts l eq_refl).
    split; [reflexivity|]. cbn [periodograms].
    split; [apply lookup_insert_eq|]. split; [reflexivity|].
    assert (Hz : forall g, g quaternion_zero = 0 ->
              map g (np_zeros (length (x0 :: xs)))
              = repeat 0 (length (x0 :: xs))).
    { intros g Hg. unfold np_zeros. now rewrite map_repeat, Hg. }
    cbn [p estimate_P Periodogram.set_density Periodogram.S0 Periodogram.S1
         Periodogram.S2 Periodogram.S3].
    rewrite !Hz by reflexivity. repeat split.
  - intros t x bw bw' w a w1 r w2 Hn E Ec.
    rewrite new_Multitaper_eq in E.
    destruct x as [?|?|xs]; try (rewrite M_init_cases in E; discriminate).
    destruct t as [|t0 [|t1 ts]];
      try (rewrite M_init_cases in E; destruct xs; discriminate).
    destruct xs as [|x0 xs]; [rewrite M_init_cases in E; discriminate|].
    rewrite M_init_deferred in E by (try reflexivity; lia).
    unfold stored_M in E. injection E as <- <-.
    set (a := fresh (dom (multitapers w))) in *.
    set (N := length (x0 :: xs)) in *.
    set (Nmt := Z.to_nat (Zfloor (2 * bw) - 1)) in *.
    set (m := estimate_M _ _ _ _ _ _) in *.
    assert (Hz : forall g, g quaternion_zero = 0 ->
              map g (np_zeros N) = repeat 0 N).
    { intros g Hg. unfold np_zeros. now rewrite map_repeat, Hg. }
    assert (Hfields : forall ds tp,
              let m' := Multitaper.set_densities ds
                          (Multitaper.set_dpss tp m) in
              Multitaper.S0 m' = repeat 0 N /\ Multitaper.S1 m' = repeat 0 N /\
              Multitaper.S2 m' = repeat 0 N /\ Multitaper.S3 m' = repeat 0 N /\
              Multitaper.density m' = np_zeros N).
    { intros ds tp.
      cbn [m estimate_M Multitaper.set_densities Multitaper.set_dpss
           Multitaper.S0 Multitaper.S1 Multitaper.S2 Multitaper.S3
           Multitaper.density Multitaper.t Multitaper.signal Multitaper.f
           Multitaper.S1n Multitaper.S2n Multitaper.S3n Multitaper.Phi].
      rewrite !Hz by reflexivity. repeat split. }
    rewrite compute_Multitaper_eq in Ec.
    cbn [periodograms multitapers log] in Ec.
    rewrite lookup_insert_eq in Ec.
    assert (Hshape : Multitaper.t m = t0 :: t1 :: ts /\
                     length (Multitaper.signal m) = N /\
                     is_matrix N Nmt (Multitaper.dpss m) /\
                     is_matrix N Nmt (Multitaper.densities m) /\ (0 < N)%nat).
    { split; [reflexivity|]. split; [reflexivity|].
      split; [exact (is_matrix_zeros 0 N Nmt)|].
      split; [exact (is_matrix_zeros quaternion_zero N Nmt)|].
      subst N. cbn. lia. }
    destruct Hshape as (Ht & Hx & Hp & Hd & HN).
    match type of Ec with
    | context [Multitaper.compute m bw' ?l] => set (l0 := l) in *
    end.
    destruct (Multitaper.compute m bw' l0) as [[e|m'] l'] eqn:Em.
    + injection Ec as <- <-.
      exists m, m, t0, t1, ts, (x0 :: xs), (Multitaper.densities m),
        (Multitaper.dpss m).
      split; [reflexivity|]. split; [reflexivity|].
      cbn [periodograms multitapers with_log].
      split; [apply lookup_insert_eq|]. split; [apply lookup_insert_eq|].
      split; [reflexivity|].
      destruct (Hfields (Multitaper.densities m) (Multitaper.dpss m))
        as (H0 & H1 & H2 & H3 & H4).
      do 5 (split; [assumption|]).
      intros tapers eigens Hc.
      destruct (M_compute_spec m bw' l0 t0 t1 ts tapers eigens N Nmt
                  Ht Hx Hp Hd HN Hc) as (ds & l2 & E2 & _).
      rewrite E2 in Em. discriminate.
    + injection Ec as <- <-.
      destruct (M_compute_assigns _ _ _ _ _ Em) as (ds & tp & ->).
      exists m. eexists. exists t0, t1, ts, (x0 :: xs), ds, tp.
      split; [reflexivity|]. split; [reflexivity|].
      cbn [periodograms multitapers].
      split; [apply lookup_insert_eq|]. split; [apply lookup_insert_eq|].
      split; [reflexivity|].
      destruct (Hfields ds tp) as (H0 & H1 & H2 & H3 & H4).
      do 5 (split; [assumption|]).
      intros tapers eigens Hc. split; [reflexivity|].
      destruct (M_compute_spec m bw' l0 t0 t1 ts tapers eigens N Nmt
                  Ht Hx Hp Hd HN Hc) as (ds2 & l2 & E2 & _ & Hcols).
      assert (Em' : Multitaper.set_densities ds2
                      (Multitaper.set_dpss (taper_bank tapers N Nmt) m)
                    = Multitaper.set_densities ds (Multitaper.set_dpss tp m))
        by congruence.
      assert (Hds : ds2 = ds) by exact (f_equal Multitaper.densities Em').
      assert (Htp : taper_bank tapers N Nmt = tp)
        by exact (f_equal Multitaper.dpss Em').
      subst ds tp. intros n Hn'. split.
      * unfold taper_bank, taper_column. now apply get_column_tabulate.
      * apply Hcols. exact Hn'.
Qed.

(** *** S0 along a program *)

Lemma norm_nonneg q : 0 <= norm q.
Proof. unfold norm. nra. Qed.

Lemma Rdiv_INR_nonneg dt N : 0 <= dt -> 0 <= dt / INR N.
Proof.
  intros Hdt. unfold Rdiv. apply Rmult_le_pos; [exact Hdt|].
  destruct N as [|N]; [cbn; rewrite Rinv_0; lra|].
  left. apply Rinv_0_lt_compat, lt_0_INR. lia.
Qed.

Lemma periodogram_entry_nonneg dt N q :
  pure_StokesNorm_term -> 0 <= dt -> 0 <= qw (periodogram_entry dt N q).
Proof.
  intros Hp Hdt. unfold periodogram_entry, rmul, radd. cbn [qw].
  rewrite Hp, Rplus_0_r.
  apply Rmult_le_pos; [now apply Rdiv_INR_nonneg | apply norm_nonneg].
Qed.

Lemma tapered_entry_nonneg dt q :
  pure_StokesNorm_term -> 0 <= dt -> 0 <= qw (tapered_entry dt q).
Proof.
  intros Hp Hdt. unfold tapered_entry, rmul, radd. cbn [qw].
  rewrite Hp, Rplus_0_r.
  apply Rmult_le_pos; [exact Hdt | apply norm_nonneg].
Qed.

Lemma nonneg_np_zeros N : nonneg_scalar_part (np_zeros N).
Proof.
  apply List.Forall_forall. intros q Hq%repeat_spec. subst. cbn. lra.
Qed.

Lemma nonneg_P_built_density flag dt x :
  pure_StokesNorm_term -> 0 <= dt ->
  nonneg_scalar_part (P_built_density flag dt x).
Proof.
  intros Hp Hdt. unfold P_built_density. destruct (is_True flag).
  - apply List.Forall_map, List.Forall_forall. intros q _.
    now apply periodogram_entry_nonneg.
  - apply nonneg_np_zeros.
Qed.

Lemma nonneg_np_add a b c :
  nonneg_scalar_part a -> nonneg_scalar_part b -> np_add a b = inr c ->
  nonneg_scalar_part c.
Proof.
  apply broadcast2_Forall. intros u v Hu Hv. cbn. lra.
Qed.

Lemma nonneg_np_multiply s d c :
  nonnegative_operand s -> nonneg_scalar_part d -> np_multiply s d = inr c ->
  nonneg_scalar_part c.
Proof.
  intros Hs Hd. destruct s as [r|v]; cbn [np_multiply nonnegative_operand] in *.
  - intros [= <-]. apply List.Forall_map. eapply Forall_impl; [exact Hd|].
    intros q Hq. cbn. now apply Rmult_le_pos.
  - apply (broadcast2_Forall rmul (Rle 0) (fun q => 0 <= qw q)); try assumption.
    intros u q Hu Hq. cbn. now apply Rmult_le_pos.
Qed.

Lemma good_estimate_P t x dt d :
  nonneg_scalar_part d -> good_P (estimate_P t x dt d).
Proof. intros Hd. split; [reflexivity | exact Hd]. Qed.

Lemma good_estimate_M t x dt ds tp d :
  nonneg_scalar_part d -> good_M (estimate_M t x dt ds tp d).
Proof. intros Hd. split; [reflexivity | exact Hd]. Qed.

Lemma good_P_combine self d l p l' :
  (forall d', d = inr d' -> nonneg_scalar_part d') ->
  P_combine self d l = (inr p, l') -> good_P p.
Proof.
  intros Hd. unfold P_combine.
  destruct (Periodogram.t self) as [|? [|? ?]]; try discriminate.
  destruct (Periodogram.signal self); try discriminate.
  destruct d as [e|d]; [discriminate|].
  intros [= <- _]. apply good_estimate_P. now apply Hd.
Qed.

Lemma good_M_combine self d l m l' :
  (forall d', d = inr d' -> nonneg_scalar_part d') ->
  M_combine self d l = (inr m, l') -> good_M m.
Proof.
  intros Hd. unfold M_combine.
  destruct (Multitaper.t self) as [|? [|? ?]]; try discriminate.
  destruct (Multitaper.signal self); try discriminate.
  destruct d as [e|d]; [discriminate|].
  intros [= <- _]. apply good_estimate_M. now apply Hd.
Qed.

Lemma good_stored_P w r0 r w' :
  good_world w -> (forall p l, r0 = (inr p, l) -> good_P p) ->
  stored_P w r0 = (r, w') -> good_world w'.
Proof.
  intros [HP HM] Hp. destruct r0 as [[e|p] l]; cbn [stored_P].
  - intros [= <- <-]. split; assumption.
  - intros [= <- <-]. split; [|exact HM].
    intros a q. cbn [periodograms].
    destruct (decide (a = fresh (dom (periodograms w)))) as [->|Hne].
    + rewrite lookup_insert_eq. intros [= <-]. eapply Hp; reflexivity.
    + rewrite lookup_insert_ne by congruence. apply HP.
Qed.

Lemma good_stored_M w r0 r w' :
  good_world w -> (forall m l, r0 = (inr m, l) -> good_M m) ->
  stored_M w r0 = (r, w') -> good_world w'.
Proof.
  intros [HP HM] Hm. destruct r0 as [[e|m] l]; cbn [stored_M].
  - intros [= <- <-]. split; assumption.
  - intros [= <- <-]. split; [exact HP|].
    intros a q. cbn [multitapers].
    destruct (decide (a = fresh (dom (multitapers w)))) as [->|Hne].
    + rewrite lookup_insert_eq. intros [= <-]. eapply Hm; reflexivity.
    + rewrite lookup_insert_ne by congruence. apply HM.
Qed.

(** [compute] keeps the scalar parts of [densities] from being negative. *)
Lemma nonneg_cells_compute self bw l self' l' t0 t1 ts :
  pure_StokesNorm_term -> Multitaper.t self = t0 :: t1 :: ts -> t0 <= t1 ->
  Forall nonneg_scalar_part (Multitaper.densities self) ->
  Multitaper.compute self bw l = (inr self', l') ->
  Forall nonneg_scalar_part (Multitaper.densities self').
Proof.
  intros Hp Ht Hdt Hd.
  unfold Multitaper.compute, print, spectrum_dpss. rewrite Ht.
  st_unfold. cbn [time_step]. st_unfold.
  destruct (dpss_tapers _ bw _) as [e|[tapers eigens]]; [discriminate|].
  apply (for_each_preserves _
           (fun acc => Forall nonneg_scalar_part (Multitaper.densities acc))).
  - intros n acc s acc' s' Hacc.
    unfold Multitaper.tapered_periodogram, qfft_Qfft, utils_StokesNorm.
    st_unfold.
    destruct (get_column n _) as [e|taper]; [discriminate|].
    destruct (broadcast2 qmulr _ taper) as [e|xn]; [discriminate|].
    destruct (set_column n _ _) as [e|ds'] eqn:Es; [discriminate|].
    intros [= <- _]. M_fields.
    eapply set_column_Forall; [exact Hacc| |exact Es].
    rewrite tapered_density_entries.
    apply List.Forall_map, List.Forall_forall. intros q _.
    apply tapered_entry_nonneg; [exact Hp | lra].
  - exact Hd.
Qed.

Lemma nonneg_mean_axis1 ds :
  Forall nonneg_scalar_part ds -> nonneg_scalar_part (mean_axis1 ds).
Proof.
  intros Hds. apply List.Forall_map. eapply Forall_impl; [exact Hds|].
  intros row Hrow. cbn [quaternion_mean qw]. apply mean_nonneg.
  apply List.Forall_map. exact Hrow.
Qed.

Lemma good_M_finish self :
  Forall nonneg_scalar_part (Multitaper.densities self) ->
  good_M (M_finish self).
Proof.
  intros Hd. split; [reflexivity|]. now apply nonneg_mean_axis1.
Qed.

Lemma nonneg_cells_zeros N Nmt :
  Forall nonneg_scalar_part (repeat (repeat quaternion_zero Nmt) N).
Proof.
  apply List.Forall_forall. intros row Hr%repeat_spec. subst.
  apply List.Forall_forall. intros q Hq%repeat_spec. subst. cbn. lra.
Qed.

Lemma good_M_init t x bw flag l m l' :
  pure_StokesNorm_term -> forward_axis t ->
  Multitaper.__init__ t x bw flag l = (inr m, l') -> good_M m.
Proof.
  intros Hp Hf E. apply M_init_inv in E.
  destruct E as (t0 & t1 & ts & x0 & xs & self & -> & -> & _ & -> & Hs).
  cbn [forward_axis] in Hf. apply good_M_finish.
  destruct Hs as [[_ ->]|[_ (l0 & l1 & E)]].
  - apply nonneg_cells_zeros.
  - eapply nonneg_cells_compute; [exact Hp| |exact Hf| |exact E].
    + reflexivity.
    + apply nonneg_cells_zeros.
Qed.

Lemma good_world_step c w r w' :
  pure_StokesNorm_term -> admissible c -> good_world w ->
  exec c w = (r, w') -> good_world w'.
Proof.
  intros Hp Hc Hw.
  destruct c as [t x flag|a b|a s|s a|t x bw flag|a b|a s|s a];
    cbn [exec admissible] in *.
  - rewrite new_Periodogram_eq. apply good_stored_P; [exact Hw|].
    intros p l. rewrite P_init_cases.
    destruct x as [?|?|xs]; try discriminate.
    destruct t as [|t0 [|t1 ts]]; try (destruct xs; discriminate).
    destruct xs as [|x0 xs]; [discriminate|].
    intros [= <- _]. apply good_estimate_P, nonneg_P_built_density;
      [exact Hp | cbn [forward_axis] in Hc; lra].
  - rewrite add_Periodogram_eq.
    destruct (periodograms w !! a) as [self|] eqn:Ea;
      [|intros [= <- <-]; exact Hw].
    destruct (periodograms w !! b) as [other|] eqn:Eb;
      [|intros [= <- <-]; exact Hw].
    apply good_stored_P; [exact Hw|]. intros p l. rewrite P_add_cases.
    apply good_P_combine. intros d Hd.
    eapply nonneg_np_add; [| |exact Hd].
    + apply (proj1 Hw a self Ea).
    + apply (proj1 Hw b other Eb).
  - rewrite mul_Periodogram_eq.
    destruct (periodograms w !! a) as [self|] eqn:Ea;
      [|intros [= <- <-]; exact Hw].
    apply good_stored_P; [exact Hw|]. intros p l. rewrite P_mul_cases.
    destruct (1 <? np_size s)%nat; [discriminate|].
    apply good_P_combine. intros d Hd.
    eapply nonneg_np_multiply; [exact Hc| |exact Hd].
    apply (proj1 Hw a self Ea).
  - rewrite rmul_Periodogram_eq, mul_Periodogram_eq.
    destruct (periodograms w !! a) as [self|] eqn:Ea;
      [|intros [= <- <-]; exact Hw].
    apply good_stored_P; [exact Hw|]. intros p l. rewrite P_mul_cases.
    destruct (1 <? np_size s)%nat; [discriminate|].
    apply good_P_combine. intros d Hd.
    eapply nonneg_np_multiply; [exact Hc| |exact Hd].
    apply (proj1 Hw a self Ea).
  - rewrite new_Multitaper_eq. apply good_stored_M; [exact Hw|].
    intros m l E. eapply good_M_init; [exact Hp | apply Hc | exact E].
  - rewrite add_Multitaper_eq.
    destruct (multitapers w !! a) as [self|] eqn:Ea;
      [|intros [= <- <-]; exact Hw].
    destruct (multitapers w !! b) as [other|] eqn:Eb;
      [|intros [= <- <-]; exact Hw].
    apply good_stored_M; [exact Hw|]. intros m l. rewrite M_add_cases.
    apply good_M_combine. intros d Hd.
    eapply nonneg_np_add; [| |exact Hd].
    + apply (proj2 Hw a self Ea).
    + apply (proj2 Hw b other Eb).
  - rewrite mul_Multitaper_eq.
    destruct (multitapers w !! a) as [self|] eqn:Ea;
      [|intros [= <- <-]; exact Hw].
    apply good_stored_M; [exact Hw|]. intros m l. rewrite M_mul_cases.
    destruct (1 <? np_size s)%nat; [discriminate|].
    apply good_M_combine. intros d Hd.
    eapply nonneg_np_multiply; [exact Hc| |exact Hd].
    apply (proj2 Hw a self Ea).
  - rewrite rmul_Multitaper_eq, mul_Multitaper_eq.
    destruct (multitapers w !! a) as [self|] eqn:Ea;
      [|intros [= <- <-]; exact Hw].
    apply good_stored_M; [exact Hw|]. intros m l. rewrite M_mul_cases.
    destruct (1 <? np_size s)%nat; [discriminate|].
    apply good_M_combine. intros d Hd.
    eapply nonneg_np_multiply; [exact Hc| |exact Hd].
    apply (proj2 Hw a self Ea).
Qed.

Lemma good_world_reachable w :
  pure_StokesNorm_term -> reachable admissible w -> good_world w.
Proof.
  intros Hp. induction 1 as [|w c r w' _ IH Hc E].
  - split; intros a p; cbn; rewrite lookup_empty; discriminate.
  - eapply good_world_step; eassumption.
Qed.

(** C6, as the code has it.  Along every program of constructions on a time
    axis that does not start backwards (and, for the multitaper estimate,
    with at least one taper), additions and multiplications by values that
    are not negative, every entry of [S0] of every stored estimate is not
    negative, provided the term [StokesNorm(Q) * j] has no scalar part. *)
Theorem S0_nonnegative_on_admissible_programs w :
  pure_StokesNorm_term -> reachable admissible w ->
  (forall a p, periodograms w !! a = Some p ->
               Forall (Rle 0) (Periodogram.S0 p)) /\
  (forall a m, multitapers w !! a = Some m ->
               Forall (Rle 0) (Multitaper.S0 m)).
Proof.
  intros Hp Hr. destruct (good_world_reachable w Hp Hr) as [HP HM].
  split.
  - intros a p Ha. destruct (HP a p Ha) as [-> Hd].
    apply List.Forall_map. exact Hd.
  - intros a m Ha. destruct (HM a m Ha) as [-> Hd].
    apply List.Forall_map. exact Hd.
Qed.


(** Multiplying the periodogram of the impulse by [-1] negates its [S0],
    whose zero-frequency entry is [dt / N] times the norm of the sum of the
    samples plus the scalar part of the [StokesNorm] term. *)
Lemma negated_periodogram_flips_S0 :
  exists a w1 p c w p',
    new_Periodogram [0; 1] (QuaternionArray impulse) (PyBool true) empty_world
      = (inr a, w1) /\
    periodograms w1 !! a = Some p /\
    negated_periodogram empty_world = (inr c, w) /\
    periodograms w !! c = Some p' /\
    Periodogram.S0 p' = map (fun v => -1 * v) (Periodogram.S0 p) /\
    Periodogram.S0 p !! 0%nat =
      Some ((1 - 0) / INR 2 *
            (norm (qsum impulse) +
             qw (qmul (StokesNorm_entry (qsum impulse)) quaternion_y))).
Proof.
  unfold negated_periodogram.
  rewrite bind_unfold, new_Periodogram_eq, P_init_cases.
  cbn [impulse stored_P P_built_density P_built_log is_True length].
  set (a := fresh (dom (periodograms empty_world))).
  set (p := estimate_P _ _ _ _).
  rewrite rmul_Periodogram_eq, mul_Periodogram_eq.
  cbn [periodograms multitapers log]. rewrite lookup_insert_eq.
  rewrite P_mul_cases. unfold P_combine.
  cbn [np_size Nat.ltb Nat.leb np_multiply p estimate_P Periodogram.t
       Periodogram.signal Periodogram.density stored_P periodograms
       multitapers log].
  exists a. eexists. exists p. do 3 eexists.
  split; [reflexivity|]. split; [apply lookup_insert_eq|].
  split; [reflexivity|]. cbn [periodograms].
  split; [apply lookup_insert_eq|].
  subst p. cbn [estimate_P Periodogram.S0]. split.
  - rewrite !List.map_map. reflexivity.
  - unfold impulse. rewrite !lookup_map, Qfft_zero_bin. reflexivity.
Qed.

End Claims.

(** ** Closed examples *)

Lemma example_term_is_pure : @pure_StokesNorm_term example_collaborators.
Proof.
  intros [a b c d]. cbn. ring.
Qed.

Lemma three_halves_floor : Zfloor (2 * (3 / 4)) = 1%Z.
Proof. apply Zfloor_eq. lra. Qed.

Lemma one_half_floor : Zfloor (2 * (1 / 4)) = 0%Z.
Proof. apply Zfloor_eq. lra. Qed.

Lemma five_floor : Zfloor (2 * (5 / 2)) = 5%Z.
Proof. apply Zfloor_eq. lra. Qed.

(** The periodogram of the impulse on the time axis [0, 1], as its
    constructor stores it in the empty world. *)
Lemma impulse_periodogram_stored flag :
  @new_Periodogram example_collaborators [0; 1] (QuaternionArray impulse)
    flag empty_world =
  (inr (fresh (dom (periodograms empty_world))),
   World (<[fresh (dom (periodograms empty_world)) :=
              estimate_P [0; 1] impulse (1 - 0)
                (@P_built_density example_collaborators flag (1 - 0) impulse)]>
            (periodograms empty_world))
         (multitapers empty_world)
         (ev_sympSplit
            (@P_built_density example_collaborators flag (1 - 0) impulse)
          :: P_built_log flag impulse [])).
Proof. rewrite new_Periodogram_eq, P_init_cases. reflexivity. Qed.

(** C9, at a float array. *)
Lemma constructors_reject_other_dtypes_witness :
  @new_Periodogram example_collaborators [0; 1] (FloatArray [1; 2])
     (PyBool true) empty_world = (inl InvalidInputType, empty_world) /\
  @new_Multitaper example_collaborators [0; 1] (FloatArray [1; 2]) (5 / 2)
     (PyBool true) empty_world = (inl InvalidInputType, empty_world).
Proof.
  apply (@constructors_reject_other_dtypes example_collaborators).
  cbn. discriminate.
Defined.

(** C4 fails as stated: with [bw = 3/4] the taper count is 0, less than 1,
    and yet the construction with [computeFlag=False] returns, and the one
    with [computeFlag=True] reaches the taper generator, asking for 0
    tapers. *)
Lemma zero_taper_count_is_accepted :
  (Zfloor (2 * (3 / 4)) - 1 < 1)%Z /\
  (exists a w,
     @new_Multitaper example_collaborators [0; 1] (QuaternionArray impulse)
       (3 / 4) (PyBool false) empty_world = (inr a, w)) /\
  (exists r w,
     @new_Multitaper example_collaborators [0; 1] (QuaternionArray impulse)
       (3 / 4) (PyBool true) empty_world = (r, w) /\
     In (ev_dpss 2 (3 / 4) 0) (log w)).
Proof.
  split; [rewrite three_halves_floor; lia|]. split.
  - rewrite new_Multitaper_eq. unfold impulse.
    rewrite M_init_deferred by (try reflexivity; rewrite three_halves_floor; lia).
    unfold stored_M. eauto.
  - rewrite new_Multitaper_eq, M_init_cases.
    cbn [impulse length]. cbv zeta. rewrite three_halves_floor.
    cbn [Z.sub Z.ltb Z.compare Z.pos_sub Z.to_nat is_True Z.add Z.opp].
    unfold Multitaper.compute, print, spectrum_dpss, M_blank.
    M_fields. cbn [repeat size0 size1 length]. st_unfold.
    cbn [time_step dpss_tapers example_collaborators seq for_each
         M_finish_run stored_M].
    st_unfold. cbn [M_finish_run stored_M log].
    do 2 eexists. split; [reflexivity|]. cbn [log In]. auto.
Qed.

(** C4 as amended, at [bw = 1/4]. *)
Lemma negative_taper_count_is_rejected_witness :
  exists e w',
    @new_Multitaper example_collaborators [0; 1] (QuaternionArray impulse)
      (1 / 4) (PyBool true) empty_world = (inl e, w') /\
    periodograms w' = periodograms empty_world /\
    multitapers w' = multitapers empty_world /\
    (log w' = log empty_world \/
     exists N, log w' = ev_fftfreq N :: log empty_world) /\
    (forall t0 t1 ts x0 xs,
       [0; 1] = t0 :: t1 :: ts -> QuaternionArray impulse
                                  = QuaternionArray (x0 :: xs) ->
       e = NegativeDimensions).
Proof.
  apply (@negative_taper_count_is_rejected example_collaborators).
  rewrite one_half_floor. lia.
Defined.

(** C6 fails as stated: the periodogram of the impulse multiplied by [-1] is
    reached through the public operations, and its [S0] is negative at the
    zero-frequency bin (it is [-1/2], as for every collaborator whose
    [StokesNorm] term has no scalar part). *)
Lemma negated_periodogram_has_negative_S0 :
  exists c w p v,
    @negated_periodogram example_collaborators empty_world = (inr c, w) /\
    @reachable example_collaborators (fun _ => True) w /\
    periodograms w !! c = Some p /\
    Periodogram.S0 p !! 0%nat = Some v /\ v < 0.
Proof.
  destruct (@negated_periodogram_flips_S0 example_collaborators)
    as (a & w1 & p & c & w & p' & E1 & Ha & E & Hc & HS & H0).
  exists c, w, p'. eexists.
  split; [exact E|]. split; [|split; [exact Hc|]].
  - unfold negated_periodogram in E. rewrite bind_unfold, E1 in E.
    eapply reach_step with (c := RmulPeriodogram (Scalar (-1)) a);
      [eapply reach_step with (c := NewPeriodogram [0; 1]
                                      (QuaternionArray impulse) (PyBool true));
         [apply reach_empty | exact I | exact E1]
      | exact I | exact E].
  - rewrite HS, lookup_map, H0. cbn [fmap option_fmap option_map].
    split; [reflexivity|].
    rewrite example_term_is_pure.
    unfold norm, qsum, impulse, real_quaternion. cbn. lra.
Qed.


(** C7, at the sum of the stored periodogram with itself and at three times
    the stored multitaper estimate; both return. *)
Lemma operators_leave_operands_untouched_witness :
  (exists c w' new,
     @PeriodogramObject.__add__ example_collaborators 1%positive 1%positive
        example_world = (inr c, w') /\
     periodograms example_world !! c = None /\
     periodograms w' !! c = Some new /\
     (@Periodogram.__add__ example_collaborators example_periodogram
        example_periodogram []).1 = inr new /\
     periodograms w' !! 1%positive = Some example_periodogram) /\
  (exists c w' new,
     @MultitaperObject.__mul__ example_collaborators 1%positive (Scalar 3)
        example_world = (inr c, w') /\
     multitapers example_world !! c = None /\
     multitapers w' !! c = Some new /\
     (@Multitaper.__mul__ example_collaborators example_multitaper
        (Scalar 3) []).1 = inr new /\
     multitapers w' !! 1%positive = Some example_multitaper).
Proof.
  assert (HP : periodograms example_world !! 1%positive
               = Some example_periodogram) by apply lookup_singleton_eq.
  assert (HM : multitapers example_world !! 1%positive
               = Some example_multitaper) by apply lookup_singleton_eq.
  split.
  - assert (E : exists c w',
              @PeriodogramObject.__add__ example_collaborators 1%positive
                 1%positive example_world = (inr c, w')).
    { rewrite (object_add_P _ _ _ _ _ HP HP). unfold built_P, np_add.
      rewrite broadcast2_same_length by reflexivity.
      cbn [example_periodogram estimate_P Periodogram.t Periodogram.signal
           impulse].
      eauto. }
    destruct E as (c & w' & E).
    destruct (proj1 (@operators_leave_operands_untouched
                       example_collaborators 1%positive 1%positive (Scalar 3)
                       example_world (inr c) w')
                example_periodogram example_periodogram HP HP)
      as (Hadd & _ & _).
    destruct (Hadd E) as (_ & Hframe & Hnone & new & Hv & Hnew).
    exists c, w', new. split; [exact E|]. split; [exact Hnone|].
    split; [exact Hnew|]. split; [exact Hv|]. apply Hframe, HP.
  - assert (E : exists c w',
              @MultitaperObject.__mul__ example_collaborators 1%positive
                 (Scalar 3) example_world = (inr c, w')).
    { rewrite (object_mul_M _ _ _ _ HM).
      cbn [np_size Nat.ltb Nat.leb np_multiply]. unfold built_M.
      cbn [example_multitaper estimate_M Multitaper.t Multitaper.signal
           impulse].
      eauto. }
    destruct E as (c & w' & E).
    destruct (proj2 (@operators_leave_operands_untouched
                       example_collaborators 1%positive 1%positive (Scalar 3)
                       example_world (inr c) w')
                example_multitaper example_multitaper HM HM)
      as (_ & Hmul & _).
    destruct (Hmul E) as (_ & Hframe & Hnone & new & Hv & Hnew).
    exists c, w', new. split; [exact E|]. split; [exact Hnone|].
    split; [exact Hnew|]. split; [exact Hv|]. apply Hframe, HM.
Defined.

(** The multitaper estimate of the six samples, as its constructor stores it
    in the empty world with [computeFlag=False] and the default bandwidth. *)
Lemma six_samples_multitaper_stored :
  @new_Multitaper example_collaborators six_instants
    (QuaternionArray six_samples) (5 / 2) (PyBool false) empty_world =
  (inr (fresh (dom (multitapers empty_world))),
   World (periodograms empty_world)
     (<[fresh (dom (multitapers empty_world)) :=
          estimate_M six_instants six_samples (1 - 0)
            (repeat (repeat quaternion_zero 4) 6) (repeat (repeat 0 4) 6)
            (np_zeros 6)]> (multitapers empty_world))
     [ev_sympSplit (np_zeros 6); ev_fftfreq 6]).
Proof.
  rewrite new_Multitaper_eq. unfold six_instants, six_samples.
  cbn [repeat].
  rewrite M_init_deferred by (try reflexivity; rewrite five_floor; lia).
  rewrite five_floor. reflexivity.
Qed.

(** C5, at the periodogram of the impulse and at the multitaper estimate of
    the six samples. *)
Lemma sum_with_itself_is_twice_witness :
  (let a := fresh (dom (periodograms empty_world)) in
   let w1 := (@new_Periodogram example_collaborators [0; 1]
                (QuaternionArray impulse) (PyBool true) empty_world).2 in
   exists b w2 c w3 pb pc,
     @add_Periodogram example_collaborators a a w1 = (inr b, w2) /\
     @rmul_Periodogram example_collaborators (Scalar 2) a w2 = (inr c, w3) /\
     b <> c /\
     periodograms w3 !! b = Some pb /\ periodograms w3 !! c = Some pc /\
     Periodogram.density pb = Periodogram.density pc) /\
  (let a := fresh (dom (multitapers empty_world)) in
   let w1 := (@new_Multitaper example_collaborators six_instants
                (QuaternionArray six_samples) (5 / 2) (PyBool false)
                empty_world).2 in
   exists b w2 c w3 mb mc,
     @add_Multitaper example_collaborators a a w1 = (inr b, w2) /\
     @rmul_Multitaper example_collaborators (Scalar 2) a w2 = (inr c, w3) /\
     b <> c /\
     multitapers w3 !! b = Some mb /\ multitapers w3 !! c = Some mc /\
     Multitaper.density mb = Multitaper.density mc).
Proof.
  split.
  - intros a w1.
    apply (proj1 (@sum_with_itself_is_twice example_collaborators)
             [0; 1] (QuaternionArray impulse) (PyBool true) empty_world a w1).
    subst a w1. rewrite impulse_periodogram_stored. reflexivity.
  - intros a w1.
    apply (proj2 (@sum_with_itself_is_twice example_collaborators)
             six_instants (QuaternionArray six_samples) (5 / 2) (PyBool false)
             empty_world a w1).
    + rewrite five_floor. lia.
    + subst a w1. rewrite six_samples_multitaper_stored. reflexivity.
Defined.

(** C1, at the stored periodogram and the stored multitaper estimate. *)
Lemma densities_follow_their_scalings_witness :
  (exists self' l',
     @Periodogram.compute example_collaborators example_periodogram []
       = (inr self', l') /\
     Periodogram.density self' =
       map (fun q =>
              rmul ((1 - 0) / INR (length (Periodogram.signal example_periodogram)))
                   (radd (norm q) (qmul (involution_norm q) quaternion_y)))
           (Qfft (Periodogram.signal example_periodogram))) /\
  (exists self' l',
     @Multitaper.compute example_collaborators example_multitaper (5 / 2) []
       = (inr self', l') /\
     forall n, (n < 4)%nat ->
       get_column n (Multitaper.dpss self')
         = inr (taper_column (fun _ _ => 1) 2 n) /\
       get_column n (Multitaper.densities self') =
         inr (map (fun q =>
                     rmul (1 - 0)
                          (radd (norm q)
                                (qmul (involution_norm q) quaternion_y)))
                  (Qfft (zip_with qmulr (Multitaper.signal example_multitaper)
                                  (taper_column (fun _ _ => 1) 2 n))))).
Proof.
  destruct (@densities_follow_their_scalings example_collaborators)
    as (HP & HM & _).
  split.
  - apply (HP example_periodogram [] 0 1 []). reflexivity.
  - apply (HM example_multitaper (5 / 2) [] 0 1 [] (fun _ _ => 1)
              (repeat 1 4) 2%nat 4%nat).
    + reflexivity.
    + reflexivity.
    + exact (is_matrix_zeros 0 2 4).
    + exact (is_matrix_zeros quaternion_zero 2 4).
    + lia.
    + reflexivity.
Defined.

(** C10 fails as stated: on the multitaper estimate of the six samples built
    with [computeFlag=False], [compute] returns and the taper bank [dpss] is
    no longer the zero array of the construction. *)
Lemma compute_replaces_the_taper_bank :
  exists a w1 w2 m1 m2,
    @new_Multitaper example_collaborators six_instants
      (QuaternionArray six_samples) (5 / 2) (PyBool false) empty_world
      = (inr a, w1) /\
    @compute_Multitaper example_collaborators a (5 / 2) w1 = (inr tt, w2) /\
    multitapers w1 !! a = Some m1 /\ multitapers w2 !! a = Some m2 /\
    Multitaper.densities m1 = repeat (repeat quaternion_zero 4) 6 /\
    Multitaper.dpss m1 = repeat (repeat 0 4) 6 /\
    Multitaper.dpss m2 = repeat (repeat 1 4) 6 /\
    Multitaper.dpss m1 <> Multitaper.dpss m2.
Proof.
  rewrite six_samples_multitaper_stored.
  set (a := fresh (dom (multitapers empty_world))).
  set (m := estimate_M _ _ _ _ _ _).
  destruct (@M_compute_spec example_collaborators m (5 / 2)
              [ev_sympSplit (np_zeros 6); ev_fftfreq 6] 0 1 [2; 3; 4; 5]
              (fun _ _ => 1) (repeat 1 4) 6%nat 4%nat)
    as (ds & l' & E & _); try reflexivity.
  { exact (is_matrix_zeros 0 6 4). }
  { exact (is_matrix_zeros quaternion_zero 6 4). }
  { lia. }
  exists a. eexists. eexists. exists m. eexists.
  split; [reflexivity|].
  rewrite compute_Multitaper_eq. cbn [periodograms multitapers log].
  rewrite lookup_insert_eq, E.
  split; [reflexivity|]. cbn [multitapers].
  split; [reflexivity|].
  split; [apply lookup_insert_eq|].
  split; [reflexivity|]. split; [reflexivity|]. split; [reflexivity|].
  cbn. intros Eq. injection Eq as Eq _. lra.
Qed.

(** C10 as amended, at the periodogram of the impulse and at the multitaper
    estimate of the six samples. *)
Lemma deferred_compute_leaves_Stokes_zero_witness :
  (let a := fresh (dom (periodograms empty_world)) in
   let w1 := (@new_Periodogram example_collaborators [0; 1]
                (QuaternionArray impulse) (PyBool false) empty_world).2 in
   exists p p' t0 t1 ts xs w2,
     [0; 1] = t0 :: t1 :: ts /\ QuaternionArray impulse = QuaternionArray xs /\
     periodograms w1 !! a = Some p /\
     @compute_Periodogram example_collaborators a w1 = (inr tt, w2) /\
     periodograms w2 !! a = Some p' /\
     p' = Periodogram.set_density
            (map (@periodogram_entry example_collaborators (t1 - t0)
                    (length xs)) (Qfft xs)) p /\
     Periodogram.S0 p' = repeat 0 (length xs) /\
     Periodogram.S1 p' = repeat 0 (length xs) /\
     Periodogram.S2 p' = repeat 0 (length xs) /\
     Periodogram.S3 p' = repeat 0 (length xs)) /\
  (let a := fresh (dom (multitapers empty_world)) in
   let w1 := (@new_Multitaper example_collaborators six_instants
                (QuaternionArray six_samples) (5 / 2) (PyBool false)
                empty_world).2 in
   let r := (@compute_Multitaper example_collaborators a (5 / 2) w1).1 in
   let w2 := (@compute_Multitaper example_collaborators a (5 / 2) w1).2 in
   exists m m' t0 t1 ts xs ds tp,
     six_instants = t0 :: t1 :: ts /\
     QuaternionArray six_samples = QuaternionArray xs /\
     multitapers w1 !! a = Some m /\
     multitapers w2 !! a = Some m' /\
     m' = Multitaper.set_densities ds (Multitaper.set_dpss tp m) /\
     Multitaper.S0 m' = repeat 0 (length xs) /\
     Multitaper.S1 m' = repeat 0 (length xs) /\
     Multitaper.S2 m' = repeat 0 (length xs) /\
     Multitaper.S3 m' = repeat 0 (length xs) /\
     Multitaper.density m' = np_zeros (length xs) /\
     (forall tapers eigens,
        @dpss_tapers example_collaborators (length xs) (5 / 2)
           (Z.to_nat (Zfloor (2 * (5 / 2)) - 1)) = inr (tapers, eigens) ->
        r = inr tt /\
        forall n, (n < Z.to_nat (Zfloor (2 * (5 / 2)) - 1))%nat ->
          get_column n tp = inr (taper_column tapers (length xs) n) /\
          get_column n ds =
            inr (@tapered_density example_collaborators (t1 - t0) xs
                   (taper_column tapers (length xs) n)))).
Proof.
  split.
  - intros a w1.
    apply (proj1 (@deferred_compute_leaves_Stokes_zero example_collaborators)
             [0; 1] (QuaternionArray impulse) empty_world a w1).
    subst a w1. rewrite impulse_periodogram_stored. reflexivity.
  - intros a w1 r w2.
    apply (proj2 (@deferred_compute_leaves_Stokes_zero example_collaborators)
             six_instants (QuaternionArray six_samples) (5 / 2) (5 / 2)
             empty_world a w1 r w2).
    + rewrite five_floor. lia.
    + subst a w1. rewrite six_samples_multitaper_stored. reflexivity.
    + subst r w2. apply surjective_pairing.
Defined.

(** C6 as amended, at the program that builds the periodogram of the impulse
    and doubles it. *)
Lemma S0_nonnegative_on_admissible_programs_witness :
  let a := fresh (dom (periodograms empty_world)) in
  let w1 := (@new_Periodogram example_collaborators [0; 1]
               (QuaternionArray impulse) (PyBool true) empty_world).2 in
  let w2 := (@rmul_Periodogram example_collaborators (Scalar 2) a w1).2 in
  (forall b p, periodograms w2 !! b = Some p ->
               Forall (Rle 0) (Periodogram.S0 p)) /\
  (forall b m, multitapers w2 !! b = Some m ->
               Forall (Rle 0) (Multitaper.S0 m)).
Proof.
  intros a w1 w2.
  apply (@S0_nonnegative_on_admissible_programs example_collaborators w2).
  - exact example_term_is_pure.
  - eapply reach_step with (c := RmulPeriodogram (Scalar 2) a) (w := w1).
    + eapply reach_step with
        (c := NewPeriodogram [0; 1] (QuaternionArray impulse) (PyBool true)).
      * apply reach_empty.
      * cbn. lra.
      * apply surjective_pairing.
    + cbn. lra.
    + apply surjective_pairing.
Defined.

(** * Further properties of the code *)

Section FurtherProperties.
Context `{Collaborators} `{Normalizer}.

(** X1.  A time axis with fewer than two instants makes both constructors
    raise [IndexError] at [t[1]], whatever the quaternion signal, the
    bandwidth and the flag: nothing is logged and nothing is stored. *)
Theorem short_time_axis_raises_IndexError t xs bw flag w :
  (length t < 2)%nat ->
  new_Periodogram t (QuaternionArray xs) flag w = (inl IndexError, w) /\
  new_Multitaper t (QuaternionArray xs) bw flag w = (inl IndexError, w).
Proof.
  intros Ht.
  rewrite new_Periodogram_eq, new_Multitaper_eq, P_init_cases, M_init_cases.
  destruct t as [|t0 [|t1 ts]]; cbn [length] in Ht; try lia;
    destruct xs; unfold stored_P, stored_M; rewrite with_log_same;
    split; reflexivity.
Qed.

(** X2.  An empty quaternion signal, on a time axis of two instants or more,
    makes both constructors raise [ZeroDivisionError] in
    [np.fft.fftfreq(0)]: for the multitaper estimate this comes before the
    taper count is looked at, so whatever the bandwidth.  Nothing is stored;
    the log has gained the request of the frequency axis only. *)
Theorem empty_signal_raises_ZeroDivisionError t bw flag w :
  (2 <= length t)%nat ->
  new_Periodogram t (QuaternionArray []) flag w =
    (inl ZeroDivisionError, with_log w (ev_fftfreq 0 :: log w)) /\
  new_Multitaper t (QuaternionArray []) bw flag w =
    (inl ZeroDivisionError, with_log w (ev_fftfreq 0 :: log w)).
Proof.
  intros Ht.
  rewrite new_Periodogram_eq, new_Multitaper_eq, P_init_cases, M_init_cases.
  destruct t as [|t0 [|t1 ts]]; cbn [length] in Ht; try lia.
  split; reflexivity.
Qed.

(** What [__add__] and [__mul__] leave in the log and in the instance they
    return. *)
Lemma P_combine_log self d l :
  exists l0, (P_combine self d l).2 = l0 ++ l /\
             Forall requests_no_transform l0.
Proof.
  unfold P_combine.
  destruct (Periodogram.t self) as [|t0 [|t1 ts]];
    destruct (Periodogram.signal self) as [|x xs]; try destruct d as [e|d];
    cbn [snd];
    try (exists []; split; [reflexivity | constructor]).
  - exists [ev_fftfreq 0]. split; [reflexivity|]. repeat constructor.
  - exists [ev_fftfreq 0]. split; [reflexivity|]. repeat constructor.
  - eexists [_; _]. split; [reflexivity|]. repeat constructor.
  - eexists [_; _; _]. split; [reflexivity|]. repeat constructor.
Qed.

Lemma M_combine_log self d l :
  exists l0, (M_combine self d l).2 = l0 ++ l /\
             Forall requests_no_transform l0.
Proof.
  unfold M_combine.
  destruct (Multitaper.t self) as [|t0 [|t1 ts]];
    destruct (Multitaper.signal self) as [|x xs]; try destruct d as [e|d];
    cbn [snd];
    try (exists []; split; [reflexivity | constructor]).
  - exists [ev_fftfreq 0]. split; [reflexivity|]. repeat constructor.
  - exists [ev_fftfreq 0]. split; [reflexivity|]. repeat constructor.
  - eexists [_; _]. split; [reflexivity|]. repeat constructor.
  - eexists [_; _; _]. split; [reflexivity|]. repeat constructor.
Qed.

Lemma P_combine_inv self d l new l' :
  P_combine self d l = (inr new, l') ->
  exists t0 t1 ts x xs d',
    Periodogram.t self = t0 :: t1 :: ts /\
    Periodogram.signal self = x :: xs /\ d = inr d' /\
    new = estimate_P (Periodogram.t self) (Periodogram.signal self)
                     (t1 - t0) d'.
Proof.
  unfold P_combine.
  destruct (Periodogram.t self) as [|t0 [|t1 ts]] eqn:Et;
    destruct (Periodogram.signal self) as [|x xs] eqn:Ex;
    try discriminate.
  destruct d as [e|d']; [discriminate|]. intros [= <- <-].
  exists t0, t1, ts, x, xs, d'. repeat split.
Qed.

Lemma M_combine_inv self d l new l' :
  M_combine self d l = (inr new, l') ->
  exists t0 t1 ts x xs d',
    Multitaper.t self = t0 :: t1 :: ts /\
    Multitaper.signal self = x :: xs /\ d = inr d' /\
    new = estimate_M (Multitaper.t self) (Multitaper.signal self) (t1 - t0)
            (repeat (repeat quaternion_zero 4)
                    (length (Multitaper.signal self)))
            (repeat (repeat 0 4) (length (Multitaper.signal self))) d'.
Proof.
  unfold M_combine.
  destruct (Multitaper.t self) as [|t0 [|t1 ts]] eqn:Et;
    destruct (Multitaper.signal self) as [|x xs] eqn:Ex;
    try discriminate.
  destruct d as [e|d']; [discriminate|]. intros [= <- <-].
  exists t0, t1, ts, x, xs, d'. repeat split.
Qed.

Lemma log_stored_P w r : log (stored_P w r).2 = r.2.
Proof. destruct r as [[e|p] l]; reflexivity. Qed.

Lemma log_stored_M w r : log (stored_M w r).2 = r.2.
Proof. destruct r as [[e|p] l]; reflexivity. Qed.

(** An operator that answered an address stored there what its method
    returned. *)
Lemma stored_P_inv w r c w' :
  stored_P w r = (inr c, w') ->
  exists new l, r = (inr new, l) /\ periodograms w' !! c = Some new.
Proof.
  destruct r as [[e|p] l]; cbn [stored_P]; [discriminate|].
  intros [= <- <-]. exists p, l. split; [reflexivity|].
  cbn [periodograms]. apply lookup_insert_eq.
Qed.

Lemma stored_M_inv w r c w' :
  stored_M w r = (inr c, w') ->
  exists new l, r = (inr new, l) /\ multitapers w' !! c = Some new.
Proof.
  destruct r as [[e|p] l]; cbn [stored_M]; [discriminate|].
  intros [= <- <-]. exists p, l. split; [reflexivity|].
  cbn [multitapers]. apply lookup_insert_eq.
Qed.

(** The two operators of each class, past the loading of their operands. *)
Lemma P_operator_cases a b s w r w' :
  add_Periodogram a b w = (r, w') \/ mul_Periodogram a s w = (r, w') \/
  rmul_Periodogram s a w = (r, w') ->
  (r = inl NameError /\ w' = w) \/
  (r = inl UnsupportedOperandError /\ w' = w) \/
  exists self d,
    periodograms w !! a = Some self /\
    (r, w') = stored_P w (P_combine self d (log w)).
Proof.
  rewrite rmul_Periodogram_eq, add_Periodogram_eq, mul_Periodogram_eq.
  intros [E|[E|E]]; revert E.
  - destruct (periodograms w !! a) as [self|];
      [destruct (periodograms w !! b) as [other|]|].
    + rewrite P_add_cases. intros E. right. right. eauto.
    + intros [= <- <-]. auto.
    + intros [= <- <-]. auto.
  - destruct (periodograms w !! a) as [self|].
    + rewrite P_mul_cases. destruct (1 <? np_size s)%nat.
      * cbn [stored_P]. rewrite with_log_same. intros [= <- <-]. auto.
      * intros E. right. right. eauto.
    + intros [= <- <-]. auto.
  - destruct (periodograms w !! a) as [self|].
    + rewrite P_mul_cases. destruct (1 <? np_size s)%nat.
      * cbn [stored_P]. rewrite with_log_same. intros [= <- <-]. auto.
      * intros E. right. right. eauto.
    + intros [= <- <-]. auto.
Qed.

Lemma M_operator_cases a b s w r w' :
  add_Multitaper a b w = (r, w') \/ mul_Multitaper a s w = (r, w') \/
  rmul_Multitaper s a w = (r, w') ->
  (r = inl NameError /\ w' = w) \/
  (r = inl UnsupportedOperandError /\ w' = w) \/
  exists self d,
    multitapers w !! a = Some self /\
    (r, w') = stored_M w (M_combine self d (log w)).
Proof.
  rewrite rmul_Multitaper_eq, add_Multitaper_eq, mul_Multitaper_eq.
  intros [E|[E|E]]; revert E.
  - destruct (multitapers w !! a) as [self|];
      [destruct (multitapers w !! b) as [other|]|].
    + rewrite M_add_cases. intros E. right. right. eauto.
    + intros [= <- <-]. auto.
    + intros [= <- <-]. auto.
  - destruct (multitapers w !! a) as [self|].
    + rewrite M_mul_cases. destruct (1 <? np_size s)%nat.
      * cbn [stored_M]. rewrite with_log_same. intros [= <- <-]. auto.
      * intros E. right. right. eauto.
    + intros [= <- <-]. auto.
  - destruct (multitapers w !! a) as [self|].
    + rewrite M_mul_cases. destruct (1 <? np_size s)%nat.
      * cbn [stored_M]. rewrite with_log_same. intros [= <- <-]. auto.
      * intros E. right. right. eauto.
    + intros [= <- <-]. auto.
Qed.

(** X3.  [+], [*] and [__rmul__] of either class never ask for a quaternion
    transform, for [StokesNorm] or for a taper bank: whether they return or
    raise, what they add to the log is requests of the frequency axis and
    Stokes extractions only. *)
Theorem operators_request_no_transform a b s w r w' :
  add_Periodogram a b w = (r, w') \/ mul_Periodogram a s w = (r, w') \/
  rmul_Periodogram s a w = (r, w') \/
  add_Multitaper a b w = (r, w') \/ mul_Multitaper a s w = (r, w') \/
  rmul_Multitaper s a w = (r, w') ->
  exists l, log w' = l ++ log w /\ Forall requests_no_transform l.
Proof.
  intros E.
  assert (E' : (add_Periodogram a b w = (r, w') \/
                mul_Periodogram a s w = (r, w') \/
                rmul_Periodogram s a w = (r, w')) \/
               (add_Multitaper a b w = (r, w') \/
                mul_Multitaper a s w = (r, w') \/
                rmul_Multitaper s a w = (r, w'))) by tauto.
  clear E. destruct E' as [E|E].
  - apply P_operator_cases in E.
    destruct E as [[_ ->]|[[_ ->]|(self & d & _ & E)]];
      try (exists []; split; [reflexivity | constructor]).
    apply (f_equal snd) in E. cbn [snd] in E. rewrite E, log_stored_P.
    apply P_combine_log.
  - apply M_operator_cases in E.
    destruct E as [[_ ->]|[[_ ->]|(self & d & _ & E)]];
      try (exists []; split; [reflexivity | constructor]).
    apply (f_equal snd) in E. cbn [snd] in E. rewrite E, log_stored_M.
    apply M_combine_log.
Qed.

(** X4.  The estimate [+], [*] or [__rmul__] returns is built on the time
    axis and the signal of the left operand, and its normalized Stokes
    parameters and degree of polarization are zero arrays of the signal's
    length: whatever a call of [normalize] left in the operands is not
    carried over. *)
Theorem operator_results_are_not_normalized a b s w c w' :
  (add_Periodogram a b w = (inr c, w') \/
   mul_Periodogram a s w = (inr c, w') \/
   rmul_Periodogram s a w = (inr c, w') ->
   exists self new,
     periodograms w !! a = Some self /\ periodograms w' !! c = Some new /\
     Periodogram.t new = Periodogram.t self /\
     Periodogram.signal new = Periodogram.signal self /\
     P_normalized_are (repeat 0 (length (Periodogram.signal self))) new) /\
  (add_Multitaper a b w = (inr c, w') \/
   mul_Multitaper a s w = (inr c, w') \/
   rmul_Multitaper s a w = (inr c, w') ->
   exists self new,
     multitapers w !! a = Some self /\ multitapers w' !! c = Some new /\
     Multitaper.t new = Multitaper.t self /\
     Multitaper.signal new = Multitaper.signal self /\
     M_normalized_are (repeat 0 (length (Multitaper.signal self))) new).
Proof.
  split; intros E.
  - apply P_operator_cases in E.
    destruct E as [[[=] _]|[[[=] _]|(self & d & Ha & E)]].
    symmetry in E. apply stored_P_inv in E.
    destruct E as (new & l & E & Hc).
    apply P_combine_inv in E.
    destruct E as (t0 & t1 & ts & x & xs & d' & _ & _ & _ & ->).
    exists self. eexists. split; [exact Ha|]. split; [exact Hc|].
    repeat split.
  - apply M_operator_cases in E.
    destruct E as [[[=] _]|[[[=] _]|(self & d & Ha & E)]].
    symmetry in E. apply stored_M_inv in E.
    destruct E as (new & l & E & Hc).
    apply M_combine_inv in E.
    destruct E as (t0 & t1 & ts & x & xs & d' & _ & _ & _ & ->).
    exists self. eexists. split; [exact Ha|]. split; [exact Hc|].
    repeat split.
Qed.

(** X5.  The multitaper estimate [+], [*] or [__rmul__] returns is built
    with the default bandwidth: its per-taper densities and its taper bank
    are zero arrays of four columns, whatever the bandwidth of the operands
    and whatever their tapered periodograms hold. *)
Theorem multitaper_operators_reset_the_tapers a b s w c w' :
  add_Multitaper a b w = (inr c, w') \/
  mul_Multitaper a s w = (inr c, w') \/
  rmul_Multitaper s a w = (inr c, w') ->
  exists self new,
    multitapers w !! a = Some self /\ multitapers w' !! c = Some new /\
    Multitaper.densities new =
      repeat (repeat quaternion_zero 4) (length (Multitaper.signal self)) /\
    Multitaper.dpss new =
      repeat (repeat 0 4) (length (Multitaper.signal self)).
Proof.
  intros E. apply M_operator_cases in E.
  destruct E as [[[=] _]|[[[=] _]|(self & d & Ha & E)]].
  symmetry in E. apply stored_M_inv in E.
  destruct E as (new & l & E & Hc).
  apply M_combine_inv in E.
  destruct E as (t0 & t1 & ts & x & xs & d' & _ & _ & _ & ->).
  exists self. eexists. split; [exact Ha|]. split; [exact Hc|].
  split; reflexivity.
Qed.

(** numpy's broadcast sum does not depend on the order of its operands. *)
Lemma qadd_comm p q : qadd p q = qadd q p.
Proof. unfold qadd. f_equal; ring. Qed.

Lemma zip_with_qadd_comm a : forall b, zip_with qadd a b = zip_with qadd b a.
Proof.
  induction a as [|p a IH]; intros [|q b]; cbn; try reflexivity.
  now rewrite qadd_comm, IH.
Qed.

Lemma np_add_comm a b : np_add a b = np_add b a.
Proof.
  unfold np_add, broadcast2.
  rewrite (Nat.eqb_sym (length b) (length a)).
  destruct (length a =? length b)%nat eqn:E.
  - now rewrite zip_with_qadd_comm.
  - apply Nat.eqb_neq in E.
    destruct a as [|a0 [|a1 a]]; destruct b as [|b0 [|b1 b]];
      cbn [length] in E; try lia; try reflexivity;
      f_equal; apply map_ext; intros; apply qadd_comm.
Qed.

(** X6.  When [a + b] and [b + a] both return, the two sums have the same
    density and the same Stokes parameters; each is built on the time axis
    and the signal of its own left operand.  Both classes. *)
Theorem sum_commutes_on_density a b w c w1 c' w2 :
  (add_Periodogram a b w = (inr c, w1) ->
   add_Periodogram b a w = (inr c', w2) ->
   exists pa pb p p',
     periodograms w !! a = Some pa /\ periodograms w !! b = Some pb /\
     periodograms w1 !! c = Some p /\ periodograms w2 !! c' = Some p' /\
     Periodogram.density p = Periodogram.density p' /\
     Periodogram.S0 p = Periodogram.S0 p' /\
     Periodogram.S1 p = Periodogram.S1 p' /\
     Periodogram.S2 p = Periodogram.S2 p' /\
     Periodogram.S3 p = Periodogram.S3 p' /\
     Periodogram.signal p = Periodogram.signal pa /\
     Periodogram.signal p' = Periodogram.signal pb /\
     Periodogram.t p = Periodogram.t pa /\
     Periodogram.t p' = Periodogram.t pb) /\
  (add_Multitaper a b w = (inr c, w1) ->
   add_Multitaper b a w = (inr c', w2) ->
   exists ma mb m m',
     multitapers w !! a = Some ma /\ multitapers w !! b = Some mb /\
     multitapers w1 !! c = Some m /\ multitapers w2 !! c' = Some m' /\
     Multitaper.density m = Multitaper.density m' /\
     Multitaper.S0 m = Multitaper.S0 m' /\
     Multitaper.S1 m = Multitaper.S1 m' /\
     Multitaper.S2 m = Multitaper.S2 m' /\
     Multitaper.S3 m = Multitaper.S3 m' /\
     Multitaper.signal m = Multitaper.signal ma /\
     Multitaper.signal m' = Multitaper.signal mb /\
     Multitaper.t m = Multitaper.t ma /\
     Multitaper.t m' = Multitaper.t mb).
Proof.
  split.
  - rewrite !add_Periodogram_eq.
    destruct (periodograms w !! a) as [pa|]; [|discriminate].
    destruct (periodograms w !! b) as [pb|]; [|discriminate].
    rewrite !P_add_cases.
    rewrite (np_add_comm (Periodogram.density pb) (Periodogram.density pa)).
    intros E1 E2.
    apply stored_P_inv in E1. destruct E1 as (p & l1 & E1 & Hc).
    apply stored_P_inv in E2. destruct E2 as (p' & l2 & E2 & Hc').
    apply P_combine_inv in E1.
    destruct E1 as (? & ? & ? & ? & ? & d1 & _ & _ & Ed1 & ->).
    apply P_combine_inv in E2.
    destruct E2 as (? & ? & ? & ? & ? & d2 & _ & _ & Ed2 & ->).
    rewrite Ed1 in Ed2. injection Ed2 as <-.
    exists pa, pb. do 2 eexists.
    split; [reflexivity|]. split; [reflexivity|].
    split; [exact Hc|]. split; [exact Hc'|]. repeat split.
  - rewrite !add_Multitaper_eq.
    destruct (multitapers w !! a) as [ma|]; [|discriminate].
    destruct (multitapers w !! b) as [mb|]; [|discriminate].
    rewrite !M_add_cases.
    rewrite (np_add_comm (Multitaper.density mb) (Multitaper.density ma)).
    intros E1 E2.
    apply stored_M_inv in E1. destruct E1 as (m & l1 & E1 & Hc).
    apply stored_M_inv in E2. destruct E2 as (m' & l2 & E2 & Hc').
    apply M_combine_inv in E1.
    destruct E1 as (? & ? & ? & ? & ? & d1 & _ & _ & Ed1 & ->).
    apply M_combine_inv in E2.
    destruct E2 as (? & ? & ? & ? & ? & d2 & _ & _ & Ed2 & ->).
    rewrite Ed1 in Ed2. injection Ed2 as <-.
    exists ma, mb. do 2 eexists.
    split; [reflexivity|]. split; [reflexivity|].
    split; [exact Hc|]. split; [exact Hc'|]. repeat split.
Qed.

(** What numpy makes of densities of different lengths, and of an empty
    multiplicand. *)
Lemma np_add_unequal a b :
  length a <> length b -> length a <> 1%nat -> length b <> 1%nat ->
  np_add a b = inl BroadcastError.
Proof.
  intros Hab Ha Hb. unfold np_add, broadcast2.
  apply Nat.eqb_neq in Hab. rewrite Hab.
  destruct a as [|a0 [|a1 a]]; destruct b as [|b0 [|b1 b]];
    cbn [length] in *; try lia; reflexivity.
Qed.

Lemma np_add_single a b0 :
  np_add a [b0] = inr (map (fun v => qadd v b0) a).
Proof.
  unfold np_add, broadcast2.
  destruct (length a =? length [b0])%nat eqn:E.
  - apply Nat.eqb_eq in E. destruct a as [|a0 [|a1 a]]; try discriminate.
    reflexivity.
  - apply Nat.eqb_neq in E.
    destruct a as [|a0 [|a1 a]]; cbn [length] in E; try lia; reflexivity.
Qed.

Lemma np_multiply_empty d :
  np_multiply (Array []) d =
  if (length d <=? 1)%nat then inr [] else inl BroadcastError.
Proof.
  unfold np_multiply, broadcast2.
  destruct d as [|d0 [|d1 d]]; reflexivity.
Qed.

(** X7.  [a + b] on densities of different lengths, neither of length one,
    raises numpy's broadcast error, once the deferred estimate of the left
    operand has been built and dropped: nothing is stored.  Against a
    density of one entry the sum returns, with that entry added to every
    entry of the left density.  Both classes. *)
Theorem sum_of_unequal_lengths_broadcasts_or_raises a b w :
  (forall p q t0 t1 ts x xs,
     periodograms w !! a = Some p -> periodograms w !! b = Some q ->
     Periodogram.t p = t0 :: t1 :: ts -> Periodogram.signal p = x :: xs ->
     (length (Periodogram.density p) <> length (Periodogram.density q) ->
      length (Periodogram.density p) <> 1%nat ->
      length (Periodogram.density q) <> 1%nat ->
      add_Periodogram a b w =
        (inl BroadcastError,
         with_log w (ev_sympSplit (np_zeros (length (x :: xs)))
                       :: ev_fftfreq (length (x :: xs)) :: log w))) /\
     (forall q0, Periodogram.density q = [q0] ->
      exists c w' new,
        add_Periodogram a b w = (inr c, w') /\
        periodograms w' !! c = Some new /\
        Periodogram.density new =
          map (fun v => qadd v q0) (Periodogram.density p))) /\
  (forall p q t0 t1 ts x xs,
     multitapers w !! a = Some p -> multitapers w !! b = Some q ->
     Multitaper.t p = t0 :: t1 :: ts -> Multitaper.signal p = x :: xs ->
     (length (Multitaper.density p) <> length (Multitaper.density q) ->
      length (Multitaper.density p) <> 1%nat ->
      length (Multitaper.density q) <> 1%nat ->
      add_Multitaper a b w =
        (inl BroadcastError,
         with_log w (ev_sympSplit (np_zeros (length (x :: xs)))
                       :: ev_fftfreq (length (x :: xs)) :: log w))) /\
     (forall q0, Multitaper.density q = [q0] ->
      exists c w' new,
        add_Multitaper a b w = (inr c, w') /\
        multitapers w' !! c = Some new /\
        Multitaper.density new =
          map (fun v => qadd v q0) (Multitaper.density p))).
Proof.
  split; intros p q t0 t1 ts x xs Ha Hb Ht Hx.
  - rewrite add_Periodogram_eq, Ha, Hb, P_add_cases. split.
    + intros H1 H2 H3. rewrite np_add_unequal by assumption.
      unfold P_combine. rewrite Ht, Hx. reflexivity.
    + intros q0 Hq. rewrite Hq, np_add_single.
      unfold P_combine. rewrite Ht, Hx. cbn [stored_P].
      do 3 eexists. split; [reflexivity|].
      split; [apply lookup_insert_eq | reflexivity].
  - rewrite add_Multitaper_eq, Ha, Hb, M_add_cases. split.
    + intros H1 H2 H3. rewrite np_add_unequal by assumption.
      unfold M_combine. rewrite Ht, Hx. reflexivity.
    + intros q0 Hq. rewrite Hq, np_add_single.
      unfold M_combine. rewrite Ht, Hx. cbn [stored_M].
      do 3 eexists. split; [reflexivity|].
      split; [apply lookup_insert_eq | reflexivity].
Qed.

(** X8.  An empty array as multiplicand passes the size guard of [*], whose
    test is [np.size(scalar) > 1]: on a density of two entries or more the
    product then raises numpy's broadcast error, and on a density of one
    entry it returns an estimate whose density and Stokes parameters are
    empty.  Both classes. *)
Theorem empty_multiplicand_passes_the_guard a w :
  (forall p t0 t1 ts x xs,
     periodograms w !! a = Some p ->
     Periodogram.t p = t0 :: t1 :: ts -> Periodogram.signal p = x :: xs ->
     ((2 <= length (Periodogram.density p))%nat ->
      mul_Periodogram a (Array []) w =
        (inl BroadcastError,
         with_log w (ev_sympSplit (np_zeros (length (x :: xs)))
                       :: ev_fftfreq (length (x :: xs)) :: log w))) /\
     ((length (Periodogram.density p) <= 1)%nat ->
      exists c w' new,
        mul_Periodogram a (Array []) w = (inr c, w') /\
        periodograms w' !! c = Some new /\
        Periodogram.density new = [] /\ Periodogram.S0 new = [] /\
        Periodogram.S1 new = [] /\ Periodogram.S2 new = [] /\
        Periodogram.S3 new = [])) /\
  (forall m t0 t1 ts x xs,
     multitapers w !! a = Some m ->
     Multitaper.t m = t0 :: t1 :: ts -> Multitaper.signal m = x :: xs ->
     ((2 <= length (Multitaper.density m))%nat ->
      mul_Multitaper a (Array []) w =
        (inl BroadcastError,
         with_log w (ev_sympSplit (np_zeros (length (x :: xs)))
                       :: ev_fftfreq (length (x :: xs)) :: log w))) /\
     ((length (Multitaper.density m) <= 1)%nat ->
      exists c w' new,
        mul_Multitaper a (Array []) w = (inr c, w') /\
        multitapers w' !! c = Some new /\
        Multitaper.density new = [] /\ Multitaper.S0 new = [] /\
        Multitaper.S1 new = [] /\ Multitaper.S2 new = [] /\
        Multitaper.S3 new = [])).
Proof.
  split; intros p t0 t1 ts x xs Ha Ht Hx.
  - rewrite mul_Periodogram_eq, Ha, P_mul_cases, np_multiply_empty.
    cbn [np_size length Nat.ltb Nat.leb]. split.
    + intros Hd. apply Nat.leb_gt in Hd. rewrite Hd.
      unfold P_combine. rewrite Ht, Hx. reflexivity.
    + intros Hd. apply Nat.leb_le in Hd. rewrite Hd.
      unfold P_combine. rewrite Ht, Hx. cbn [stored_P].
      do 3 eexists. split; [reflexivity|].
      split; [apply lookup_insert_eq|]. repeat split.
  - rewrite mul_Multitaper_eq, Ha, M_mul_cases, np_multiply_empty.
    cbn [np_size length Nat.ltb Nat.leb]. split.
    + intros Hd. apply Nat.leb_gt in Hd. rewrite Hd.
      unfold M_combine. rewrite Ht, Hx. reflexivity.
    + intros Hd. apply Nat.leb_le in Hd. rewrite Hd.
      unfold M_combine. rewrite Ht, Hx. cbn [stored_M].
      do 3 eexists. split; [reflexivity|].
      split; [apply lookup_insert_eq|]. repeat split.
Qed.

(** ** Shapes *)

Lemma length_frequency_axis N dt : length (frequency_axis N dt) = N.
Proof.
  unfold frequency_axis, fftfreq_values.
  now rewrite !length_map, length_seq.
Qed.

Lemma length_P_built_density flag dt x :
  length (P_built_density flag dt x) = length x.
Proof.
  unfold P_built_density. destruct (is_True flag).
  - now rewrite length_map, length_Qfft.
  - apply length_np_zeros.
Qed.

Lemma length_estimate_P t x dt d :
  length d = length x -> P_arrays_have_length (length x) (estimate_P t x dt d).
Proof.
  intros Hd. unfold P_arrays_have_length, estimate_P. P_fields.
  rewrite length_frequency_axis, !length_map, repeat_length. tauto.
Qed.

Lemma is_matrix_taper_bank tapers N Nmt :
  is_matrix N Nmt (taper_bank tapers N Nmt).
Proof.
  unfold taper_bank. split; [now rewrite length_map, length_seq|].
  apply List.Forall_map, List.Forall_forall. intros k _.
  now rewrite length_map, length_seq.
Qed.

(** What a call of [compute] that returned found and left. *)
Lemma M_compute_inv self bw l self' l' t0 t1 ts N Nmt :
  Multitaper.t self = t0 :: t1 :: ts ->
  length (Multitaper.signal self) = N ->
  is_matrix N Nmt (Multitaper.dpss self) ->
  is_matrix N Nmt (Multitaper.densities self) ->
  (0 < N)%nat ->
  Multitaper.compute self bw l = (inr self', l') ->
  exists tapers eigens ds,
    dpss_tapers N bw Nmt = inr (tapers, eigens) /\
    self' = Multitaper.set_densities ds
              (Multitaper.set_dpss (taper_bank tapers N Nmt) self) /\
    is_matrix N Nmt ds /\
    forall n, (n < Nmt)%nat ->
      get_column n ds =
        inr (tapered_density (t1 - t0) (Multitaper.signal self)
                             (taper_column tapers N n)).
Proof.
  intros Ht Hx Hp Hd HN E.
  destruct (dpss_tapers N bw Nmt) as [e|[tapers eigens]] eqn:Hc.
  - exfalso. revert E.
    unfold Multitaper.compute, print, spectrum_dpss.
    rewrite Ht. unfold size0. rewrite (size1_matrix N Nmt _ Hp HN).
    destruct Hp as [Hp0 Hp1]. rewrite Hp0.
    st_unfold. cbn [time_step]. st_unfold. rewrite Hc. discriminate.
  - destruct (M_compute_spec self bw l t0 t1 ts tapers eigens N Nmt
                Ht Hx Hp Hd HN Hc) as (ds & l1 & E1 & Hm & Hcols).
    rewrite E1 in E. injection E as <- <-.
    exists tapers, eigens, ds. repeat split; try apply Hm; assumption.
Qed.

Lemma length_mean_axis1 ds : length (mean_axis1 ds) = length ds.
Proof. apply length_map. Qed.

(** X9.  An estimate a constructor returns was given a time axis of two
    instants or more and a signal of one sample or more, and every array it
    holds has the length [N] of the signal: the frequency axis, the density,
    the Stokes parameters, the normalized Stokes parameters and the degree
    of polarization; the per-taper densities and the taper bank of a
    multitaper estimate have [N] rows and [floor(2 bw) - 1] columns. *)
Theorem constructed_arrays_have_the_signal_length :
  (forall t x flag w a w1,
     new_Periodogram t x flag w = (inr a, w1) ->
     exists p xs,
       x = QuaternionArray xs /\ periodograms w1 !! a = Some p /\
       (2 <= length t)%nat /\ (1 <= length xs)%nat /\
       Periodogram.signal p = xs /\
       P_arrays_have_length (length xs) p) /\
  (forall t x bw flag w a w1,
     new_Multitaper t x bw flag w = (inr a, w1) ->
     exists m xs,
       x = QuaternionArray xs /\ multitapers w1 !! a = Some m /\
       (2 <= length t)%nat /\ (1 <= length xs)%nat /\
       (0 <= Zfloor (2 * bw) - 1)%Z /\
       Multitaper.signal m = xs /\
       M_arrays_have_length (length xs) m /\
       is_matrix (length xs) (Z.to_nat (Zfloor (2 * bw) - 1))
                 (Multitaper.densities m) /\
       is_matrix (length xs) (Z.to_nat (Zfloor (2 * bw) - 1))
                 (Multitaper.dpss m)).
Proof.
  split.
  - intros t x flag w a w1 E. apply new_Periodogram_inv in E.
    destruct E as (t0 & t1 & ts & x0 & xs & l & -> & -> & -> & ->).
    do 2 eexists. split; [reflexivity|].
    split; [apply lookup_insert_eq|].
    split; [cbn [length]; lia|]. split; [cbn [length]; lia|].
    split; [reflexivity|].
    apply length_estimate_P, length_P_built_density.
  - intros t x bw flag w a w1. rewrite new_Multitaper_eq. intros E.
    apply stored_M_inv in E. destruct E as (m & l & E & Hc).
    apply M_init_inv in E.
    destruct E as (t0 & t1 & ts & x0 & xs & self & -> & -> & Hn & -> & Hs).
    set (N := length (x0 :: xs)). set (Nmt := Z.to_nat (Zfloor (2 * bw) - 1)).
    assert (Hshape : Multitaper.signal self = x0 :: xs /\
              length (Multitaper.f self) = N /\
              is_matrix N Nmt (Multitaper.densities self) /\
              is_matrix N Nmt (Multitaper.dpss self)).
    { destruct Hs as [[_ ->]|[_ (l0 & l1 & E)]].
      - unfold M_blank. M_fields. rewrite length_frequency_axis.
        repeat split; try apply repeat_length;
          apply (is_matrix_zeros _ N Nmt).
      - apply (M_compute_inv _ bw l0 self l1 t0 t1 ts N Nmt) in E;
          try reflexivity; try apply (is_matrix_zeros _ N Nmt);
          [|subst N; cbn [length]; lia].
        destruct E as (tapers & eigens & ds & _ & -> & Hm & _).
        unfold M_blank. M_fields. rewrite length_frequency_axis.
        split; [reflexivity|]. split; [reflexivity|].
        split; [exact Hm | apply is_matrix_taper_bank]. }
    destruct Hshape as (Hx & Hf & Hd & Hp).
    exists (M_finish self), (x0 :: xs).
    split; [reflexivity|]. split; [exact Hc|].
    split; [cbn [length]; lia|]. split; [cbn [length]; lia|].
    split; [exact Hn|]. split; [exact Hx|].
    split; [|split; [exact Hd | exact Hp]].
    unfold M_arrays_have_length, M_finish. M_fields.
    rewrite !length_map, repeat_length, length_mean_axis1.
    destruct Hd as [Hd _]. rewrite Hd, Hf. tauto.
Qed.

(** ** The time axis *)

Lemma for_each_on_result {S A B} (g : B -> B) (body : A -> B -> ST S B) xs :
  (forall x acc s, body x (g acc) s = on_result g (body x acc s)) ->
  forall acc s,
    for_each xs body (g acc) s = on_result g (for_each xs body acc s).
Proof.
  intros Hb. induction xs as [|x xs IH]; intros acc s; [reflexivity|].
  cbn [for_each]. rewrite !bind_unfold, Hb.
  destruct (body x acc s) as [[e|acc1] s1]; cbn [on_result];
    [reflexivity | apply IH].
Qed.

Lemma tapered_periodogram_on_axis t' dt n self l :
  Multitaper.tapered_periodogram dt n (M_on_axis t' self) l =
  on_result (M_on_axis t') (Multitaper.tapered_periodogram dt n self l).
Proof.
  destruct self as [t sig f ds tp d s0 s1 s2 s3 s1n s2n s3n phi].
  unfold Multitaper.tapered_periodogram, qfft_Qfft, utils_StokesNorm.
  unfold M_on_axis. M_fields. st_unfold.
  destruct (get_column n tp) as [e|taper]; [reflexivity|].
  destruct (broadcast2 qmulr sig taper) as [e|xn]; [reflexivity|].
  destruct (set_column n _ ds) as [e|ds']; reflexivity.
Qed.

Lemma M_compute_on_axis t0 t1 ts t0' t1' ts' self bw l :
  Multitaper.t self = t0 :: t1 :: ts -> t1 - t0 = t1' - t0' ->
  Multitaper.compute (M_on_axis (t0' :: t1' :: ts') self) bw l =
  on_result (M_on_axis (t0' :: t1' :: ts')) (Multitaper.compute self bw l).
Proof.
  intros Ht Hdt.
  destruct self as [t sig f ds tp d s0 s1 s2 s3 s1n s2n s3n phi].
  cbn [Multitaper.t] in Ht. subst t.
  unfold Multitaper.compute, print, spectrum_dpss.
  cbn [M_on_axis Multitaper.t Multitaper.dpss Multitaper.set_dpss
       Multitaper.signal Multitaper.f Multitaper.densities
       Multitaper.density Multitaper.S0 Multitaper.S1 Multitaper.S2
       Multitaper.S3 Multitaper.S1n Multitaper.S2n Multitaper.S3n
       Multitaper.Phi].
  st_unfold. cbn [time_step]. st_unfold. rewrite <- Hdt.
  destruct (dpss_tapers _ bw _) as [e|[tapers eigens]]; [reflexivity|].
  match goal with
  | |- for_each ?xs ?body (Multitaper.set_dpss ?bank (M_on_axis ?t ?r)) ?s = _ =>
      exact (for_each_on_result (M_on_axis t) body xs
               (fun n acc s0 => tapered_periodogram_on_axis t _ n acc s0)
               (Multitaper.set_dpss bank r) s)
  end.
Qed.

(** X10.  The constructors read the time axis at its first two instants
    only, and through their difference: on two axes with the same first
    step, of whatever length and whatever their later instants, they raise
    the same error or return the same estimate, the stored time axis apart,
    and log the same requests. *)
Theorem construction_reads_the_first_time_step_only
    t0 t1 ts t0' t1' ts' x bw flag l :
  t1 - t0 = t1' - t0' ->
  Periodogram.__init__ (t0' :: t1' :: ts') x flag l =
    on_result (P_on_axis (t0' :: t1' :: ts'))
              (Periodogram.__init__ (t0 :: t1 :: ts) x flag l) /\
  Multitaper.__init__ (t0' :: t1' :: ts') x bw flag l =
    on_result (M_on_axis (t0' :: t1' :: ts'))
              (Multitaper.__init__ (t0 :: t1 :: ts) x bw flag l).
Proof.
  intros Hdt. rewrite !P_init_cases, !M_init_cases.
  destruct x as [?|?|xs]; try (split; reflexivity).
  destruct xs as [|x0 xs]; [split; reflexivity|]. rewrite <- Hdt. split.
  - reflexivity.
  - cbv zeta. destruct (Zfloor (2 * bw) - 1 <? 0)%Z; [reflexivity|].
    destruct (is_True flag); [|reflexivity].
    change (M_blank (t0' :: t1' :: ts') (x0 :: xs) (t1 - t0)
                    (Zfloor (2 * bw) - 1))
      with (M_on_axis (t0' :: t1' :: ts')
              (M_blank (t0 :: t1 :: ts) (x0 :: xs) (t1 - t0)
                       (Zfloor (2 * bw) - 1))).
    rewrite (M_compute_on_axis t0 t1 ts t0' t1' ts') by (reflexivity || exact Hdt).
    destruct (Multitaper.compute _ bw _) as [[e|self] l1]; reflexivity.
Qed.

(** X11.  The flag is tested with [is True]: numpy's [True], which is
    another object than Python's, does not trigger the computation, and the
    constructors do with it what they do with [computeFlag=False]. *)
Theorem numpy_True_does_not_trigger_compute t x bw b w :
  new_Periodogram t x (NpBool b) w = new_Periodogram t x (PyBool false) w /\
  new_Multitaper t x bw (NpBool b) w = new_Multitaper t x bw (PyBool false) w.
Proof.
  rewrite !new_Periodogram_eq, !new_Multitaper_eq.
  rewrite !P_init_cases, !M_init_cases. split; reflexivity.
Qed.

(** ** The frequency axis *)

Lemma frequency_axis_lookup N dt k v :
  frequency_axis N dt !! k = Some v ->
  (k < N)%nat /\ v = IZR (fftfreq_index N k) * (1 / (INR N * 1)) / dt.
Proof.
  unfold frequency_axis, fftfreq_values. rewrite !list_lookup_fmap.
  intros E. destruct (seq 0 N !! k) as [j|] eqn:Ej; [|discriminate].
  apply lookup_seq in Ej. destruct Ej as [-> Hk].
  cbn in E. injection E as <-. split; [lia | reflexivity].
Qed.

Lemma frequency_axis_signs N dt :
  0 < dt -> zero_positive_negative N (frequency_axis N dt).
Proof.
  intros Hdt. split; [apply length_frequency_axis|].
  intros k v E. apply frequency_axis_lookup in E. destruct E as [Hk ->].
  assert (HN : 0 < INR N) by (apply lt_0_INR; lia).
  assert (Hs : 0 < 1 / (INR N * 1) / dt).
  { apply Rdiv_lt_0_compat; [|exact Hdt].
    apply Rdiv_lt_0_compat; lra. }
  replace (IZR (fftfreq_index N k) * (1 / (INR N * 1)) / dt)
    with (IZR (fftfreq_index N k) * (1 / (INR N * 1) / dt))
    by (unfold Rdiv; ring).
  unfold fftfreq_index.
  destruct (Nat.ltb_spec k ((N - 1) / 2 + 1)) as [Hlt|Hge].
  - split; [intros ->; cbn; ring|]. split; [|lia].
    intros [Hk0 _]. apply Rmult_lt_0_compat; [|exact Hs].
    apply IZR_lt. lia.
  - split; [lia|]. split; [lia|]. intros _.
    assert (Hneg : IZR (Z.of_nat k - Z.of_nat N) < 0) by (apply IZR_lt; lia).
    nra.
Qed.

(** X12.  On a time axis whose second instant is later than the first, the
    frequency axis of a constructed estimate has as many entries as the
    signal and is in the order of [np.fft.fftfreq]: entry 0 is the zero
    frequency, the entries up to index [(N - 1) // 2] are positive, and all
    the later ones are negative.  Both classes. *)
Theorem frequency_axis_is_zero_positive_negative t0 t1 ts x bw flag w a w1 :
  t0 < t1 ->
  (new_Periodogram (t0 :: t1 :: ts) x flag w = (inr a, w1) ->
   exists p,
     periodograms w1 !! a = Some p /\
     zero_positive_negative (length (Periodogram.signal p))
                            (Periodogram.f p)) /\
  (new_Multitaper (t0 :: t1 :: ts) x bw flag w = (inr a, w1) ->
   exists m,
     multitapers w1 !! a = Some m /\
     zero_positive_negative (length (Multitaper.signal m))
                            (Multitaper.f m)).
Proof.
  intros Hdt. split.
  - intros E. apply new_Periodogram_inv in E.
    destruct E as (t0' & t1' & ts' & x0 & xs & l & [= <- <- <-] & -> & -> & ->).
    eexists. split; [apply lookup_insert_eq|].
    cbn [estimate_P Periodogram.signal Periodogram.f].
    apply frequency_axis_signs. lra.
  - rewrite new_Multitaper_eq. intros E.
    apply stored_M_inv in E. destruct E as (m & l & E & Hc).
    apply M_init_inv in E.
    destruct E as (t0' & t1' & ts' & x0 & xs & self & [= <- <- <-] & -> & Hn
                   & -> & Hs).
    exists (M_finish self). split; [exact Hc|].
    assert (Hf : Multitaper.signal self = x0 :: xs /\
                 Multitaper.f self = frequency_axis (length (x0 :: xs))
                                                    (t1 - t0)).
    { destruct Hs as [[_ ->]|[_ (l0 & l1 & E)]]; [split; reflexivity|].
      apply M_compute_assigns in E. destruct E as (ds & tp & ->).
      split; reflexivity. }
    destruct Hf as [Hx Hf].
    cbn [M_finish Multitaper.signal Multitaper.f]. rewrite Hx, Hf.
    apply frequency_axis_signs. lra.
Qed.

(** ** Computing again *)

(** Two arrays of the same shape with the same columns are the same. *)
Lemma matrix_ext {A} N Nmt (a b : list (list A)) :
  is_matrix N Nmt a -> is_matrix N Nmt b ->
  (forall n, (n < Nmt)%nat -> exists col,
     get_column n a = inr col /\ get_column n b = inr col) ->
  a = b.
Proof.
  intros [Ha Hra] [Hb Hrb] Hcols. apply list_eq. intros i.
  destruct (a !! i) as [ra|] eqn:Ea.
  - assert (Hi : (i < length b)%nat)
      by (apply lookup_lt_Some in Ea; lia).
    apply lookup_lt_is_Some in Hi. destruct Hi as [rb Eb]. rewrite Eb.
    f_equal. apply list_eq. intros j.
    pose proof (proj1 (List.Forall_forall _ a) Hra ra) as Hla.
    pose proof (proj1 (List.Forall_forall _ b) Hrb rb) as Hlb.
    assert (Lra : length ra = Nmt)
      by (apply Hla, list_elem_of_In, list_elem_of_lookup; eauto).
    assert (Lrb : length rb = Nmt)
      by (apply Hlb, list_elem_of_In, list_elem_of_lookup; eauto).
    destruct (Nat.lt_ge_cases j Nmt) as [Hj|Hj].
    + destruct (Hcols j Hj) as (col & Ga & Gb).
      apply get_column_spec in Ga. apply get_column_spec in Gb.
      destruct (Forall2_lookup_l _ _ _ _ _ Ga Ea) as (v & Ev & Hv).
      destruct (Forall2_lookup_l _ _ _ _ _ Gb Eb) as (v' & Ev' & Hv').
      rewrite Ev in Ev'. injection Ev' as <-. congruence.
    + rewrite !(proj2 (lookup_ge_None _ _)) by lia. reflexivity.
  - symmetry. apply lookup_ge_None. apply lookup_ge_None in Ea. lia.
Qed.

(** X13.  On an estimate built with [computeFlag=True], a further call of
    [compute] (with the bandwidth of the construction, for a multitaper
    estimate) returns and leaves every stored instance as it was: the
    density, or the tapered periodograms and the taper bank, are assigned
    the values they had. *)
Theorem computing_again_changes_nothing :
  (forall t x w a w1,
     new_Periodogram t x (PyBool true) w = (inr a, w1) ->
     exists w2,
       compute_Periodogram a w1 = (inr tt, w2) /\
       periodograms w2 = periodograms w1 /\
       multitapers w2 = multitapers w1) /\
  (forall t x bw w a w1,
     new_Multitaper t x bw (PyBool true) w = (inr a, w1) ->
     exists w2,
       compute_Multitaper a bw w1 = (inr tt, w2) /\
       periodograms w2 = periodograms w1 /\
       multitapers w2 = multitapers w1).
Proof.
  split.
  - intros t x w a w1 E. apply new_Periodogram_inv in E.
    destruct E as (t0 & t1 & ts & x0 & xs & l & -> & -> & -> & ->).
    rewrite compute_Periodogram_eq. cbn [periodograms multitapers log].
    rewrite lookup_insert_eq.
    rewrite (P_compute_eq _ t0 t1 ts) by reflexivity.
    eexists. split; [reflexivity|]. cbn [periodograms multitapers].
    split; [|reflexivity]. rewrite insert_insert_eq. reflexivity.
  - intros t x bw w a w1. rewrite new_Multitaper_eq. intros E.
    pose proof E as E0.
    apply stored_M_inv in E. destruct E as (m & l & E & Hc).
    apply M_init_inv in E.
    destruct E as (t0 & t1 & ts & x0 & xs & self & -> & -> & Hn & -> & Hs).
    destruct Hs as [[[=] _]|[_ (l0 & l1 & E)]].
    set (N := length (x0 :: xs)) in *.
    set (Nmt := Z.to_nat (Zfloor (2 * bw) - 1)) in *.
    assert (HN : (0 < N)%nat) by (subst N; cbn [length]; lia).
    apply (M_compute_inv _ bw l0 self l1 t0 t1 ts N Nmt) in E;
      try reflexivity; try apply (is_matrix_zeros _ N Nmt); [|exact HN].
    destruct E as (tapers & eigens & ds & Hd & -> & Hm & Hcols).
    rewrite compute_Multitaper_eq, Hc.
    match goal with
    | |- context [Multitaper.compute ?s bw ?l2] =>
        destruct (M_compute_spec s bw l2 t0 t1 ts tapers eigens N Nmt)
          as (ds' & l' & E' & Hm' & Hcols');
          try reflexivity; try assumption;
          try apply is_matrix_taper_bank
    end.
    rewrite E'.
    assert (Hds : ds' = ds).
    { apply (matrix_ext N Nmt); try assumption.
      intros n Hn'. eexists. split; [apply Hcols' | apply Hcols]; exact Hn'. }
    subst ds'. eexists. split; [reflexivity|].
    cbn [periodograms multitapers]. split; [reflexivity|].
    apply insert_id. exact Hc.
Qed.

(** ** normalize *)

Lemma P_normalize_cases tol self :
  Periodogram.normalize tol self =
  P_normalized self
    (normalizeStokes (Periodogram.S0 self) (Periodogram.S1 self)
                     (Periodogram.S2 self) (Periodogram.S3 self) tol).
Proof.
  unfold Periodogram.normalize, P_normalized, degree_of_polarization, get, put.
  st_unfold.
  destruct (normalizeStokes _ _ _ _ tol) as [e|[[s1n s2n] s3n]];
    [reflexivity|].
  P_fields.
  destruct (np_add_float (np_square s1n) (np_square s2n)) as [e|sq];
    [reflexivity|].
  destruct (np_add_float sq (np_square s3n)) as [e|sq']; reflexivity.
Qed.

Lemma M_normalize_cases tol self :
  Multitaper.normalize tol self =
  M_normalized self
    (normalizeStokes (Multitaper.S0 self) (Multitaper.S1 self)
                     (Multitaper.S2 self) (Multitaper.S3 self) tol).
Proof.
  unfold Multitaper.normalize, M_normalized, degree_of_polarization, get, put.
  st_unfold.
  destruct (normalizeStokes _ _ _ _ tol) as [e|[[s1n s2n] s3n]];
    [reflexivity|].
  M_fields.
  destruct (np_add_float (np_square s1n) (np_square s2n)) as [e|sq];
    [reflexivity|].
  destruct (np_add_float sq (np_square s3n)) as [e|sq']; reflexivity.
Qed.

Lemma normalize_Periodogram_eq a tol w :
  normalize_Periodogram a tol w =
  match periodograms w !! a with
  | Some self =>
      let r := Periodogram.normalize tol self in
      (r.1, World (<[a := r.2]> (periodograms w)) (multitapers w) (log w))
  | None => (inl NameError, w)
  end.
Proof.
  unfold normalize_Periodogram, on_P. rewrite bind_unfold. unfold load_P.
  destruct (periodograms w !! a) as [self|]; [|reflexivity].
  destruct (Periodogram.normalize tol self) as [r self'].
  unfold store_P. st_unfold. reflexivity.
Qed.

Lemma normalize_Multitaper_eq a tol w :
  normalize_Multitaper a tol w =
  match multitapers w !! a with
  | Some self =>
      let r := Multitaper.normalize tol self in
      (r.1, World (periodograms w) (<[a := r.2]> (multitapers w)) (log w))
  | None => (inl NameError, w)
  end.
Proof.
  unfold normalize_Multitaper, on_M. rewrite bind_unfold. unfold load_M.
  destruct (multitapers w !! a) as [self|]; [|reflexivity].
  destruct (Multitaper.normalize tol self) as [r self'].
  unfold store_M. st_unfold. reflexivity.
Qed.

Lemma P_normalized_same self n : P_same_estimate self (P_normalized self n).2.
Proof.
  unfold P_normalized. destruct n as [e|[[s1n s2n] s3n]].
  - repeat split.
  - destruct (degree_of_polarization s1n s2n s3n); repeat split.
Qed.

Lemma M_normalized_same self n : M_same_estimate self (M_normalized self n).2.
Proof.
  unfold M_normalized. destruct n as [e|[[s1n s2n] s3n]].
  - repeat split.
  - destruct (degree_of_polarization s1n s2n s3n); repeat split.
Qed.

(** X14.  [normalize] assigns the normalized Stokes parameters and the
    degree of polarization of its own instance and nothing else, whether it
    returns or raises: the time axis, the signal, the frequency axis, the
    density (and the tapered periodograms and the taper bank) and the Stokes
    parameters of the instance are as before, every other stored instance is
    as before, and nothing is logged.  On a name bound to no instance the
    world is as it was. *)
Theorem normalize_assigns_the_normalized_fields_only a tol w r w' :
  (normalize_Periodogram a tol w = (r, w') ->
   log w' = log w /\ multitapers w' = multitapers w /\
   (forall b, b <> a -> periodograms w' !! b = periodograms w !! b) /\
   match periodograms w !! a with
   | Some p => exists p', periodograms w' !! a = Some p' /\
                          P_same_estimate p p'
   | None => r = inl NameError /\ w' = w
   end) /\
  (normalize_Multitaper a tol w = (r, w') ->
   log w' = log w /\ periodograms w' = periodograms w /\
   (forall b, b <> a -> multitapers w' !! b = multitapers w !! b) /\
   match multitapers w !! a with
   | Some m => exists m', multitapers w' !! a = Some m' /\
                          M_same_estimate m m'
   | None => r = inl NameError /\ w' = w
   end).
Proof.
  split.
  - rewrite normalize_Periodogram_eq.
    destruct (periodograms w !! a) as [self|] eqn:Ea.
    + cbv zeta. intros [= <- <-]. cbn [log multitapers periodograms].
      split; [reflexivity|]. split; [reflexivity|].
      split; [intros b Hb; now apply lookup_insert_ne|].
      eexists. split; [apply lookup_insert_eq|].
      rewrite P_normalize_cases. apply P_normalized_same.
    + intros [= <- <-]. repeat split. 
  - rewrite normalize_Multitaper_eq.
    destruct (multitapers w !! a) as [self|] eqn:Ea.
    + cbv zeta. intros [= <- <-]. cbn [log multitapers periodograms].
      split; [reflexivity|]. split; [reflexivity|].
      split; [intros b Hb; now apply lookup_insert_ne|].
      eexists. split; [apply lookup_insert_eq|].
      rewrite M_normalize_cases. apply M_normalized_same.
    + intros [= <- <-]. repeat split.
Qed.

Lemma degree_of_polarization_same_length s1n s2n s3n :
  length s2n = length s1n -> length s3n = length s1n ->
  exists phi,
    degree_of_polarization s1n s2n s3n = inr phi /\
    length phi = length s1n /\
    forall k, (k < length s1n)%nat ->
      exists v, phi !! k = Some v /\ is_vector_length s1n s2n s3n k v.
Proof.
  intros H2 H3. unfold degree_of_polarization, np_add_float, np_square.
  rewrite broadcast2_same_length by (rewrite !length_map; congruence).
  rewrite broadcast2_same_length
    by (rewrite length_zip_with, !length_map; lia).
  eexists. split; [reflexivity|]. unfold np_sqrt.
  split; [rewrite length_map, length_zip_with, length_zip_with, !length_map; lia|].
  intros k Hk.
  destruct (lookup_lt_is_Some_2 s1n k Hk) as [u Eu].
  destruct (lookup_lt_is_Some_2 s2n k ltac:(lia)) as [v Ev].
  destruct (lookup_lt_is_Some_2 s3n k ltac:(lia)) as [z Ez].
  exists (sqrt (u ^ 2 + v ^ 2 + z ^ 2)). split.
  - rewrite list_lookup_fmap, !lookup_zip_with, !list_lookup_fmap.
    rewrite Eu, Ev, Ez. reflexivity.
  - exists u, v, z. repeat split; try assumption.
    + apply sqrt_pos.
    + apply sqrt_sqrt.
      pose proof (pow2_ge_0 u). pose proof (pow2_ge_0 v).
      pose proof (pow2_ge_0 z). lra.
Qed.

(** X15.  When [normalizeStokes] returns three arrays of the same length,
    [normalize] returns: the instance holds the three arrays, and its degree
    of polarization has their length, with at every index the length of the
    vector the three arrays make there, which is not negative.  Both
    classes. *)
Theorem normalize_sets_the_degree_of_polarization a tol w s1n s2n s3n :
  length s2n = length s1n -> length s3n = length s1n ->
  (forall p,
     periodograms w !! a = Some p ->
     normalizeStokes (Periodogram.S0 p) (Periodogram.S1 p)
       (Periodogram.S2 p) (Periodogram.S3 p) tol = inr (s1n, s2n, s3n) ->
     exists w' p',
       normalize_Periodogram a tol w = (inr tt, w') /\
       periodograms w' !! a = Some p' /\
       Periodogram.S1n p' = s1n /\ Periodogram.S2n p' = s2n /\
       Periodogram.S3n p' = s3n /\
       length (Periodogram.Phi p') = length s1n /\
       forall k, (k < length s1n)%nat ->
         exists phi, Periodogram.Phi p' !! k = Some phi /\
                     is_vector_length s1n s2n s3n k phi) /\
  (forall m,
     multitapers w !! a = Some m ->
     normalizeStokes (Multitaper.S0 m) (Multitaper.S1 m)
       (Multitaper.S2 m) (Multitaper.S3 m) tol = inr (s1n, s2n, s3n) ->
     exists w' m',
       normalize_Multitaper a tol w = (inr tt, w') /\
       multitapers w' !! a = Some m' /\
       Multitaper.S1n m' = s1n /\ Multitaper.S2n m' = s2n /\
       Multitaper.S3n m' = s3n /\
       length (Multitaper.Phi m') = length s1n /\
       forall k, (k < length s1n)%nat ->
         exists phi, Multitaper.Phi m' !! k = Some phi /\
                     is_vector_length s1n s2n s3n k phi).
Proof.
  intros H2 H3.
  destruct (degree_of_polarization_same_length s1n s2n s3n H2 H3)
    as (phi & Ephi & Hlen & Hphi).
  split.
  - intros p Ha En. rewrite normalize_Periodogram_eq, Ha, P_normalize_cases, En.
    unfold P_normalized. rewrite Ephi. cbv zeta. cbn [fst snd].
    do 2 eexists. split; [reflexivity|]. cbn [periodograms].
    split; [apply lookup_insert_eq|]. P_fields. repeat split; assumption.
  - intros m Ha En. rewrite normalize_Multitaper_eq, Ha, M_normalize_cases, En.
    unfold M_normalized. rewrite Ephi. cbv zeta. cbn [fst snd].
    do 2 eexists. split; [reflexivity|]. cbn [multitapers].
    split; [apply lookup_insert_eq|]. M_fields. repeat split; assumption.
Qed.

Lemma P_normalized_twice self n :
  P_normalized (P_normalized self n).2 n = P_normalized self n.
Proof.
  unfold P_normalized. destruct n as [e|[[s1n s2n] s3n]]; [reflexivity|].
  destruct (degree_of_polarization s1n s2n s3n) as [e|phi]; reflexivity.
Qed.

Lemma M_normalized_twice self n :
  M_normalized (M_normalized self n).2 n = M_normalized self n.
Proof.
  unfold M_normalized. destruct n as [e|[[s1n s2n] s3n]]; [reflexivity|].
  destruct (degree_of_polarization s1n s2n s3n) as [e|phi]; reflexivity.
Qed.

(** X16.  A second call of [normalize] with the same tolerance does what
    the first did: it answers the same, returning or raising, and leaves the
    world as the first call left it.  Both classes. *)
Theorem normalizing_twice_is_normalizing_once a tol w r w' :
  (normalize_Periodogram a tol w = (r, w') ->
   normalize_Periodogram a tol w' = (r, w')) /\
  (normalize_Multitaper a tol w = (r, w') ->
   normalize_Multitaper a tol w' = (r, w')).
Proof.
  split.
  - rewrite normalize_Periodogram_eq.
    destruct (periodograms w !! a) as [self|] eqn:Ea.
    + cbv zeta. intros [= <- <-]. rewrite normalize_Periodogram_eq.
      cbn [periodograms multitapers log]. rewrite lookup_insert_eq. cbv zeta.
      rewrite insert_insert_eq.
      rewrite (P_normalize_cases tol (Periodogram.normalize tol self).2).
      rewrite (P_normalize_cases tol self).
      destruct (P_normalized_same self
                  (normalizeStokes (Periodogram.S0 self) (Periodogram.S1 self)
                     (Periodogram.S2 self) (Periodogram.S3 self) tol))
        as (_ & _ & _ & _ & -> & -> & -> & ->).
      rewrite P_normalized_twice. reflexivity.
    + intros [= <- <-]. rewrite normalize_Periodogram_eq, Ea. reflexivity.
  - rewrite normalize_Multitaper_eq.
    destruct (multitapers w !! a) as [self|] eqn:Ea.
    + cbv zeta. intros [= <- <-]. rewrite normalize_Multitaper_eq.
      cbn [periodograms multitapers log]. rewrite lookup_insert_eq. cbv zeta.
      rewrite insert_insert_eq.
      rewrite (M_normalize_cases tol (Multitaper.normalize tol self).2).
      rewrite (M_normalize_cases tol self).
      destruct (M_normalized_same self
                  (normalizeStokes (Multitaper.S0 self) (Multitaper.S1 self)
                     (Multitaper.S2 self) (Multitaper.S3 self) tol))
        as (_ & _ & _ & _ & _ & _ & -> & -> & -> & ->).
      rewrite M_normalized_twice. reflexivity.
    + intros [= <- <-]. rewrite normalize_Multitaper_eq, Ea. reflexivity.
Qed.





(** X18.  Building an estimate with [computeFlag=False] and calling
    [compute] on it (with the bandwidth of the construction, for a
    multitaper estimate) assigns what the construction with
    [computeFlag=True] assigns: the two estimates have the same density, or
    the same tapered periodograms and the same taper bank, on the same time
    axis, signal and frequency axis. *)
Theorem deferred_then_compute_matches_eager :
  (forall t x w a w1 b w1',
     new_Periodogram t x (PyBool true) w = (inr a, w1) ->
     new_Periodogram t x (PyBool false) w = (inr b, w1') ->
     exists w2 p q,
       compute_Periodogram b w1' = (inr tt, w2) /\
       periodograms w1 !! a = Some p /\ periodograms w2 !! b = Some q /\
       Periodogram.density q = Periodogram.density p /\
       Periodogram.t q = Periodogram.t p /\
       Periodogram.signal q = Periodogram.signal p /\
       Periodogram.f q = Periodogram.f p) /\
  (forall t x bw w a w1 b w1',
     new_Multitaper t x bw (PyBool true) w = (inr a, w1) ->
     new_Multitaper t x bw (PyBool false) w = (inr b, w1') ->
     exists w2 m q,
       compute_Multitaper b bw w1' = (inr tt, w2) /\
       multitapers w1 !! a = Some m /\ multitapers w2 !! b = Some q /\
       Multitaper.densities q = Multitaper.densities m /\
       Multitaper.dpss q = Multitaper.dpss m /\
       Multitaper.t q = Multitaper.t m /\
       Multitaper.signal q = Multitaper.signal m /\
       Multitaper.f q = Multitaper.f m).
Proof.
  split.
  - intros t x w a w1 b w1' E1 E2.
    apply new_Periodogram_inv in E1.
    destruct E1 as (t0 & t1 & ts & x0 & xs & l & -> & -> & -> & ->).
    apply new_Periodogram_inv in E2.
    destruct E2 as (t0' & t1' & ts' & x0' & xs' & l' & [= <- <- <-]
                    & [= <- <-] & -> & ->).
    rewrite compute_Periodogram_eq. cbn [periodograms multitapers log].
    rewrite lookup_insert_eq.
    rewrite (P_compute_eq _ t0 t1 ts) by reflexivity.
    do 3 eexists. split; [reflexivity|]. cbn [periodograms].
    split; [apply lookup_insert_eq|]. split; [apply lookup_insert_eq|].
    repeat split.
  - intros t x bw w a w1 b w1'. rewrite !new_Multitaper_eq. intros E1 E2.
    apply stored_M_inv in E1. destruct E1 as (m & l & E1 & Hc).
    apply M_init_inv in E1.
    destruct E1 as (t0 & t1 & ts & x0 & xs & self & -> & -> & Hn & -> & Hs).
    destruct Hs as [[[=] _]|[_ (l0 & l1 & E)]].
    set (N := length (x0 :: xs)) in *.
    set (Nmt := Z.to_nat (Zfloor (2 * bw) - 1)) in *.
    assert (HN : (0 < N)%nat) by (subst N; cbn [length]; lia).
    apply (M_compute_inv _ bw l0 self l1 t0 t1 ts N Nmt) in E;
      try reflexivity; try apply (is_matrix_zeros _ N Nmt); [|exact HN].
    destruct E as (tapers & eigens & ds & Hd & -> & Hm & Hcols).
    rewrite M_init_deferred in E2 by (reflexivity || exact Hn).
    cbn [stored_M] in E2. injection E2 as <- <-.
    rewrite compute_Multitaper_eq. cbn [periodograms multitapers log].
    rewrite lookup_insert_eq.
    match goal with
    | |- context [Multitaper.compute ?s bw ?l2] =>
        destruct (M_compute_spec s bw l2 t0 t1 ts tapers eigens N Nmt)
          as (ds' & l' & E' & Hm' & Hcols');
          try reflexivity; try assumption;
          try apply (is_matrix_zeros _ N Nmt)
    end.
    rewrite E'.
    assert (Hds : ds' = ds).
    { apply (matrix_ext N Nmt); try assumption.
      intros n Hn'. eexists. split; [apply Hcols' | apply Hcols]; exact Hn'. }
    subst ds'. do 3 eexists. split; [reflexivity|]. cbn [multitapers].
    split; [exact Hc|]. split; [apply lookup_insert_eq|].
    repeat split.
Qed.

(** ** The Stokes parameters and the density *)

Lemma in_step_stored_P w r0 r w' :
  world_in_step w -> (forall p l, r0 = (inr p, l) -> P_in_step p) ->
  stored_P w r0 = (r, w') -> world_in_step w'.
Proof.
  intros [HP HM] Hp. destruct r0 as [[e|p] l]; cbn [stored_P].
  - intros [= <- <-]. split; assumption.
  - intros [= <- <-]. split; [|exact HM].
    intros a q. cbn [periodograms].
    destruct (decide (a = fresh (dom (periodograms w)))) as [->|Hne].
    + rewrite lookup_insert_eq. intros [= <-]. eapply Hp; reflexivity.
    + rewrite lookup_insert_ne by congruence. apply HP.
Qed.

Lemma in_step_stored_M w r0 r w' :
  world_in_step w -> (forall m l, r0 = (inr m, l) -> M_in_step m) ->
  stored_M w r0 = (r, w') -> world_in_step w'.
Proof.
  intros [HP HM] Hm. destruct r0 as [[e|m] l]; cbn [stored_M].
  - intros [= <- <-]. split; assumption.
  - intros [= <- <-]. split; [exact HP|].
    intros a q. cbn [multitapers].
    destruct (decide (a = fresh (dom (multitapers w)))) as [->|Hne].
    + rewrite lookup_insert_eq. intros [= <-]. eapply Hm; reflexivity.
    + rewrite lookup_insert_ne by congruence. apply HM.
Qed.

Lemma in_step_P_combine self d l p l' :
  P_combine self d l = (inr p, l') -> P_in_step p.
Proof.
  intros E. apply P_combine_inv in E.
  destruct E as (? & ? & ? & ? & ? & d' & _ & _ & _ & ->).
  intros l0. rewrite P_getStokes_eq. reflexivity.
Qed.

Lemma in_step_M_combine self d l m l' :
  M_combine self d l = (inr m, l') -> M_in_step m.
Proof.
  intros E. apply M_combine_inv in E.
  destruct E as (? & ? & ? & ? & ? & d' & _ & _ & _ & ->).
  intros l0. rewrite M_getStokes_eq. reflexivity.
Qed.

Lemma in_step_step c w r w' :
  world_in_step w -> exec c w = (r, w') -> world_in_step w'.
Proof.
  intros Hw.
  destruct c as [t x flag|a b|a s|s a|t x bw flag|a b|a s|s a];
    cbn [exec].
  - rewrite new_Periodogram_eq. apply in_step_stored_P; [exact Hw|].
    intros p l. rewrite P_init_cases.
    destruct x as [?|?|xs]; try discriminate.
    destruct t as [|t0 [|t1 ts]]; try (destruct xs; discriminate).
    destruct xs as [|x0 xs]; [discriminate|].
    intros [= <- _] l0. rewrite P_getStokes_eq. reflexivity.
  - rewrite add_Periodogram_eq.
    destruct (periodograms w !! a) as [self|];
      [|intros [= <- <-]; exact Hw].
    destruct (periodograms w !! b) as [other|];
      [|intros [= <- <-]; exact Hw].
    apply in_step_stored_P; [exact Hw|]. intros p l. rewrite P_add_cases.
    apply in_step_P_combine.
  - rewrite mul_Periodogram_eq.
    destruct (periodograms w !! a) as [self|];
      [|intros [= <- <-]; exact Hw].
    apply in_step_stored_P; [exact Hw|]. intros p l. rewrite P_mul_cases.
    destruct (1 <? np_size s)%nat; [discriminate|].
    apply in_step_P_combine.
  - rewrite rmul_Periodogram_eq, mul_Periodogram_eq.
    destruct (periodograms w !! a) as [self|];
      [|intros [= <- <-]; exact Hw].
    apply in_step_stored_P; [exact Hw|]. intros p l. rewrite P_mul_cases.
    destruct (1 <? np_size s)%nat; [discriminate|].
    apply in_step_P_combine.
  - rewrite new_Multitaper_eq. apply in_step_stored_M; [exact Hw|].
    intros m l E. apply M_init_inv in E.
    destruct E as (? & ? & ? & ? & ? & self & _ & _ & _ & -> & _).
    intros l0. rewrite M_getStokes_eq. reflexivity.
  - rewrite add_Multitaper_eq.
    destruct (multitapers w !! a) as [self|];
      [|intros [= <- <-]; exact Hw].
    destruct (multitapers w !! b) as [other|];
      [|intros [= <- <-]; exact Hw].
    apply in_step_stored_M; [exact Hw|]. intros m l. rewrite M_add_cases.
    apply in_step_M_combine.
  - rewrite mul_Multitaper_eq.
    destruct (multitapers w !! a) as [self|];
      [|intros [= <- <-]; exact Hw].
    apply in_step_stored_M; [exact Hw|]. intros m l. rewrite M_mul_cases.
    destruct (1 <? np_size s)%nat; [discriminate|].
    apply in_step_M_combine.
  - rewrite rmul_Multitaper_eq, mul_Multitaper_eq.
    destruct (multitapers w !! a) as [self|];
      [|intros [= <- <-]; exact Hw].
    apply in_step_stored_M; [exact Hw|]. intros m l. rewrite M_mul_cases.
    destruct (1 <? np_size s)%nat; [discriminate|].
    apply in_step_M_combine.
Qed.

(** X19.  In every store a program of constructions, sums and products
    reaches, whatever their arguments, the Stokes parameters every estimate
    holds are the ones [_getStokes] returns on it as it is: the constructors
    and the operators read them off the density last, so they are in step
    with it.  (A later call of [compute] is what leaves them behind.) *)
Theorem Stokes_parameters_follow_the_density w :
  reachable (fun _ => True) w -> world_in_step w.
Proof.
  induction 1 as [|w c r w' _ IH _ E].
  - split; intros a p; cbn [empty_world periodograms multitapers];
      rewrite lookup_empty; discriminate.
  - eapply in_step_step; eassumption.
Qed.

(** ** The taper generator *)

(** X20.  When the taper generator raises, the construction of a multitaper
    estimate with [computeFlag=True] raises the same error and stores
    nothing; the log shows the frequency axis requested, the number of
    tapers printed and the bank requested, and no transform. *)
Theorem taper_generator_error_aborts_construction t0 t1 ts x0 xs bw w e :
  (0 <= Zfloor (2 * bw) - 1)%Z ->
  dpss_tapers (length (x0 :: xs)) bw (Z.to_nat (Zfloor (2 * bw) - 1)) = inl e ->
  new_Multitaper (t0 :: t1 :: ts) (QuaternionArray (x0 :: xs)) bw
                 (PyBool true) w =
  (inl e,
   with_log w
     (ev_dpss (length (x0 :: xs)) bw (Z.to_nat (Zfloor (2 * bw) - 1))
        :: ev_print (Z.to_nat (Zfloor (2 * bw) - 1))
        :: ev_fftfreq (length (x0 :: xs)) :: log w)).
Proof.
  intros Hn He. rewrite new_Multitaper_eq, M_init_cases. cbv zeta.
  destruct (Z.ltb_spec (Zfloor (2 * bw) - 1) 0) as [?|_]; [lia|].
  cbn [is_True].
  set (N := length (x0 :: xs)) in *.
  set (Nmt := Z.to_nat (Zfloor (2 * bw) - 1)) in *.
  assert (HN : (0 < N)%nat) by (subst N; cbn [length]; lia).
  unfold Multitaper.compute, print, spectrum_dpss, M_blank. M_fields.
  fold N. fold Nmt. unfold size0. rewrite repeat_length.
  rewrite (size1_matrix N Nmt _ (is_matrix_zeros 0 N Nmt) HN).
  st_unfold. cbn [time_step]. st_unfold. rewrite He. reflexivity.
Qed.

(** A construction that returns, for the closed examples. *)
Lemma new_Multitaper_returns t0 t1 ts x0 xs bw w tapers eigens :
  (0 <= Zfloor (2 * bw) - 1)%Z ->
  dpss_tapers (length (x0 :: xs)) bw (Z.to_nat (Zfloor (2 * bw) - 1))
    = inr (tapers, eigens) ->
  exists a w1,
    new_Multitaper (t0 :: t1 :: ts) (QuaternionArray (x0 :: xs)) bw
                   (PyBool true) w = (inr a, w1).
Proof.
  intros Hn Hd. rewrite new_Multitaper_eq, M_init_cases. cbv zeta.
  destruct (Z.ltb_spec (Zfloor (2 * bw) - 1) 0) as [?|_]; [lia|].
  cbn [is_True].
  set (N := length (x0 :: xs)) in *.
  set (Nmt := Z.to_nat (Zfloor (2 * bw) - 1)) in *.
  assert (HN : (0 < N)%nat) by (subst N; cbn [length]; lia).
  match goal with
  | |- context [Multitaper.compute ?s bw ?l] =>
      destruct (M_compute_spec s bw l t0 t1 ts tapers eigens N Nmt)
        as (ds & l' & E & _); try reflexivity; try assumption;
        try apply (is_matrix_zeros _ N Nmt)
  end.
  rewrite E. cbn [M_finish_run stored_M]. eauto.
Qed.

End FurtherProperties.

(** ** The projection matrix *)

Lemma py_div_nonzero a b : b <> 0 -> py_div a b = inr (a / b).
Proof. intros Hb. unfold py_div. now destruct (Req_dec_T b 0). Qed.

Lemma py_div_zero a : py_div a 0 = inl ZeroDivisionError.
Proof. unfold py_div. now destruct (Req_dec_T 0 0). Qed.

(** X21.  [_orthogonal_proj] raises [ZeroDivisionError] when the two depths
    are equal.  Otherwise it returns a matrix that leaves the first two
    coordinates of a point [(x, y, z, 1)] as they are, gives it the fourth
    coordinate [zback - 0.0001 z], and in its third row sends the depth
    [zfront] to [zfront] and the depth [zback] to [- zback]; when the depths
    are opposite, as matplotlib passes them, every point gets the third
    coordinate [zfront]. *)
Theorem orthogonal_proj_keeps_x_and_y zfront zback :
  (zfront = zback -> _orthogonal_proj zfront zback = inl ZeroDivisionError) /\
  (zfront <> zback ->
   exists M,
     _orthogonal_proj zfront zback = inr M /\
     (forall x y z, exists z',
        matvec M [x; y; z; 1] = [x; y; z'; zback - 0.0001 * z]) /\
     (forall x y, exists w,
        matvec M [x; y; zfront; 1] = [x; y; zfront; w]) /\
     (forall x y, exists w,
        matvec M [x; y; zback; 1] = [x; y; - zback; w]) /\
     (zfront = - zback ->
      forall x y z, exists w, matvec M [x; y; z; 1] = [x; y; zfront; w])).
Proof.
  split.
  - intros ->. unfold _orthogonal_proj.
    replace (zback - zback) with 0 by ring. now rewrite py_div_zero.
  - intros Hne. assert (Hd : zfront - zback <> 0) by lra.
    unfold _orthogonal_proj. rewrite !py_div_nonzero by exact Hd.
    eexists. split; [reflexivity|].
    unfold matvec, dot, Rsum. cbn [map zip_with fold_right].
    split; [|split; [|split]].
    + intros x y z. eexists.
      repeat apply (f_equal2 (@cons R)); try reflexivity; lra.
    + intros x y. eexists.
      repeat apply (f_equal2 (@cons R)); try reflexivity;
        try ring; field; exact Hd.
    + intros x y. eexists.
      repeat apply (f_equal2 (@cons R)); try reflexivity;
        try ring; field; exact Hd.
    + intros Hs x y z. eexists. subst zfront.
      repeat apply (f_equal2 (@cons R)); try reflexivity;
        try ring; field; lra.
Qed.

(** ** Closed examples of the further properties *)

Lemma example_world_periodogram :
  periodograms example_world !! 1%positive = Some example_periodogram.
Proof. apply lookup_singleton_eq. Qed.

Lemma example_world_multitaper :
  multitapers example_world !! 1%positive = Some example_multitaper.
Proof. apply lookup_singleton_eq. Qed.

(** The sum of the stored periodogram with itself and three times the stored
    multitaper estimate return. *)
Lemma example_sum_returns :
  exists c w',
    @add_Periodogram example_collaborators 1%positive 1%positive example_world
    = (inr c, w').
Proof.
  rewrite add_Periodogram_eq, example_world_periodogram, P_add_cases.
  unfold P_combine, np_add.
  rewrite broadcast2_same_length by reflexivity.
  cbn [example_periodogram estimate_P Periodogram.t Periodogram.signal
       impulse stored_P].
  eauto.
Qed.

Lemma example_product_returns :
  exists c w',
    @mul_Multitaper example_collaborators 1%positive (Scalar 3) example_world
    = (inr c, w').
Proof.
  rewrite mul_Multitaper_eq, example_world_multitaper, M_mul_cases.
  cbn [np_size Nat.ltb Nat.leb np_multiply]. unfold M_combine.
  cbn [example_multitaper estimate_M Multitaper.t Multitaper.signal
       impulse stored_M].
  eauto.
Qed.

Lemma example_multitaper_sum_returns :
  exists c w',
    @add_Multitaper example_collaborators 1%positive 1%positive example_world
    = (inr c, w').
Proof.
  rewrite add_Multitaper_eq, example_world_multitaper, M_add_cases.
  unfold M_combine, np_add.
  rewrite broadcast2_same_length by reflexivity.
  cbn [example_multitaper estimate_M Multitaper.t Multitaper.signal
       impulse stored_M].
  eauto.
Qed.

(** X1, at a time axis of one instant. *)
Lemma short_time_axis_raises_IndexError_witness :
  @new_Periodogram example_collaborators [0] (QuaternionArray impulse)
     (PyBool true) empty_world = (inl IndexError, empty_world) /\
  @new_Multitaper example_collaborators [0] (QuaternionArray impulse) (5 / 2)
     (PyBool true) empty_world = (inl IndexError, empty_world).
Proof.
  apply (@short_time_axis_raises_IndexError example_collaborators).
  cbn [length]. lia.
Defined.

(** X2, at the time axis [0, 1] and a bandwidth that gives no taper. *)
Lemma empty_signal_raises_ZeroDivisionError_witness :
  @new_Periodogram example_collaborators [0; 1] (QuaternionArray [])
     (PyBool true) empty_world =
    (inl ZeroDivisionError, with_log empty_world [ev_fftfreq 0]) /\
  @new_Multitaper example_collaborators [0; 1] (QuaternionArray []) (1 / 4)
     (PyBool true) empty_world =
    (inl ZeroDivisionError, with_log empty_world [ev_fftfreq 0]).
Proof.
  apply (@empty_signal_raises_ZeroDivisionError example_collaborators).
  cbn [length]. lia.
Defined.

(** X3, at the sum of the stored periodogram with itself. *)
Lemma operators_request_no_transform_witness :
  exists l,
    log (@add_Periodogram example_collaborators 1%positive 1%positive
           example_world).2 = l ++ log example_world /\
    Forall requests_no_transform l.
Proof.
  apply (@operators_request_no_transform example_collaborators 1%positive
           1%positive (Scalar 3) example_world
           (@add_Periodogram example_collaborators 1%positive 1%positive
              example_world).1).
  left. apply surjective_pairing.
Defined.

(** X4, at the sum of the stored periodogram with itself and at three times
    the stored multitaper estimate. *)
Lemma operator_results_are_not_normalized_witness :
  (exists c w' new,
     @add_Periodogram example_collaborators 1%positive 1%positive
        example_world = (inr c, w') /\
     periodograms w' !! c = Some new /\
     P_normalized_are [0; 0] new) /\
  (exists c w' new,
     @mul_Multitaper example_collaborators 1%positive (Scalar 3)
        example_world = (inr c, w') /\
     multitapers w' !! c = Some new /\
     M_normalized_are [0; 0] new).
Proof.
  split.
  - destruct example_sum_returns as (c & w' & E).
    destruct (proj1 (@operator_results_are_not_normalized
                       example_collaborators 1%positive 1%positive (Scalar 3)
                       example_world c w') (or_introl E))
      as (self & new & Ha & Hc & _ & _ & Hz).
    rewrite example_world_periodogram in Ha. injection Ha as <-.
    exists c, w', new. auto.
  - destruct example_product_returns as (c & w' & E).
    destruct (proj2 (@operator_results_are_not_normalized
                       example_collaborators 1%positive 1%positive (Scalar 3)
                       example_world c w') (or_intror (or_introl E)))
      as (self & new & Ha & Hc & _ & _ & Hz).
    rewrite example_world_multitaper in Ha. injection Ha as <-.
    exists c, w', new. auto.
Defined.

(** X5, at three times the stored multitaper estimate. *)
Lemma multitaper_operators_reset_the_tapers_witness :
  exists c w' new,
    @mul_Multitaper example_collaborators 1%positive (Scalar 3)
       example_world = (inr c, w') /\
    multitapers w' !! c = Some new /\
    Multitaper.densities new = repeat (repeat quaternion_zero 4) 2 /\
    Multitaper.dpss new = repeat (repeat 0 4) 2.
Proof.
  destruct example_product_returns as (c & w' & E).
  destruct (@multitaper_operators_reset_the_tapers example_collaborators
              1%positive 1%positive (Scalar 3) example_world c w'
              (or_intror (or_introl E)))
    as (self & new & Ha & Hc & Hd & Hp).
  rewrite example_world_multitaper in Ha. injection Ha as <-.
  exists c, w', new. auto.
Defined.

(** The estimates of the store with three lengths. *)
Lemma ragged_world_P1 :
  periodograms ragged_world !! 1%positive = Some (zero_periodogram impulse).
Proof.
  cbn [ragged_world periodograms].
  rewrite !lookup_insert_ne by discriminate. apply lookup_singleton_eq.
Qed.

Lemma ragged_world_P2 :
  periodograms ragged_world !! 2%positive
  = Some (zero_periodogram three_samples).
Proof.
  cbn [ragged_world periodograms].
  rewrite lookup_insert_ne by discriminate. apply lookup_insert_eq.
Qed.

Lemma ragged_world_P3 :
  periodograms ragged_world !! 3%positive = Some (zero_periodogram one_sample).
Proof. cbn [ragged_world periodograms]. apply lookup_insert_eq. Qed.

Lemma ragged_world_M1 :
  multitapers ragged_world !! 1%positive = Some (zero_multitaper impulse).
Proof.
  cbn [ragged_world multitapers].
  rewrite !lookup_insert_ne by discriminate. apply lookup_singleton_eq.
Qed.

Lemma ragged_world_M2 :
  multitapers ragged_world !! 2%positive
  = Some (zero_multitaper three_samples).
Proof.
  cbn [ragged_world multitapers].
  rewrite lookup_insert_ne by discriminate. apply lookup_insert_eq.
Qed.

Lemma ragged_world_M3 :
  multitapers ragged_world !! 3%positive = Some (zero_multitaper one_sample).
Proof. cbn [ragged_world multitapers]. apply lookup_insert_eq. Qed.

(** A sum whose operands are stored, on data a constructor accepts and with
    densities that broadcast, returns. *)
Lemma add_Periodogram_returns a b w p q t0 t1 ts x xs d :
  periodograms w !! a = Some p -> periodograms w !! b = Some q ->
  Periodogram.t p = t0 :: t1 :: ts -> Periodogram.signal p = x :: xs ->
  np_add (Periodogram.density p) (Periodogram.density q) = inr d ->
  exists c w',
    @add_Periodogram example_collaborators a b w = (inr c, w').
Proof.
  intros Ha Hb Ht Hx Hd.
  rewrite add_Periodogram_eq, Ha, Hb, P_add_cases, Hd.
  unfold P_combine. rewrite Ht, Hx. cbn [stored_P]. eauto.
Qed.

Lemma add_Multitaper_returns a b w p q t0 t1 ts x xs d :
  multitapers w !! a = Some p -> multitapers w !! b = Some q ->
  Multitaper.t p = t0 :: t1 :: ts -> Multitaper.signal p = x :: xs ->
  np_add (Multitaper.density p) (Multitaper.density q) = inr d ->
  exists c w',
    @add_Multitaper example_collaborators a b w = (inr c, w').
Proof.
  intros Ha Hb Ht Hx Hd.
  rewrite add_Multitaper_eq, Ha, Hb, M_add_cases, Hd.
  unfold M_combine. rewrite Ht, Hx. cbn [stored_M]. eauto.
Qed.

(** X6, at the estimates of two samples and of one sample, added in both
    orders. *)
Lemma sum_commutes_on_density_witness :
  (exists c w1 c' w2 p p',
     @add_Periodogram example_collaborators 1%positive 3%positive
        ragged_world = (inr c, w1) /\
     @add_Periodogram example_collaborators 3%positive 1%positive
        ragged_world = (inr c', w2) /\
     periodograms w1 !! c = Some p /\ periodograms w2 !! c' = Some p' /\
     Periodogram.density p = Periodogram.density p' /\
     Periodogram.S0 p = Periodogram.S0 p' /\
     Periodogram.signal p = impulse /\
     Periodogram.signal p' = one_sample) /\
  (exists c w1 c' w2 m m',
     @add_Multitaper example_collaborators 1%positive 3%positive
        ragged_world = (inr c, w1) /\
     @add_Multitaper example_collaborators 3%positive 1%positive
        ragged_world = (inr c', w2) /\
     multitapers w1 !! c = Some m /\ multitapers w2 !! c' = Some m' /\
     Multitaper.density m = Multitaper.density m' /\
     Multitaper.S0 m = Multitaper.S0 m' /\
     Multitaper.signal m = impulse /\
     Multitaper.signal m' = one_sample).
Proof.
  split.
  - destruct (add_Periodogram_returns 1%positive 3%positive ragged_world
                _ _ 0 1 [] (real_quaternion 1) [real_quaternion 0] _
                ragged_world_P1 ragged_world_P3 eq_refl eq_refl
                (np_add_single _ _)) as (c & w1 & E1).
    destruct (add_Periodogram_returns 3%positive 1%positive ragged_world
                _ _ 0 1 [] (real_quaternion 1) [] _
                ragged_world_P3 ragged_world_P1 eq_refl eq_refl
                (eq_trans (np_add_comm _ _) (np_add_single _ _)))
      as (c' & w2 & E2).
    destruct (proj1 (@sum_commutes_on_density example_collaborators
                       1%positive 3%positive ragged_world c w1 c' w2) E1 E2)
      as (pa & pb & p & p' & Ha & Hb & Hc & Hc' & Hd & H0 & _ & _ & _
          & Hs & Hs' & _).
    rewrite ragged_world_P1 in Ha. injection Ha as <-.
    rewrite ragged_world_P3 in Hb. injection Hb as <-.
    exists c, w1, c', w2, p, p'. auto 10.
  - destruct (add_Multitaper_returns 1%positive 3%positive ragged_world
                _ _ 0 1 [] (real_quaternion 1) [real_quaternion 0] _
                ragged_world_M1 ragged_world_M3 eq_refl eq_refl
                (np_add_single _ _)) as (c & w1 & E1).
    destruct (add_Multitaper_returns 3%positive 1%positive ragged_world
                _ _ 0 1 [] (real_quaternion 1) [] _
                ragged_world_M3 ragged_world_M1 eq_refl eq_refl
                (eq_trans (np_add_comm _ _) (np_add_single _ _)))
      as (c' & w2 & E2).
    destruct (proj2 (@sum_commutes_on_density example_collaborators
                       1%positive 3%positive ragged_world c w1 c' w2) E1 E2)
      as (pa & pb & p & p' & Ha & Hb & Hc & Hc' & Hd & H0 & _ & _ & _
          & Hs & Hs' & _).
    rewrite ragged_world_M1 in Ha. injection Ha as <-.
    rewrite ragged_world_M3 in Hb. injection Hb as <-.
    exists c, w1, c', w2, p, p'. auto 10.
Defined.

(** X7, at the estimate of two samples added to the one of three samples,
    and to the one of one sample. *)
Lemma sum_of_unequal_lengths_broadcasts_or_raises_witness :
  (@add_Periodogram example_collaborators 1%positive 2%positive ragged_world =
     (inl BroadcastError,
      with_log ragged_world [ev_sympSplit (np_zeros 2); ev_fftfreq 2]) /\
   exists c w' new,
     @add_Periodogram example_collaborators 1%positive 3%positive
        ragged_world = (inr c, w') /\
     periodograms w' !! c = Some new /\
     Periodogram.density new =
       map (fun v => qadd v quaternion_zero) (np_zeros 2)) /\
  (@add_Multitaper example_collaborators 1%positive 2%positive ragged_world =
     (inl BroadcastError,
      with_log ragged_world [ev_sympSplit (np_zeros 2); ev_fftfreq 2]) /\
   exists c w' new,
     @add_Multitaper example_collaborators 1%positive 3%positive
        ragged_world = (inr c, w') /\
     multitapers w' !! c = Some new /\
     Multitaper.density new =
       map (fun v => qadd v quaternion_zero) (np_zeros 2)).
Proof.
  split; split.
  - apply (proj1 (@sum_of_unequal_lengths_broadcasts_or_raises
                    example_collaborators 1%positive 2%positive ragged_world)
             _ _ 0 1 [] (real_quaternion 1) [real_quaternion 0]
             ragged_world_P1 ragged_world_P2 eq_refl eq_refl);
      cbn; lia.
  - apply (proj1 (@sum_of_unequal_lengths_broadcasts_or_raises
                    example_collaborators 1%positive 3%positive ragged_world)
             _ _ 0 1 [] (real_quaternion 1) [real_quaternion 0]
             ragged_world_P1 ragged_world_P3 eq_refl eq_refl).
    reflexivity.
  - apply (proj2 (@sum_of_unequal_lengths_broadcasts_or_raises
                    example_collaborators 1%positive 2%positive ragged_world)
             _ _ 0 1 [] (real_quaternion 1) [real_quaternion 0]
             ragged_world_M1 ragged_world_M2 eq_refl eq_refl);
      cbn; lia.
  - apply (proj2 (@sum_of_unequal_lengths_broadcasts_or_raises
                    example_collaborators 1%positive 3%positive ragged_world)
             _ _ 0 1 [] (real_quaternion 1) [real_quaternion 0]
             ragged_world_M1 ragged_world_M3 eq_refl eq_refl).
    reflexivity.
Defined.

(** X8, at the estimates of two samples and of one sample. *)
Lemma empty_multiplicand_passes_the_guard_witness :
  (@mul_Periodogram example_collaborators 1%positive (Array []) ragged_world =
     (inl BroadcastError,
      with_log ragged_world [ev_sympSplit (np_zeros 2); ev_fftfreq 2]) /\
   exists c w' new,
     @mul_Periodogram example_collaborators 3%positive (Array [])
        ragged_world = (inr c, w') /\
     periodograms w' !! c = Some new /\
     Periodogram.density new = [] /\ Periodogram.S0 new = []) /\
  (@mul_Multitaper example_collaborators 1%positive (Array []) ragged_world =
     (inl BroadcastError,
      with_log ragged_world [ev_sympSplit (np_zeros 2); ev_fftfreq 2]) /\
   exists c w' new,
     @mul_Multitaper example_collaborators 3%positive (Array [])
        ragged_world = (inr c, w') /\
     multitapers w' !! c = Some new /\
     Multitaper.density new = [] /\ Multitaper.S0 new = []).
Proof.
  split; split.
  - apply (proj1 (@empty_multiplicand_passes_the_guard
                    example_collaborators 1%positive ragged_world)
             _ 0 1 [] (real_quaternion 1) [real_quaternion 0]
             ragged_world_P1 eq_refl eq_refl).
    cbn. lia.
  - destruct (proj1 (@empty_multiplicand_passes_the_guard
                       example_collaborators 3%positive ragged_world)
                _ 0 1 [] (real_quaternion 1) []
                ragged_world_P3 eq_refl eq_refl) as [_ Hone].
    destruct Hone as (c & w' & new & E & Hc & Hd & H0 & _); [cbn; lia|].
    exists c, w', new. auto.
  - apply (proj2 (@empty_multiplicand_passes_the_guard
                    example_collaborators 1%positive ragged_world)
             _ 0 1 [] (real_quaternion 1) [real_quaternion 0]
             ragged_world_M1 eq_refl eq_refl).
    cbn. lia.
  - destruct (proj2 (@empty_multiplicand_passes_the_guard
                       example_collaborators 3%positive ragged_world)
                _ 0 1 [] (real_quaternion 1) []
                ragged_world_M3 eq_refl eq_refl) as [_ Hone].
    destruct Hone as (c & w' & new & E & Hc & Hd & H0 & _); [cbn; lia|].
    exists c, w', new. auto.
Defined.

(** The multitaper estimate of the impulse with the default bandwidth and
    [computeFlag=True] is built and stored. *)
Lemma impulse_multitaper_returns :
  exists a w1,
    @new_Multitaper example_collaborators [0; 1] (QuaternionArray impulse)
      (5 / 2) (PyBool true) empty_world = (inr a, w1).
Proof.
  apply (@new_Multitaper_returns example_collaborators 0 1 []
           (real_quaternion 1) [real_quaternion 0] (5 / 2) empty_world
           (fun _ _ => 1) (repeat 1 (Z.to_nat (Zfloor (2 * (5 / 2)) - 1)))).
  - rewrite five_floor. lia.
  - reflexivity.
Qed.

(** X9, at the periodogram and the multitaper estimate of the impulse. *)
Lemma constructed_arrays_have_the_signal_length_witness :
  (exists a w1 p,
     @new_Periodogram example_collaborators [0; 1] (QuaternionArray impulse)
        (PyBool true) empty_world = (inr a, w1) /\
     periodograms w1 !! a = Some p /\ P_arrays_have_length 2 p) /\
  (exists a w1 m,
     @new_Multitaper example_collaborators [0; 1] (QuaternionArray impulse)
        (5 / 2) (PyBool true) empty_world = (inr a, w1) /\
     multitapers w1 !! a = Some m /\ M_arrays_have_length 2 m /\
     is_matrix 2 4 (Multitaper.densities m) /\
     is_matrix 2 4 (Multitaper.dpss m)).
Proof.
  split.
  - pose proof (impulse_periodogram_stored (PyBool true)) as E.
    destruct (proj1 (@constructed_arrays_have_the_signal_length
                       example_collaborators) _ _ _ _ _ _ E)
      as (p & xs & Hx & Hc & _ & _ & _ & Hl).
    injection Hx as <-. do 3 eexists. split; [exact E|].
    split; [exact Hc | exact Hl].
  - destruct impulse_multitaper_returns as (a & w1 & E).
    destruct (proj2 (@constructed_arrays_have_the_signal_length
                       example_collaborators) _ _ _ _ _ _ _ E)
      as (m & xs & Hx & Hc & _ & _ & _ & _ & Hl & Hd & Hp).
    injection Hx as <-. rewrite five_floor in Hd, Hp.
    exists a, w1, m. auto.
Defined.

(** X10, at the time axes [0, 1] and [2, 3, 7]. *)
Lemma construction_reads_the_first_time_step_only_witness :
  @Periodogram.__init__ example_collaborators [2; 3; 7]
     (QuaternionArray impulse) (PyBool true) [] =
    on_result (P_on_axis [2; 3; 7])
      (@Periodogram.__init__ example_collaborators [0; 1]
         (QuaternionArray impulse) (PyBool true) []) /\
  @Multitaper.__init__ example_collaborators [2; 3; 7]
     (QuaternionArray impulse) (5 / 2) (PyBool true) [] =
    on_result (M_on_axis [2; 3; 7])
      (@Multitaper.__init__ example_collaborators [0; 1]
         (QuaternionArray impulse) (5 / 2) (PyBool true) []).
Proof.
  apply (@construction_reads_the_first_time_step_only example_collaborators
           0 1 [] 2 3 [7]).
  lra.
Defined.

(** X12, at the periodogram of the impulse and at the multitaper estimate
    of the six samples. *)
Lemma frequency_axis_is_zero_positive_negative_witness :
  (exists a w1 p,
     @new_Periodogram example_collaborators [0; 1] (QuaternionArray impulse)
        (PyBool true) empty_world = (inr a, w1) /\
     periodograms w1 !! a = Some p /\
     zero_positive_negative (length (Periodogram.signal p))
                            (Periodogram.f p)) /\
  (exists a w1 m,
     @new_Multitaper example_collaborators six_instants
        (QuaternionArray six_samples) (5 / 2) (PyBool false) empty_world
       = (inr a, w1) /\
     multitapers w1 !! a = Some m /\
     zero_positive_negative (length (Multitaper.signal m))
                            (Multitaper.f m)).
Proof.
  split.
  - pose proof (impulse_periodogram_stored (PyBool true)) as E.
    destruct (proj1 (@frequency_axis_is_zero_positive_negative
                       example_collaborators 0 1 [] (QuaternionArray impulse)
                       (5 / 2) (PyBool true) empty_world _ _ ltac:(lra)) E)
      as (p & Hc & Hf).
    do 3 eexists. split; [exact E|]. split; [exact Hc | exact Hf].
  - pose proof six_samples_multitaper_stored as E.
    destruct (proj2 (@frequency_axis_is_zero_positive_negative
                       example_collaborators 0 1 [2; 3; 4; 5]
                       (QuaternionArray six_samples)
                       (5 / 2) (PyBool false) empty_world _ _ ltac:(lra)) E)
      as (m & Hc & Hf).
    do 3 eexists. split; [exact E|]. split; [exact Hc | exact Hf].
Defined.

(** X13, at the periodogram and the multitaper estimate of the impulse. *)
Lemma computing_again_changes_nothing_witness :
  (exists a w1 w2,
     @new_Periodogram example_collaborators [0; 1] (QuaternionArray impulse)
        (PyBool true) empty_world = (inr a, w1) /\
     @compute_Periodogram example_collaborators a w1 = (inr tt, w2) /\
     periodograms w2 = periodograms w1) /\
  (exists a w1 w2,
     @new_Multitaper example_collaborators [0; 1] (QuaternionArray impulse)
        (5 / 2) (PyBool true) empty_world = (inr a, w1) /\
     @compute_Multitaper example_collaborators a (5 / 2) w1 = (inr tt, w2) /\
     multitapers w2 = multitapers w1).
Proof.
  split.
  - pose proof (impulse_periodogram_stored (PyBool true)) as E.
    destruct (proj1 (@computing_again_changes_nothing example_collaborators)
                _ _ _ _ _ E) as (w2 & E2 & Hp & _).
    do 3 eexists. split; [exact E|]. split; [exact E2 | exact Hp].
  - destruct impulse_multitaper_returns as (a & w1 & E).
    destruct (proj2 (@computing_again_changes_nothing example_collaborators)
                _ _ _ _ _ _ E) as (w2 & E2 & _ & Hm).
    exists a, w1, w2. auto.
Defined.

(** X14, at the stored periodogram and the stored multitaper estimate. *)
Lemma normalize_assigns_the_normalized_fields_only_witness :
  (log (@normalize_Periodogram example_normalizer 1%positive 0
          example_world).2 = log example_world /\
   exists p',
     periodograms (@normalize_Periodogram example_normalizer 1%positive 0
                     example_world).2 !! 1%positive = Some p' /\
     P_same_estimate example_periodogram p') /\
  (log (@normalize_Multitaper example_normalizer 1%positive 0
          example_world).2 = log example_world /\
   exists m',
     multitapers (@normalize_Multitaper example_normalizer 1%positive 0
                    example_world).2 !! 1%positive = Some m' /\
     M_same_estimate example_multitaper m').
Proof.
  split.
  - destruct (proj1 (@normalize_assigns_the_normalized_fields_only
                       example_normalizer 1%positive 0 example_world _ _)
                (surjective_pairing _)) as (Hl & _ & _ & Hp).
    rewrite example_world_periodogram in Hp. auto.
  - destruct (proj2 (@normalize_assigns_the_normalized_fields_only
                       example_normalizer 1%positive 0 example_world _ _)
                (surjective_pairing _)) as (Hl & _ & _ & Hm).
    rewrite example_world_multitaper in Hm. auto.
Defined.

(** X15, at the stored periodogram and the stored multitaper estimate. *)
Lemma normalize_sets_the_degree_of_polarization_witness :
  (exists w' p',
     @normalize_Periodogram example_normalizer 1%positive 0 example_world
       = (inr tt, w') /\
     periodograms w' !! 1%positive = Some p' /\
     length (Periodogram.Phi p') = 2%nat) /\
  (exists w' m',
     @normalize_Multitaper example_normalizer 1%positive 0 example_world
       = (inr tt, w') /\
     multitapers w' !! 1%positive = Some m' /\
     length (Multitaper.Phi m') = 2%nat).
Proof.
  split.
  - destruct (proj1 (@normalize_sets_the_degree_of_polarization
                       example_normalizer 1%positive 0 example_world
                       (zip_with (guarded_ratio 0) [0; 0] [0; 0])
                       (zip_with (guarded_ratio 0) [0; 0] [0; 0])
                       (zip_with (guarded_ratio 0) [0; 0] [0; 0])
                       eq_refl eq_refl)
                example_periodogram example_world_periodogram eq_refl)
      as (w' & p' & E & Hc & _ & _ & _ & Hl & _).
    exists w', p'. auto.
  - destruct (proj2 (@normalize_sets_the_degree_of_polarization
                       example_normalizer 1%positive 0 example_world
                       (zip_with (guarded_ratio 0) [0; 0] [0; 0])
                       (zip_with (guarded_ratio 0) [0; 0] [0; 0])
                       (zip_with (guarded_ratio 0) [0; 0] [0; 0])
                       eq_refl eq_refl)
                example_multitaper example_world_multitaper eq_refl)
      as (w' & m' & E & Hc & _ & _ & _ & Hl & _).
    exists w', m'. auto.
Defined.

(** X16, at the stored periodogram and the stored multitaper estimate. *)
Lemma normalizing_twice_is_normalizing_once_witness :
  @normalize_Periodogram example_normalizer 1%positive 0
     (@normalize_Periodogram example_normalizer 1%positive 0
        example_world).2 =
    ((@normalize_Periodogram example_normalizer 1%positive 0
        example_world).1,
     (@normalize_Periodogram example_normalizer 1%positive 0
        example_world).2) /\
  @normalize_Multitaper example_normalizer 1%positive 0
     (@normalize_Multitaper example_normalizer 1%positive 0
        example_world).2 =
    ((@normalize_Multitaper example_normalizer 1%positive 0
        example_world).1,
     (@normalize_Multitaper example_normalizer 1%positive 0
        example_world).2).
Proof.
  split.
  - apply (proj1 (@normalizing_twice_is_normalizing_once example_normalizer
                    1%positive 0 example_world _ _)).
    apply surjective_pairing.
  - apply (proj2 (@normalizing_twice_is_normalizing_once example_normalizer
                    1%positive 0 example_world _ _)).
    apply surjective_pairing.
Defined.


(** X21, at equal depths and at the depths [-10] and [10]. *)
Lemma orthogonal_proj_keeps_x_and_y_witness :
  _orthogonal_proj 10 10 = inl ZeroDivisionError /\
  exists M,
    _orthogonal_proj (-10) 10 = inr M /\
    forall x y z, exists w, matvec M [x; y; z; 1] = [x; y; -10; w].
Proof.
  split.
  - apply (proj1 (orthogonal_proj_keeps_x_and_y 10 10)). reflexivity.
  - destruct (proj2 (orthogonal_proj_keeps_x_and_y (-10) 10) ltac:(lra))
      as (M & E & _ & _ & _ & Hs).
    exists M. split; [exact E|]. apply Hs. lra.
Defined.

(** X20, at the impulse and the default bandwidth, with a taper generator
    that raises. *)
Lemma taper_generator_error_aborts_construction_witness :
  @new_Multitaper raising_dpss_collaborators [0; 1] (QuaternionArray impulse)
     (5 / 2) (PyBool true) empty_world =
  (inl (ValueError "dpss"),
   with_log empty_world [ev_dpss 2 (5 / 2) 4; ev_print 4; ev_fftfreq 2]).
Proof.
  pose proof (@taper_generator_error_aborts_construction
                raising_dpss_collaborators 0 1 [] (real_quaternion 1)
                [real_quaternion 0] (5 / 2) empty_world (ValueError "dpss"))
    as E.
  rewrite five_floor in E. apply E; [lia | reflexivity].
Defined.

(** The multitaper estimate of the impulse with the default bandwidth and
    [computeFlag=False] is built and stored. *)
Lemma impulse_multitaper_deferred_returns :
  exists a w1,
    @new_Multitaper example_collaborators [0; 1] (QuaternionArray impulse)
      (5 / 2) (PyBool false) empty_world = (inr a, w1).
Proof.
  rewrite new_Multitaper_eq. unfold impulse.
  rewrite M_init_deferred by (try reflexivity; rewrite five_floor; lia).
  cbn [stored_M]. eauto.
Qed.

(** X18, at the periodogram and the multitaper estimate of the impulse. *)
Lemma deferred_then_compute_matches_eager_witness :
  (exists a w1 b w1' w2 p q,
     @new_Periodogram example_collaborators [0; 1] (QuaternionArray impulse)
        (PyBool true) empty_world = (inr a, w1) /\
     @new_Periodogram example_collaborators [0; 1] (QuaternionArray impulse)
        (PyBool false) empty_world = (inr b, w1') /\
     @compute_Periodogram example_collaborators b w1' = (inr tt, w2) /\
     periodograms w1 !! a = Some p /\ periodograms w2 !! b = Some q /\
     Periodogram.density q = Periodogram.density p) /\
  (exists a w1 b w1' w2 m q,
     @new_Multitaper example_collaborators [0; 1] (QuaternionArray impulse)
        (5 / 2) (PyBool true) empty_world = (inr a, w1) /\
     @new_Multitaper example_collaborators [0; 1] (QuaternionArray impulse)
        (5 / 2) (PyBool false) empty_world = (inr b, w1') /\
     @compute_Multitaper example_collaborators b (5 / 2) w1' = (inr tt, w2) /\
     multitapers w1 !! a = Some m /\ multitapers w2 !! b = Some q /\
     Multitaper.densities q = Multitaper.densities m /\
     Multitaper.dpss q = Multitaper.dpss m).
Proof.
  split.
  - pose proof (impulse_periodogram_stored (PyBool true)) as E1.
    pose proof (impulse_periodogram_stored (PyBool false)) as E2.
    destruct (proj1 (@deferred_then_compute_matches_eager
                       example_collaborators) _ _ _ _ _ _ _ E1 E2)
      as (w2 & p & q & E & Hp & Hq & Hd & _).
    do 7 eexists. split; [exact E1|]. split; [exact E2|].
    split; [exact E|]. split; [exact Hp|]. split; [exact Hq | exact Hd].
  - destruct impulse_multitaper_returns as (a & w1 & E1).
    destruct impulse_multitaper_deferred_returns as (b & w1' & E2).
    destruct (proj2 (@deferred_then_compute_matches_eager
                       example_collaborators) _ _ _ _ _ _ _ _ E1 E2)
      as (w2 & m & q & E & Hm & Hq & Hd & Hp & _).
    exists a, w1, b, w1', w2, m, q. auto 10.
Defined.

(** X19, at the store the construction of the periodogram of the impulse
    leaves. *)
Lemma Stokes_parameters_follow_the_density_witness :
  world_in_step
    (@new_Periodogram example_collaborators [0; 1] (QuaternionArray impulse)
       (PyBool true) empty_world).2.
Proof.
  apply (@Stokes_parameters_follow_the_density example_collaborators).
  eapply (@reach_step example_collaborators (fun _ => True) empty_world
            (NewPeriodogram [0; 1] (QuaternionArray impulse) (PyBool true))).
  - apply reach_empty.
  - exact I.
  - apply surjective_pairing.
Defined.
